(** * Crop-yield recommendation service: embedding and properties

    A shallow embedding of the cleaning, fusion, feature and inference code of
    the repository (src/data/cleaner.py, src/data/fusion.py,
    src/features/engineering.py, src/models/inference.py, api/model_loader.py,
    api/main.py, api/schemas.py, src/config/constants.py,
    src/config/schema.py), followed by the properties proved about it. *)

From Stdlib Require Import ZArith Lia Bool Ascii String List.
From Stdlib Require Import Floats.SpecFloat Sorting.Sorted Sorting.Permutation.
From stdpp Require Import base option list sorting strings gmap.

Local Open Scope string_scope.
Local Open Scope list_scope.
Local Open Scope Z_scope.

(** ** Python floats

    A Python [float] (and a numpy [float64]) is an IEEE-754 binary64 value.
    It is modelled by the standard library's [spec_float]; comparisons are
    those of [SFcompare], where a NaN is unordered with everything. *)

Module PyFloat.

Definition prec : Z := 53.
Definition emax : Z := 1024.

Definition is_nan (x : spec_float) : bool :=
  match x with S754_nan => true | _ => false end.

(** [x > y], [x < y], [x <= y], [x == y] on floats. *)
Definition gtb (x y : spec_float) : bool :=
  match SFcompare x y with Some Gt => true | _ => false end.
Definition ltb (x y : spec_float) : bool := SFltb x y.
Definition leb (x y : spec_float) : bool := SFleb x y.
Definition eqb (x y : spec_float) : bool := SFeqb x y.

(** [float(z)] for a Python integer [z]. *)
Definition of_Z (z : Z) : spec_float := binary_normalize prec emax z 0 false.

Definition zero : spec_float := S754_zero false.

(** [max(0, x)]: the builtin keeps its first argument unless a later one
    compares strictly greater, so a NaN (for which [x > 0] is false) gives
    [0].  The integer [0] of the source is represented by the float zero,
    to which it is equal under [==]. *)
Definition max0 (x : spec_float) : spec_float :=
  if gtb x zero then x else zero.

(** [mul], [div] at binary64. *)
Definition mul (x y : spec_float) : spec_float := SFmul prec emax x y.
Definition div (x y : spec_float) : spec_float := SFdiv prec emax x y.

End PyFloat.

(** ** Python exceptions

    The exceptions the modelled code can raise.  [ConfigurationError] and
    [InvalidArgumentError] are the two names of the specification's error
    taxonomy that no code path of the repository raises; they are listed so
    that statements about them can be written. *)

Inductive exn : Type :=
| RuntimeError
| IndexError
| KeyError
| ValueError
| TypeError
| AttributeError
| FileNotFoundError
| ValidationError
| ConfigurationError
| InvalidArgumentError.

Inductive result (A : Type) : Type :=
| Ok (a : A)
| Raise (e : exn).
Arguments Ok {A} a.
Arguments Raise {A} e.

Definition bind {A B} (r : result A) (k : A -> result B) : result B :=
  match r with
  | Ok a => k a
  | Raise e => Raise e
  end.

Notation "'let!' x ':=' r 'in' k" := (bind r (fun x => k))
  (at level 10, x name, r at level 100, k at level 200).

#[global] Instance exn_eq_dec : EqDecision exn.
Proof. solve_decision. Defined.

(** ** Python strings

    A [str] is modelled by the string of its code points, for strings whose
    code points are below 256 (Latin-1): every character of a Rocq string
    stands for the code point of that number. *)

Module PyStr.

(** [c.lower()] for one character: A-Z and the Latin-1 capitals U+00C0 to
    U+00DE (the multiplication sign U+00D7 apart) move up by 32. *)
Definition lower_char (c : ascii) : ascii :=
  let n := N_of_ascii c in
  if ((65 <=? n) && (n <=? 90)
      || (192 <=? n) && (n <=? 222) && negb (n =? 215))%N
  then ascii_of_N (n + 32) else c.

(** [s.lower()] *)
Fixpoint lower (s : string) : string :=
  match s with
  | EmptyString => EmptyString
  | String c s' => String (lower_char c) (lower s')
  end.

(** [c.isspace()]: tab to carriage return, the separators U+001C to
    U+001F, space, U+0085 and U+00A0. *)
Definition is_space (c : ascii) : bool :=
  let n := N_of_ascii c in
  ((9 <=? n) && (n <=? 13) || (28 <=? n) && (n <=? 32)
   || (n =? 133) || (n =? 160))%N.

Fixpoint lstrip (s : string) : string :=
  match s with
  | EmptyString => EmptyString
  | String c s' => if is_space c then lstrip s' else s
  end.

Fixpoint rstrip (s : string) : string :=
  match s with
  | EmptyString => EmptyString
  | String c s' =>
      match rstrip s' with
      | EmptyString => if is_space c then EmptyString else String c EmptyString
      | r => String c r
      end
  end.

(** [s.strip()] *)
Definition strip (s : string) : string := rstrip (lstrip s).

(** [needle in s] *)
Fixpoint contains (needle s : string) : bool :=
  String.prefix needle s
  || match s with
     | EmptyString => false
     | String _ s' => contains needle s'
     end.

End PyStr.

(** ** Python lists: sorting and slicing *)

Section PyList.
Context {A : Type}.
Variable key : A -> spec_float.

(** Stable ascending insertion using only [<] on keys, as [list.sort]
    does: [x], which precedes the elements of [l] in the input, is placed
    before the first element whose key is not strictly smaller. *)
Fixpoint insort (x : A) (l : list A) : list A :=
  match l with
  | [] => [x]
  | y :: l' =>
      if PyFloat.ltb (key y) (key x) then y :: insort x l'
      else x :: y :: l'
  end.

Fixpoint stable_sort (l : list A) : list A :=
  match l with
  | [] => []
  | x :: l' => insort x (stable_sort l')
  end.

(** [l.sort(key=key, reverse=reverse)].  With [reverse=True] CPython
    reverses the list, sorts it stably in ascending order and reverses it
    again, so that equal keys keep their original order.  Whenever [<] is
    a strict weak order on the keys present (no NaN), the result of a
    stable sort is unique, so the insertion sort above gives the list
    that CPython's merge sort gives. *)
Definition list_sort (reverse : bool) (l : list A) : list A :=
  if reverse then rev (stable_sort (rev l)) else stable_sort l.

(** Vocabulary for statements about sorted lists: key order, absence of
    NaN keys, and the sub-list of the elements whose key equals [v]. *)
Definition key_le (a b : A) : Prop := PyFloat.leb (key a) (key b) = true.
Definition key_ge (a b : A) : Prop := PyFloat.leb (key b) (key a) = true.
Definition no_nan (l : list A) : Prop :=
  Forall (fun a => PyFloat.is_nan (key a) = false) l.
Definition with_key (v : spec_float) (l : list A) : list A :=
  List.filter (fun a => PyFloat.eqb (key a) v) l.

(** [l[:n]] for an integer [n], negative values counting from the end. *)
Definition slice_to (l : list A) (n : Z) : list A :=
  if 0 <=? n then take (Z.to_nat n) l
  else take (Z.to_nat (Z.of_nat (length l) + n)) l.

End PyList.

(** [enumerate(l)]: the elements paired with their positions from 0. *)
Definition enumerate {A} (l : list A) : list (nat * A) :=
  zip (seq 0 (length l)) l.

(** [for x in l: ...] where the body may raise. *)
Fixpoint mapM {A B} (f : A -> result B) (l : list A) : result (list B) :=
  match l with
  | [] => Ok []
  | x :: l' =>
      let! y := f x in
      let! ys := mapM f l' in
      Ok (y :: ys)
  end.

(** [a or b] on lists: an empty list is falsy. *)
Definition list_or {A} (a : option (list A)) (b : list A) : list A :=
  match a with
  | Some (x :: l) => x :: l
  | _ => b
  end.

(** ** src/config/constants.py *)

Module Constants.

Definition SUPPORTED_CROPS : list string :=
  [ "Maize"; "Potatoes"; "Rice, paddy"; "Sorghum"; "Soybeans";
    "Wheat"; "Cassava"; "Sweet potatoes"; "Plantains and others"; "Yams" ].

Definition COLUMN_MAPPING : gmap string string :=
  list_to_map
    [ ("Area", "country"); ("Item", "crop"); ("Year", "year");
      ("hg/ha_yield", "yield");
      ("average_rain_fall_mm_per_year", "rainfall_mm");
      ("pesticides_tonnes", "pesticides_tonnes"); ("avg_temp", "avg_temp") ].

(** The fourteenth key is spelt in the source with the two code points
    U+00C3 and U+00B4 after its first letter. *)
Definition COUNTRY_MAPPING : gmap string string :=
  list_to_map
    [ ("United States of America", "United States");
      ("USA", "United States");
      ("UK", "United Kingdom");
      ("United Kingdom of Great Britain and Northern Ireland", "United Kingdom");
      ("Russian Federation", "Russia");
      ("Republic of Korea", "South Korea");
      ("Korea, Republic of", "South Korea");
      ("Viet Nam", "Vietnam");
      ("Iran (Islamic Republic of)", "Iran");
      ("Syrian Arab Republic", "Syria");
      ("Venezuela (Bolivarian Republic of)", "Venezuela");
      ("Bolivia (Plurinational State of)", "Bolivia");
      ("United Republic of Tanzania", "Tanzania");
      (String "C" (String (ascii_of_nat 195) (String (ascii_of_nat 180)
         "te d'Ivoire")), "Ivory Coast");
      ("Czechia", "Czech Republic") ].

End Constants.

(** ** Rows given to the fitted pipeline, and its results *)

(** One row of the frame built for [model.predict]. *)
Record InputRow : Type := mkInputRow {
  in_crop : string;
  in_country : string;
  in_rainfall_mm : spec_float;
  in_pesticides_tonnes : spec_float;
  in_avg_temp : spec_float
}.

(** The fitted pipeline is opaque: a batch [predict] from rows to an array
    of numbers, which may raise. *)
Definition Model : Type := list InputRow -> result (list spec_float).

(** One entry of a recommendation list (a dict with these four keys). *)
Record Recommendation : Type := mkRecommendation {
  rank : nat;
  crop : string;
  predicted_yield : spec_float;
  yield_unit : string
}.

Definition set_rank (r : Recommendation) (k : nat) : Recommendation :=
  {| rank := k; crop := crop r; predicted_yield := predicted_yield r;
     yield_unit := yield_unit r |}.

(** [for i, result in enumerate(results): result["rank"] = i + 1] *)
Definition assign_ranks (results : list Recommendation) : list Recommendation :=
  map (fun ir => set_rank (snd ir) (fst ir + 1)) (enumerate results).

(** [arr[i]] on the prediction array. *)
Definition getitem (predictions : list spec_float) (i : nat) : result spec_float :=
  match predictions !! i with
  | Some p => Ok p
  | None => Raise IndexError
  end.

(** The frame with one row per candidate crop and the same environmental
    inputs, as both recommendation functions build it. *)
Definition input_frame (crops : list string) (country : string)
    (rainfall_mm pesticides_tonnes avg_temp : spec_float) : list InputRow :=
  map (fun crop =>
         {| in_crop := crop; in_country := country; in_rainfall_mm := rainfall_mm;
            in_pesticides_tonnes := pesticides_tonnes; in_avg_temp := avg_temp |})
      crops.

(** Vocabulary for statements: the (crop, predicted yield) pair of a result,
    and the per-crop scores in input order for a clamp function. *)
Definition crop_yield (r : Recommendation) : string * spec_float :=
  (crop r, predicted_yield r).

Definition scored (clamp : spec_float -> spec_float) (crops : list string)
    (predictions : list spec_float) : list (string * spec_float) :=
  zip_with (fun c p => (c, clamp p)) crops predictions.

(** ** src/models/inference.py *)

Module Inference.

Definition predict_yield (model : Model) (crop country : string)
    (rainfall_mm pesticides_tonnes avg_temp : spec_float) : result spec_float :=
  let input_df :=
    [ {| in_crop := crop; in_country := country; in_rainfall_mm := rainfall_mm;
         in_pesticides_tonnes := pesticides_tonnes; in_avg_temp := avg_temp |} ] in
  let! predictions := model input_df in
  let! prediction := getitem predictions 0 in
  Ok prediction.

Definition recommend_crops (model : Model) (country : string)
    (rainfall_mm pesticides_tonnes avg_temp : spec_float)
    (crops : option (list string)) (top_n : option Z)
    : result (list Recommendation) :=
  let crops := list_or crops Constants.SUPPORTED_CROPS in
  let input_df := input_frame crops country rainfall_mm pesticides_tonnes avg_temp in
  let! predictions := model input_df in
  let! results :=
    mapM (fun ic =>
            let! p := getitem predictions (fst ic) in
            Ok {| rank := 0; crop := snd ic; predicted_yield := p;
                  yield_unit := "hg/ha" |})
         (enumerate crops) in
  let results := list_sort predicted_yield true results in
  let results := assign_ranks results in
  let results :=
    match top_n with
    | Some n => slice_to results n
    | None => results
    end in
  Ok results.

Section ValidateCrop.

(** [repr] of a list of strings, used in the error message only. *)
Variable repr : list string -> string.

Definition validate_crop (crop : string) (supported_crops : option (list string))
    : bool * string :=
  let supported_crops := list_or supported_crops Constants.SUPPORTED_CROPS in
  if bool_decide (crop ∈ supported_crops) then (true, "") else
  let crop_lower := PyStr.lower crop in
  match List.find (fun supported => String.eqb (PyStr.lower supported) crop_lower)
          supported_crops with
  | Some supported => (true, ("Did you mean '" ++ supported ++ "'?")%string)
  | None =>
      (false, ("Crop '" ++ crop ++ "' is not supported. Supported crops: "
               ++ repr supported_crops)%string)
  end.

End ValidateCrop.

End Inference.

(** ** api/model_loader.py *)

(** A value of the metadata JSON object: a string ([model_name]) or a list
    of strings ([supported_crops], [supported_countries], feature lists). *)
Inductive meta_value : Type :=
| MStr (s : string)
| MList (l : list string).

(** Iterating a JSON value as the code does with [for crop in crops]: a
    list gives its elements, a string its characters. *)
Definition meta_iter (v : meta_value) : list string :=
  match v with
  | MList l => l
  | MStr s => map (fun c => String c EmptyString) (list_ascii_of_string s)
  end.

(** [a + b] on two JSON values: two lists and two strings concatenate, a
    list and a string cannot be added. *)
Definition meta_add (a b : meta_value) : result meta_value :=
  match a, b with
  | MList x, MList y => Ok (MList (x ++ y))
  | MStr x, MStr y => Ok (MStr (x ++ y))
  | _, _ => Raise TypeError
  end.

(** [x in v] for a string [x]: membership in a list, substring of a string. *)
Definition meta_in (x : string) (v : meta_value) : bool :=
  match v with
  | MList l => bool_decide (x ∈ l)
  | MStr s => PyStr.contains x s
  end.

Module ModelLoader.

Record t : Type := mk {
  model : option Model;
  metadata : option (gmap string meta_value);
  is_loaded : bool;
  _default_crops : list string;
  _default_features : list string
}.

(** [__init__] *)
Definition init : t :=
  {| model := None; metadata := None; is_loaded := false;
     _default_crops :=
       [ "Maize"; "Potatoes"; "Rice, paddy"; "Sorghum"; "Soybeans";
         "Wheat"; "Cassava"; "Sweet potatoes"; "Plantains and others"; "Yams" ];
     _default_features :=
       [ "rainfall_mm"; "pesticides_tonnes"; "avg_temp"; "crop"; "country" ] |}.

(** [load_model]: [model_file] is the content of the model file when it
    exists and unpickles, [metadata_file] that of the metadata file when
    it exists. *)
Definition load_model (self : t) (model_file : option Model)
    (metadata_file : option (gmap string meta_value)) : result t :=
  match model_file with
  | None => Raise FileNotFoundError
  | Some m =>
      Ok {| model := Some m;
            metadata := Some (default ∅ metadata_file);
            is_loaded := true;
            _default_crops := _default_crops self;
            _default_features := _default_features self |}
  end.

(** A dict is truthy when it is not empty. *)
Definition truthy (md : option (gmap string meta_value)) : bool :=
  match md with
  | Some m => bool_decide (dom m ≠ (∅ : gset string))
  | None => false
  end.

(** The [supported_crops] property. *)
Definition supported_crops (self : t) : list string :=
  match metadata self with
  | Some m =>
      if truthy (metadata self) then
        match m !! "supported_crops" with
        | Some v => meta_iter v
        | None => _default_crops self
        end
      else _default_crops self
  | None => _default_crops self
  end.

(** The value that the [supported_crops] property returns;
    [supported_crops] above is what iterating it gives. *)
Definition supported_crops_value (self : t) : meta_value :=
  match metadata self with
  | Some m =>
      if truthy (metadata self) then
        match m !! "supported_crops" with
        | Some v => v
        | None => MList (_default_crops self)
        end
      else MList (_default_crops self)
  | None => MList (_default_crops self)
  end.

(** The [model_version] property. *)
Definition model_version (self : t) : meta_value :=
  match metadata self with
  | Some m =>
      if truthy (metadata self) then default (MStr "unknown") (m !! "model_name")
      else MStr "unknown"
  | None => MStr "unknown"
  end.

(** The [supported_countries] property. *)
Definition supported_countries (self : t) : meta_value :=
  match metadata self with
  | Some m =>
      if truthy (metadata self) then
        match m !! "supported_countries" with
        | Some v => v
        | None => MList []
        end
      else MList []
  | None => MList []
  end.

(** The [feature_names] property. *)
Definition feature_names (self : t) : result meta_value :=
  match metadata self with
  | Some m =>
      if truthy (metadata self) then
        let numeric := default (MList []) (m !! "numeric_features") in
        let categorical := default (MList []) (m !! "categorical_features") in
        meta_add numeric categorical
      else Ok (MList (_default_features self))
  | None => Ok (MList (_default_features self))
  end.

Definition predict_model (self : t) (input_df : list InputRow)
    : result (list spec_float) :=
  match model self with
  | Some m => m input_df
  | None => Raise AttributeError
  end.

Definition predict (self : t) (crop country : string)
    (rainfall_mm pesticides_tonnes avg_temp : spec_float) : result spec_float :=
  if negb (is_loaded self) then Raise RuntimeError else
  let input_df :=
    [ {| in_crop := crop; in_country := country; in_rainfall_mm := rainfall_mm;
         in_pesticides_tonnes := pesticides_tonnes; in_avg_temp := avg_temp |} ] in
  let! predictions := predict_model self input_df in
  let! prediction := getitem predictions 0 in
  Ok (PyFloat.max0 prediction).

Definition recommend (self : t) (country : string)
    (rainfall_mm pesticides_tonnes avg_temp : spec_float) (top_n : option Z)
    : result (list Recommendation) :=
  if negb (is_loaded self) then Raise RuntimeError else
  let crops := supported_crops self in
  let input_df := input_frame crops country rainfall_mm pesticides_tonnes avg_temp in
  let! predictions := predict_model self input_df in
  let! results :=
    mapM (fun ic =>
            let! p := getitem predictions (fst ic) in
            Ok {| rank := 0; crop := snd ic; predicted_yield := PyFloat.max0 p;
                  yield_unit := "hg/ha" |})
         (enumerate crops) in
  let results := list_sort predicted_yield true results in
  let results := assign_ranks results in
  let results :=
    match top_n with
    | Some n => slice_to results n
    | None => results
    end in
  Ok results.

End ModelLoader.

(** The loader states that a program reaches from a fresh loader by
    calling [load_model]; a call that raises leaves the state as it was. *)
Inductive reachable : ModelLoader.t -> Prop :=
| reachable_init : reachable ModelLoader.init
| reachable_load (self self' : ModelLoader.t) (model_file : option Model)
    (metadata_file : option (gmap string meta_value)) :
    reachable self ->
    ModelLoader.load_model self model_file metadata_file = Ok self' ->
    reachable self'.

(** ** pandas tables

    A [DataFrame] is its list of column labels and its rows, each row
    holding one cell per column, in column order.  A cell is a string, an
    integer, a float, or [None].  [CNone] stands for a missing value in a
    column of Python objects, [CFloat S754_nan] for one in a numeric
    column; [isna] holds of both.  Tables whose labels repeat are outside
    the model: selecting a repeated label stops with [ValueError]. *)

Module Pandas.

Inductive cell : Type :=
  | CStr (s : string)
  | CInt (z : Z)
  | CFloat (f : spec_float)
  | CNone.

#[global] Instance spec_float_eq_dec : EqDecision spec_float.
Proof. solve_decision. Defined.

#[global] Instance cell_eq_dec : EqDecision cell.
Proof. solve_decision. Defined.

Definition nan : cell := CFloat S754_nan.

Definition isna (c : cell) : bool :=
  match c with
  | CNone => true
  | CFloat S754_nan => true
  | _ => false
  end.

Record DataFrame : Type := mkDataFrame {
  columns : list string;
  rows : list (list cell)
}.

#[global] Instance DataFrame_eq_dec : EqDecision DataFrame.
Proof. solve_decision. Defined.

(** Every row has one cell per column. *)
Definition wf (df : DataFrame) : Prop :=
  Forall (fun r => length r = length (columns df)) (rows df).

(** [c in df.columns] *)
Definition has_col (df : DataFrame) (c : string) : bool :=
  bool_decide (c ∈ columns df).

(** Position of the first label equal to [c]. *)
Fixpoint index_of (c : string) (cols : list string) : option nat :=
  match cols with
  | [] => None
  | x :: cols' => if String.eqb x c then Some 0%nat else S <$> index_of c cols'
  end.

Definition occurrences (c : string) (cols : list string) : nat :=
  length (List.filter (fun x => String.eqb x c) cols).

(** The position of the column labelled [c]: [KeyError] when there is
    none. *)
Definition locate (df : DataFrame) (c : string) : result nat :=
  match index_of c (columns df) with
  | None => Raise KeyError
  | Some i =>
      if (occurrences c (columns df) =? 1)%nat then Ok i else Raise ValueError
  end.

Definition cell_at (r : list cell) (i : nat) : cell := default CNone (r !! i).

(** [df[c]] as the list of its cells. *)
Definition column (df : DataFrame) (i : nat) : list cell :=
  map (fun r => cell_at r i) (rows df).

(** The table with [f] applied to the cells of column [i]. *)
Definition map_column (f : cell -> cell) (i : nat) (df : DataFrame) : DataFrame :=
  {| columns := columns df; rows := map (alter f i) (rows df) |}.

(** [df[c] = values] for a label [c]: the column is replaced when the
    label exists and appended otherwise. *)
Definition assign (df : DataFrame) (c : string) (values : list cell)
    : result DataFrame :=
  match index_of c (columns df) with
  | None =>
      Ok {| columns := columns df ++ [c];
            rows := zip_with (fun r v => r ++ [v]) (rows df) values |}
  | Some i =>
      if (occurrences c (columns df) =? 1)%nat
      then Ok {| columns := columns df;
                 rows := zip_with (fun r v => <[i := v]> r) (rows df) values |}
      else Raise ValueError
  end.

(** [df[[c1, ..., cn]]] *)
Definition select (df : DataFrame) (cols : list string) : result DataFrame :=
  let! idx := mapM (locate df) cols in
  Ok {| columns := cols;
        rows := map (fun r => map (cell_at r) idx) (rows df) |}.

(** [df.rename(columns=mapping)] *)
Definition rename (mapping : gmap string string) (df : DataFrame) : DataFrame :=
  {| columns := map (fun c => default c (mapping !! c)) (columns df);
     rows := rows df |}.

(** [df.columns = df.columns.str.strip()] *)
Definition strip_columns (df : DataFrame) : DataFrame :=
  {| columns := map PyStr.strip (columns df); rows := rows df |}.

(** The [.str] accessor of a column is refused with [AttributeError]
    unless the column holds at least one string or holds nothing but
    [None]. *)
Definition str_accessor_ok (col : list cell) : bool :=
  existsb (fun c => match c with CStr _ => true | _ => false end) col
  || forallb (fun c => match c with CNone => true | _ => false end) col.

(** [.str.strip()] on one cell: a value that is not a string becomes
    missing. *)
Definition str_strip (c : cell) : cell :=
  match c with
  | CStr s => CStr (PyStr.strip s)
  | _ => CNone
  end.

(** [series.replace(mapping)] on one cell: a string equal to a key is
    replaced by the value of that key. *)
Definition replace (mapping : gmap string string) (c : cell) : cell :=
  match c with
  | CStr s => CStr (default s (mapping !! s))
  | _ => c
  end.

(** What country normalisation does to one cell: strip, then replace. *)
Definition normalize_country (c : cell) : cell :=
  replace Constants.COUNTRY_MAPPING (str_strip c).

(** [df[c].iloc[i]] *)
Definition iloc (df : DataFrame) (c : string) (i : nat) : result cell :=
  let! j := locate df c in
  match rows df !! i with
  | Some r => Ok (cell_at r j)
  | None => Raise IndexError
  end.

(** [df.dropna(subset=[c])] *)
Definition dropna (i : nat) (df : DataFrame) : DataFrame :=
  {| columns := columns df;
     rows := List.filter (fun r => negb (isna (cell_at r i))) (rows df) |}.

(** The key of a row for the columns at positions [idx]. *)
Definition row_key (idx : list nat) (r : list cell) : list cell :=
  map (cell_at r) idx.

(** Whether a row has the key [k]. *)
Definition same_key (idx : list nat) (k : list cell) (r : list cell) : bool :=
  bool_decide (row_key idx r = k).

(** [drop_duplicates(keep="first")]: a row is dropped when its key has
    been seen on an earlier row. *)
Fixpoint drop_seen (idx : list nat) (seen : list (list cell))
    (l : list (list cell)) : list (list cell) :=
  match l with
  | [] => []
  | r :: l' =>
      if bool_decide (row_key idx r ∈ seen) then drop_seen idx seen l'
      else r :: drop_seen idx (row_key idx r :: seen) l'
  end.

Definition drop_duplicates (subset : list string) (df : DataFrame)
    : result DataFrame :=
  let! idx := mapM (locate df) subset in
  Ok {| columns := columns df; rows := drop_seen idx [] (rows df) |}.

(** Whether a cell holds a number (NaN included). *)
Definition is_number (c : cell) : bool :=
  match c with
  | CInt _ | CFloat _ => true
  | _ => false
  end.

(** [cur] is [df] with the columns [extra] appended: the labels of [df]
    come first and every row starts with the row of [df] it comes from. *)
Definition appended (df cur : DataFrame) (extra : list string) : Prop :=
  columns cur = columns df ++ extra
  /\ Forall2 (fun r o => exists xs, o = r ++ xs /\ length xs = length extra)
       (rows df) (rows cur).

(** Truncation of a finite float to an integer. *)
Definition trunc (f : spec_float) : option Z :=
  match f with
  | S754_zero _ => Some 0
  | S754_finite s m e =>
      let v := if 0 <=? e then Z.pos m * 2 ^ e else Z.pos m / 2 ^ (- e) in
      Some (if s then - v else v)
  | _ => None
  end.

Section Parsers.

(** What [int(s)] and [float(s)] give on a string, [None] when they
    raise; the grammar of numerals is not modelled. *)
Variable parse_int : string -> option Z.
Variable parse_float : string -> option spec_float.

(** [.astype(int)] on one cell. *)
Definition astype_int (c : cell) : result cell :=
  match c with
  | CInt z => Ok (CInt z)
  | CFloat f =>
      match trunc f with
      | Some z => Ok (CInt z)
      | None => Raise ValueError
      end
  | CStr s =>
      match parse_int s with
      | Some z => Ok (CInt z)
      | None => Raise ValueError
      end
  | CNone => Raise TypeError
  end.

(** [pd.to_numeric(..., errors="coerce")] on one cell. *)
Definition to_numeric (c : cell) : cell :=
  match c with
  | CInt z => CInt z
  | CFloat f => CFloat f
  | CStr s =>
      match parse_float s with
      | Some f => CFloat f
      | None => nan
      end
  | CNone => nan
  end.

End Parsers.

End Pandas.

(** ** src/data/cleaner.py *)

Module Cleaner.
Import Pandas.

(** [mapping or COLUMN_MAPPING]: an empty dict is falsy. *)
Definition dict_or (a : option (gmap string string)) (b : gmap string string)
    : gmap string string :=
  match a with
  | Some m => if bool_decide (m = ∅) then b else m
  | None => b
  end.

Definition standardize_column_names (df : DataFrame)
    (mapping : option (gmap string string)) : DataFrame :=
  let mapping := dict_or mapping Constants.COLUMN_MAPPING in
  let df := strip_columns df in
  let df := rename mapping df in
  df.

(** [series.str.strip()] *)
Definition series_str_strip (series : list cell) : result (list cell) :=
  if str_accessor_ok series then Ok (map str_strip series)
  else Raise AttributeError.

Definition standardize_country_names (df : DataFrame) (country_col : string)
    : result DataFrame :=
  if has_col df country_col then
    let! i := locate df country_col in
    let! stripped := series_str_strip (column df i) in
    let! df := assign df country_col stripped in
    let! i := locate df country_col in
    let! df := assign df country_col
                 (map (replace Constants.COUNTRY_MAPPING) (column df i)) in
    Ok df
  else Ok df.

Definition clean_text_column (series : list cell) : result (list cell) :=
  series_str_strip series.

Section Parsers.
Variable parse_int : string -> option Z.
Variable parse_float : string -> option spec_float.

(** [df[c] = pd.to_numeric(df[c], errors="coerce")] *)
Definition coerce_numeric (c : string) (df : DataFrame) : result DataFrame :=
  let! i := locate df c in
  assign df c (map (to_numeric parse_float) (column df i)).

(** [df["year"] = df["year"].astype(int)] *)
Definition year_to_int (df : DataFrame) : result DataFrame :=
  let! i := locate df "year" in
  let! years := mapM (astype_int parse_int) (column df i) in
  assign df "year" years.

(** The first five steps of [clean_yield_data]: names, countries, crops,
    years, numeric columns. *)
Definition clean_yield_coerce (df : DataFrame) : result DataFrame :=
  let df := standardize_column_names df None in
  let! df := standardize_country_names df "country" in
  let! df :=
    if has_col df "crop" then
      let! i := locate df "crop" in
      let! cleaned := clean_text_column (column df i) in
      assign df "crop" cleaned
    else Ok df in
  let! df := if has_col df "year" then year_to_int df else Ok df in
  let numeric_cols := ["yield"; "rainfall_mm"; "pesticides_tonnes"; "avg_temp"] in
  let! df :=
    foldl (fun acc col =>
             let! df := acc in
             if has_col df col then coerce_numeric col df else Ok df)
          (Ok df) numeric_cols in
  Ok df.

Definition clean_yield_data (df : DataFrame) : result DataFrame :=
  let! df := clean_yield_coerce df in
  let! df :=
    if has_col df "yield" then
      let! i := locate df "yield" in
      Ok (dropna i df)
    else Ok df in
  let key_cols := ["country"; "crop"; "year"] in
  let key_cols := List.filter (has_col df) key_cols in
  let! df :=
    match key_cols with
    | [] => Ok df
    | _ => drop_duplicates key_cols df
    end in
  Ok df.

Definition clean_context_data (df : DataFrame) (context_type : string)
    : result DataFrame :=
  let! df :=
    if String.eqb context_type "pesticides" then
      let df := rename (list_to_map [ ("Area", "country"); ("Year", "year");
                                      ("Value", "pesticides_tonnes") ]) df in
      let! df := select df ["country"; "year"; "pesticides_tonnes"] in
      coerce_numeric "pesticides_tonnes" df
    else if String.eqb context_type "rainfall" then
      let df := strip_columns df in
      let df := rename (list_to_map [ ("Area", "country"); ("Year", "year");
                                      ("average_rain_fall_mm_per_year",
                                       "rainfall_mm") ]) df in
      let! df := select df ["country"; "year"; "rainfall_mm"] in
      coerce_numeric "rainfall_mm" df
    else if String.eqb context_type "temperature" then
      let df := rename (list_to_map [ ("country", "country"); ("year", "year");
                                      ("avg_temp", "avg_temp") ]) df in
      let! df := select df ["country"; "year"; "avg_temp"] in
      coerce_numeric "avg_temp" df
    else Ok df in
  let! df := standardize_country_names df "country" in
  let! df := year_to_int df in
  let! df := drop_duplicates ["country"; "year"] df in
  Ok df.

End Parsers.

End Cleaner.

(** ** src/data/fusion.py *)

Module Fusion.
Import Pandas.

(** The rows that a row [l] of the left table gives in a left join: one
    per matching row of the right table, in the right table's order, each
    being [l] followed by the right row's cells at the positions [rj];
    and, without a match, [l] followed by missing values. *)
Definition join_row (li ri rj : list nat) (right_rows : list (list cell))
    (l : list cell) : list (list cell) :=
  match List.filter (fun r => bool_decide (row_key ri r = row_key li l))
          right_rows with
  | [] => [l ++ map (fun _ => nan) rj]
  | ms => map (fun r => l ++ map (cell_at r) rj) ms
  end.

(** [left.merge(right, on=on, how="left")].  The key columns come from the
    left table; the other columns of the right table are appended.  A
    label, other than a key, that both tables have gets the suffixes
    ["_x"] and ["_y"].  Keys are compared cell by cell. *)
Definition merge_left (left right : DataFrame) (on : list string)
    : result DataFrame :=
  let! li := mapM (locate left) on in
  let! ri := mapM (locate right) on in
  let is_key c := bool_decide (c ∈ on) in
  let overlap c :=
    bool_decide (c ∈ columns left) && bool_decide (c ∈ columns right)
    && negb (is_key c) in
  let rcols := List.filter (fun c => negb (is_key c)) (columns right) in
  let! rj := mapM (locate right) rcols in
  Ok {| columns :=
          map (fun c => if overlap c then (c ++ "_x")%string else c) (columns left)
          ++ map (fun c => if overlap c then (c ++ "_y")%string else c) rcols;
        rows := concat (map (join_row li ri rj (rows right)) (rows left)) |}.

(** One [if ctx_df is not None: result = result.merge(ctx_df[[...]], ...)]
    of [merge_datasets]; [acc] is the source's [result] so far. *)
Definition merge_context (acc : DataFrame) (ctx_df : option DataFrame)
    (value : string) : result DataFrame :=
  match ctx_df with
  | Some ctx =>
      let! sel := select ctx ["country"; "year"; value] in
      merge_left acc sel ["country"; "year"]
  | None => Ok acc
  end.

Definition merge_datasets (yield_df : DataFrame)
    (pesticides_df rainfall_df temperature_df : option DataFrame)
    : result DataFrame :=
  let res := yield_df in
  let has_context :=
    forallb (has_col res) ["rainfall_mm"; "pesticides_tonnes"; "avg_temp"] in
  if has_context then Ok res else
  let! res := merge_context res pesticides_df "pesticides_tonnes" in
  let! res := merge_context res rainfall_df "rainfall_mm" in
  let! res := merge_context res temperature_df "avg_temp" in
  Ok res.

(** A row [l] of the yield table has no partner in a context table whose
    key columns are at [cc], [cy], the yield table's being at [yc], [yy]. *)
Definition unmatched (ctx : DataFrame) (cc cy : nat) (l : list cell)
    (yc yy : nat) : Prop :=
  Forall (fun r => row_key [cc; cy] r <> row_key [yc; yy] l) (rows ctx).



(** Every row that [e] derives from a yield row without partner in [ctx]
    has a missing value at position [pos]. *)
Definition fills_missing (y ctx : DataFrame) (e : list cell -> list (list cell))
    (pos : nat) : Prop :=
  exists yc yy cc cy,
    locate y "country" = Ok yc /\ locate y "year" = Ok yy
    /\ locate ctx "country" = Ok cc /\ locate ctx "year" = Ok cy
    /\ forall l, length l = length (columns y) ->
                 unmatched ctx cc cy l yc yy ->
                 Forall (fun o => isna (cell_at o pos) = true) (e l).


(** The (country, year) keys of a context table are pairwise different. *)
Definition unique_keys (ctx : DataFrame) : Prop :=
  forall cc cy, locate ctx "country" = Ok cc -> locate ctx "year" = Ok cy ->
                NoDup (map (row_key [cc; cy]) (rows ctx)).

(** The cells that a supplied context table contributes to a yield row with
    the given country and year: the value of the first row with that key,
    a missing value without such a row; nothing for a table not supplied. *)
Definition context_value (ctx_df : option DataFrame) (value : string)
    (country year : cell) : list cell :=
  match ctx_df with
  | None => []
  | Some ctx =>
      match locate ctx "country", locate ctx "year", locate ctx value with
      | Ok cc, Ok cy, Ok cv =>
          [ match List.find (fun rc => bool_decide (row_key [cc; cy] rc
                                                    = [country; year]))
                    (rows ctx) with
            | Some rc => cell_at rc cv
            | None => nan
            end ]
      | _, _, _ => []
      end
  end.





Section Validate.

(** [pd.api.types.is_numeric_dtype] on a column; the dtype of a column is
    not modelled. *)
Variable is_numeric_dtype : list cell -> bool.

(** How a list of labels and a count are printed inside a message. *)
Variable repr : list string -> string.
Variable str : nat -> string.


End Validate.

End Fusion.

(** ** src/features/engineering.py *)

Module Engineering.
Import Pandas.

Definition inf : spec_float := S754_infinity false.
Definition neg_inf : spec_float := S754_infinity true.

(** The number a cell stands for in arithmetic; a string or [None] makes
    the numeric routines raise [TypeError]. *)
Definition as_float (c : cell) : result spec_float :=
  match c with
  | CInt z => Ok (PyFloat.of_Z z)
  | CFloat f => Ok f
  | _ => Raise TypeError
  end.

(** [bins.searchsorted(x, side="left")] on increasing [bins]: the number
    of edges strictly below [x]. *)
Definition searchsorted_left (bins : list spec_float) (x : spec_float) : nat :=
  length (List.filter (fun b => PyFloat.ltb b x) bins).

(** [pd.cut(series, bins=bins, labels=labels)] on one cell, with the
    defaults [right=True], [include_lowest=False]: the value gets the label
    of the interval [(bins[k-1], bins[k]]] it lies in, and is missing when
    it is NaN or lies in no interval. *)
Definition cut (bins : list spec_float) (labels : list string) (c : cell)
    : result cell :=
  let! x := as_float c in
  let ids := searchsorted_left bins x in
  if PyFloat.is_nan x || (ids =? length bins)%nat || (ids =? 0)%nat then Ok nan
  else
    match labels !! (ids - 1)%nat with
    | Some label => Ok (CStr label)
    | None => Raise IndexError
    end.

(** [x * y] on cells: 64-bit integer product for two integers, float
    product otherwise. *)
Definition wrap64 (z : Z) : Z := (z + 2 ^ 63) mod 2 ^ 64 - 2 ^ 63.

Definition mul (a b : cell) : result cell :=
  match a, b with
  | CInt x, CInt y => Ok (CInt (wrap64 (x * y)))
  | _, _ =>
      let! x := as_float a in
      let! y := as_float b in
      Ok (CFloat (PyFloat.mul x y))
  end.

(** [x / 1000] on a cell: always a float. *)
Definition div_by (k : Z) (a : cell) : result cell :=
  let! x := as_float a in
  Ok (CFloat (PyFloat.div x (PyFloat.of_Z k))).

Section Log1p.

(** The math library's [log1p] on finite nonzero arguments; its value
    there is not modelled. *)
Variable libm_log1p : spec_float -> spec_float.

(** [np.log1p]: exact on the special values (zeros keep their sign,
    [+inf] is kept, NaN and [-inf] give NaN). *)
Definition log1p (x : spec_float) : spec_float :=
  match x with
  | S754_zero s => S754_zero s
  | S754_nan => S754_nan
  | S754_infinity false => S754_infinity false
  | S754_infinity true => S754_nan
  | S754_finite _ _ _ => libm_log1p x
  end.

Definition log1p_cell (c : cell) : result cell :=
  let! x := as_float c in
  Ok (CFloat (log1p x)).

Definition create_features (df : DataFrame) : result DataFrame :=
  let! df :=
    if has_col df "avg_temp" then
      let! i := locate df "avg_temp" in
      let! cats :=
        mapM (cut [neg_inf; PyFloat.of_Z 10; PyFloat.of_Z 20; PyFloat.of_Z 30; inf]
                  ["cold"; "temperate"; "warm"; "hot"])
             (column df i) in
      assign df "temp_category" cats
    else Ok df in
  let! df :=
    if has_col df "rainfall_mm" then
      let! i := locate df "rainfall_mm" in
      let! cats :=
        mapM (cut [neg_inf; PyFloat.of_Z 500; PyFloat.of_Z 1000; PyFloat.of_Z 2000;
                   inf]
                  ["arid"; "semi_arid"; "moderate"; "wet"])
             (column df i) in
      assign df "rainfall_category" cats
    else Ok df in
  let! df :=
    if has_col df "pesticides_tonnes" then
      let! i := locate df "pesticides_tonnes" in
      let! logs := mapM log1p_cell (column df i) in
      assign df "log_pesticides" logs
    else Ok df in
  let! df :=
    if has_col df "avg_temp" && has_col df "rainfall_mm" then
      let! i := locate df "avg_temp" in
      let! j := locate df "rainfall_mm" in
      let! products :=
        mapM (fun ab => mul (fst ab) (snd ab))
             (zip (column df i) (column df j)) in
      let! values := mapM (div_by 1000) products in
      assign df "temp_rain_interaction" values
    else Ok df in
  Ok df.

End Log1p.

(** The dict that [get_feature_names] returns, under its two keys. *)
Record FeatureNames : Type := mkFeatureNames {
  numeric : list string;
  categorical : list string
}.

Definition get_feature_names (include_engineered : bool) : FeatureNames :=
  let base_numeric := ["rainfall_mm"; "pesticides_tonnes"; "avg_temp"] in
  let base_categorical := ["crop"; "country"] in
  let engineered_numeric := ["log_pesticides"; "temp_rain_interaction"] in
  let engineered_categorical := ["temp_category"; "rainfall_category"] in
  if include_engineered then
    {| numeric := base_numeric ++ engineered_numeric;
       categorical := base_categorical ++ engineered_categorical |}
  else
    {| numeric := base_numeric; categorical := base_categorical |}.

(** [select_features]: the pair of [X] and [y], [y] being the target
    column or [None]. *)
Definition select_features (df : DataFrame)
    (numeric_features categorical_features : option (list string))
    (target : string) : result (DataFrame * option (list cell)) :=
  let feature_names := get_feature_names false in
  let numeric_features := list_or numeric_features (numeric feature_names) in
  let categorical_features :=
    list_or categorical_features (categorical feature_names) in
  let all_features := numeric_features ++ categorical_features in
  let available_features := List.filter (has_col df) all_features in
  let! X := select df available_features in
  let! y :=
    if has_col df target then
      let! i := locate df target in
      Ok (Some (column df i))
    else Ok None in
  Ok (X, y).

End Engineering.

(** ** api/schemas.py *)

Module Schemas.

(** [RecommendationRequest]: the request model of the [/recommend]
    endpoint.  Constructing it checks the field constraints
    ([ge], [le]) and raises a validation error when one fails. *)
Record RecommendationRequest : Type := mkRecommendationRequest {
  country : string;
  rainfall_mm : spec_float;
  pesticides_tonnes : spec_float;
  avg_temp : spec_float;
  top_n : option Z
}.

Definition ge (v : spec_float) (bound : Z) : bool :=
  PyFloat.leb (PyFloat.of_Z bound) v.
Definition le (v : spec_float) (bound : Z) : bool :=
  PyFloat.leb v (PyFloat.of_Z bound).

Definition new_RecommendationRequest (country : string)
    (rainfall_mm pesticides_tonnes avg_temp : spec_float) (top_n : option Z)
    : result RecommendationRequest :=
  if negb (ge rainfall_mm 0 && le rainfall_mm 10000) then Raise ValidationError else
  if negb (ge pesticides_tonnes 0) then Raise ValidationError else
  if negb (ge avg_temp (-50) && le avg_temp 60) then Raise ValidationError else
  match top_n with
  | Some n =>
      if negb ((1 <=? n) && (n <=? 20)) then Raise ValidationError
      else Ok (mkRecommendationRequest country rainfall_mm pesticides_tonnes
                 avg_temp top_n)
  | None =>
      Ok (mkRecommendationRequest country rainfall_mm pesticides_tonnes
            avg_temp None)
  end.

End Schemas.

(** ** src/config/schema.py *)

Module ConfigSchema.

Record PredictionInput : Type := mkPredictionInput {
  crop : string;
  country : string;
  rainfall_mm : spec_float;
  pesticides_tonnes : spec_float;
  avg_temp : spec_float
}.

Record RecommendationInput : Type := mkRecommendationInput {
  rec_country : string;
  rec_rainfall_mm : spec_float;
  rec_pesticides_tonnes : spec_float;
  rec_avg_temp : spec_float
}.

(** The checks that both [validate] methods run on their three numbers. *)
Definition validate_values (rainfall_mm pesticides_tonnes avg_temp : spec_float)
    : list string :=
  let errors : list string := [] in
  let errors :=
    if PyFloat.ltb rainfall_mm (PyFloat.of_Z 0)
    then errors ++ ["rainfall_mm must be non-negative"] else errors in
  let errors :=
    if PyFloat.gtb rainfall_mm (PyFloat.of_Z 5000)
    then errors ++ ["rainfall_mm exceeds realistic maximum (5000 mm)"]
    else errors in
  let errors :=
    if PyFloat.ltb pesticides_tonnes (PyFloat.of_Z 0)
    then errors ++ ["pesticides_tonnes must be non-negative"] else errors in
  let errors :=
    if PyFloat.ltb avg_temp (PyFloat.of_Z (-10))
       || PyFloat.gtb avg_temp (PyFloat.of_Z 50)
    then errors ++ ["avg_temp must be between -10 and 50 degrees Celsius"]
    else errors in
  errors.

(** [PredictionInput.validate] *)
Definition validate (self : PredictionInput) : list string :=
  validate_values (rainfall_mm self) (pesticides_tonnes self) (avg_temp self).

(** [RecommendationInput.validate] *)
Definition validate_recommendation (self : RecommendationInput) : list string :=
  validate_values (rec_rainfall_mm self) (rec_pesticides_tonnes self)
    (rec_avg_temp self).

End ConfigSchema.

(** ** api/main.py *)

Module Api.

(** The request and response models of api/schemas.py that the endpoints
    use; an entry of a recommendation response has the fields of
    [Recommendation]. *)
Record PredictionRequest : Type := mkPredictionRequest {
  req_crop : string;
  req_country : string;
  req_rainfall_mm : spec_float;
  req_pesticides_tonnes : spec_float;
  req_avg_temp : spec_float
}.

Record PredictionResponse : Type := mkPredictionResponse {
  resp_crop : string;
  resp_predicted_yield : spec_float;
  resp_yield_unit : string;
  resp_model_version : string
}.

Record RecommendationResponse : Type := mkRecommendationResponse {
  recommendations : list Recommendation;
  context : string * spec_float * spec_float * spec_float;
  model_version : string
}.

(** What an endpoint gives: the response model, or an [HTTPException]
    with its status code and detail. *)
Inductive response (A : Type) : Type :=
| Success (a : A)
| HTTPException (status_code : Z) (detail : string).
Arguments Success {A} a.
Arguments HTTPException {A} status_code detail.

Definition status {A} (r : response A) : Z :=
  match r with
  | Success _ => 200
  | HTTPException status_code _ => status_code
  end.

(** A field annotated [str] of a response model refuses a list. *)
Definition str_field (v : meta_value) : result string :=
  match v with
  | MStr s => Ok s
  | MList _ => Raise ValidationError
  end.

Section Endpoints.

(** [round(x, 2)], [str(e)] for an exception and the text of a metadata
    value inside a message are the interpreter's. *)
Variable round2 : spec_float -> spec_float.
Variable str_exn : exn -> string.
Variable str_value : meta_value -> string.

(** [model_loader is None or not model_loader.is_loaded] *)
Definition not_loaded (model_loader : option ModelLoader.t) : bool :=
  match model_loader with
  | None => true
  | Some ml => negb (ModelLoader.is_loaded ml)
  end.

(** [GET /health]: the status code. *)
Definition health_check (model_loader : option ModelLoader.t) : response unit :=
  if not_loaded model_loader then HTTPException 503 "Model not loaded"
  else Success tt.

(** [POST /predict] *)
Definition predict_yield (model_loader : option ModelLoader.t)
    (request : PredictionRequest) : response PredictionResponse :=
  match model_loader with
  | None => HTTPException 503 "Model not loaded"
  | Some ml =>
      if negb (ModelLoader.is_loaded ml) then HTTPException 503 "Model not loaded"
      else if negb (meta_in (req_crop request) (ModelLoader.supported_crops_value ml))
      then HTTPException 400
             ("Crop '" ++ req_crop request ++ "' is not supported. Supported crops: "
              ++ str_value (ModelLoader.supported_crops_value ml))%string
      else if PyFloat.ltb (req_rainfall_mm request) (PyFloat.of_Z 0)
      then HTTPException 400 "rainfall_mm must be non-negative"
      else if PyFloat.ltb (req_pesticides_tonnes request) (PyFloat.of_Z 0)
      then HTTPException 400 "pesticides_tonnes must be non-negative"
      else if PyFloat.ltb (req_avg_temp request) (PyFloat.of_Z (-50))
              || PyFloat.gtb (req_avg_temp request) (PyFloat.of_Z 60)
      then HTTPException 400 "avg_temp must be between -50 and 60"
      else
        match (let! predicted_yield :=
                 ModelLoader.predict ml (req_crop request) (req_country request)
                   (req_rainfall_mm request) (req_pesticides_tonnes request)
                   (req_avg_temp request) in
               let! version := str_field (ModelLoader.model_version ml) in
               Ok {| resp_crop := req_crop request;
                     resp_predicted_yield := round2 predicted_yield;
                     resp_yield_unit := "hg/ha";
                     resp_model_version := version |}) with
        | Ok r => Success r
        | Raise e =>
            HTTPException 500 ("Prediction failed: " ++ str_exn e)%string
        end
  end.

(** [POST /recommend] *)
Definition recommend_crops (model_loader : option ModelLoader.t)
    (request : Schemas.RecommendationRequest) : response RecommendationResponse :=
  match model_loader with
  | None => HTTPException 503 "Model not loaded"
  | Some ml =>
      if negb (ModelLoader.is_loaded ml) then HTTPException 503 "Model not loaded"
      else if PyFloat.ltb (Schemas.rainfall_mm request) (PyFloat.of_Z 0)
      then HTTPException 400 "rainfall_mm must be non-negative"
      else if PyFloat.ltb (Schemas.pesticides_tonnes request) (PyFloat.of_Z 0)
      then HTTPException 400 "pesticides_tonnes must be non-negative"
      else if PyFloat.ltb (Schemas.avg_temp request) (PyFloat.of_Z (-50))
              || PyFloat.gtb (Schemas.avg_temp request) (PyFloat.of_Z 60)
      then HTTPException 400 "avg_temp must be between -50 and 60"
      else
        match (let! recs :=
                 ModelLoader.recommend ml (Schemas.country request)
                   (Schemas.rainfall_mm request) (Schemas.pesticides_tonnes request)
                   (Schemas.avg_temp request) (Schemas.top_n request) in
               let crop_recommendations :=
                 map (fun rec =>
                        {| rank := rank rec; crop := crop rec;
                           predicted_yield := round2 (predicted_yield rec);
                           yield_unit := yield_unit rec |}) recs in
               let! version := str_field (ModelLoader.model_version ml) in
               Ok {| recommendations := crop_recommendations;
                     context := (Schemas.country request, Schemas.rainfall_mm request,
                                 Schemas.pesticides_tonnes request,
                                 Schemas.avg_temp request);
                     model_version := version |}) with
        | Ok r => Success r
        | Raise e =>
            HTTPException 500 ("Recommendation failed: " ++ str_exn e)%string
        end
  end.

End Endpoints.

End Api.

(** ** Sample inputs *)

Module Samples.

Definition f100 : spec_float := PyFloat.of_Z 100.
Definition f200 : spec_float := PyFloat.of_Z 200.
Definition f300 : spec_float := PyFloat.of_Z 300.
Definition f1000 : spec_float := PyFloat.of_Z 1000.
Definition f20 : spec_float := PyFloat.of_Z 20.
Definition neg5 : spec_float := PyFloat.of_Z (-5).

(** A fitted pipeline that scores crop "A" 100, "B" 300, "C" 200 and
    everything else -5. *)
Definition abc_score (r : InputRow) : spec_float :=
  if String.eqb (in_crop r) "A" then f100
  else if String.eqb (in_crop r) "B" then f300
  else if String.eqb (in_crop r) "C" then f200
  else neg5.
Definition abc_model : Model := fun rows => Ok (map abc_score rows).

(** A fitted pipeline that scores every row -5. *)
Definition neg_model : Model := fun rows => Ok (map (fun _ => neg5) rows).

(** A loaded model loader whose metadata lists the crops A, B, C. *)
Definition abc_loader : ModelLoader.t :=
  {| ModelLoader.model := Some abc_model;
     ModelLoader.metadata :=
       Some {[ "supported_crops" := MList ["A"; "B"; "C"] ]};
     ModelLoader.is_loaded := true;
     ModelLoader._default_crops := ModelLoader._default_crops ModelLoader.init;
     ModelLoader._default_features := ModelLoader._default_features ModelLoader.init |}.

(** The ranking of A, B, C under [abc_model]. *)
Definition abc_ranked : list Recommendation :=
  [ mkRecommendation 1 "B" f300 "hg/ha"; mkRecommendation 2 "C" f200 "hg/ha";
    mkRecommendation 3 "A" f100 "hg/ha" ].

(** A loaded model loader without metadata, around [neg_model]. *)
Definition neg_loader : ModelLoader.t :=
  {| ModelLoader.model := Some neg_model;
     ModelLoader.metadata := Some ∅;
     ModelLoader.is_loaded := true;
     ModelLoader._default_crops := ModelLoader._default_crops ModelLoader.init;
     ModelLoader._default_features := ModelLoader._default_features ModelLoader.init |}.

(** Parsers that accept no string, for tables whose cells are numbers. *)
Definition no_int : string -> option Z := fun _ => None.
Definition no_float : string -> option spec_float := fun _ => None.

(** A raw context table with an alias, padding and a repeated key. *)
Definition soil_table : Pandas.DataFrame :=
  {| Pandas.columns := ["country"; "year"; "ph"];
     Pandas.rows :=
       [ [Pandas.CStr " USA "; Pandas.CInt 2000; Pandas.CFloat f20];
         [Pandas.CStr "United States"; Pandas.CInt 2000; Pandas.CFloat f100];
         [Pandas.CStr "India"; Pandas.CInt 2001; Pandas.CFloat f200] ] |}.

(** A raw yield table: the second row repeats the key of the first once
    names are normalised, the third has no usable yield. *)
Definition yield_table : Pandas.DataFrame :=
  {| Pandas.columns := ["country"; "crop"; "year"; "yield"; "rainfall_mm"];
     Pandas.rows :=
       [ [Pandas.CStr "USA"; Pandas.CStr " Wheat "; Pandas.CInt 2000;
          Pandas.CFloat f100; Pandas.CFloat f1000];
         [Pandas.CStr "United States"; Pandas.CStr "Wheat"; Pandas.CInt 2000;
          Pandas.CFloat f200; Pandas.CFloat f1000];
         [Pandas.CStr "India"; Pandas.CStr "Rice, paddy";
          Pandas.CFloat (PyFloat.of_Z 2001); Pandas.CStr "n/a"; Pandas.CFloat f1000];
         [Pandas.CStr "India"; Pandas.CStr "Rice, paddy"; Pandas.CInt 2001;
          Pandas.CFloat f300; Pandas.CNone] ] |}.

Definition yield_table_clean : Pandas.DataFrame :=
  {| Pandas.columns := ["country"; "crop"; "year"; "yield"; "rainfall_mm"];
     Pandas.rows :=
       [ [Pandas.CStr "United States"; Pandas.CStr "Wheat"; Pandas.CInt 2000;
          Pandas.CFloat f100; Pandas.CFloat f1000];
         [Pandas.CStr "India"; Pandas.CStr "Rice, paddy"; Pandas.CInt 2001;
          Pandas.CFloat f300; Pandas.nan] ] |}.

(** The doubles nearest to 9.999 and 10.0001. *)
Definition f9_999 : spec_float := S754_finite false 5628936584259699 (-49).
Definition f10_0001 : spec_float := S754_finite false 5629555829208462 (-49).

(** A stand-in for the math library's [log1p] on finite nonzero
    arguments; no example reaches it. *)
Definition log1p_stand_in : spec_float -> spec_float := fun x => x.

(** Rows on and around the bucket boundaries. *)
Definition boundary_table : Pandas.DataFrame :=
  {| Pandas.columns := ["avg_temp"; "rainfall_mm"; "pesticides_tonnes"];
     Pandas.rows :=
       [ [Pandas.CInt 10; Pandas.CInt 500; Pandas.CInt 0];
         [Pandas.CFloat f9_999; Pandas.CFloat (PyFloat.of_Z 500);
          Pandas.CFloat PyFloat.zero];
         [Pandas.CFloat f10_0001; Pandas.CInt 501; Pandas.CInt 0] ] |}.

(** A cleaned yield table and context tables; India 2001 has no
    pesticide record and no table has a record for Peru. *)
Definition fusion_yield : Pandas.DataFrame :=
  {| Pandas.columns := ["country"; "crop"; "year"; "yield"];
     Pandas.rows :=
       [ [Pandas.CStr "India"; Pandas.CStr "Wheat"; Pandas.CInt 2000;
          Pandas.CFloat f100];
         [Pandas.CStr "India"; Pandas.CStr "Wheat"; Pandas.CInt 2001;
          Pandas.CFloat f200];
         [Pandas.CStr "Peru"; Pandas.CStr "Maize"; Pandas.CInt 2000;
          Pandas.CFloat f300] ] |}.

Definition fusion_pesticides : Pandas.DataFrame :=
  {| Pandas.columns := ["country"; "year"; "pesticides_tonnes"];
     Pandas.rows :=
       [ [Pandas.CStr "India"; Pandas.CInt 2000; Pandas.CFloat f20] ] |}.

Definition fusion_rainfall : Pandas.DataFrame :=
  {| Pandas.columns := ["country"; "year"; "rainfall_mm"];
     Pandas.rows :=
       [ [Pandas.CStr "India"; Pandas.CInt 2000; Pandas.CFloat f1000];
         [Pandas.CStr "India"; Pandas.CInt 2001; Pandas.CFloat f1000] ] |}.

Definition fusion_out : Pandas.DataFrame :=
  {| Pandas.columns :=
       ["country"; "crop"; "year"; "yield"; "pesticides_tonnes"; "rainfall_mm"];
     Pandas.rows :=
       [ [Pandas.CStr "India"; Pandas.CStr "Wheat"; Pandas.CInt 2000;
          Pandas.CFloat f100; Pandas.CFloat f20; Pandas.CFloat f1000];
         [Pandas.CStr "India"; Pandas.CStr "Wheat"; Pandas.CInt 2001;
          Pandas.CFloat f200; Pandas.nan; Pandas.CFloat f1000];
         [Pandas.CStr "Peru"; Pandas.CStr "Maize"; Pandas.CInt 2000;
          Pandas.CFloat f300; Pandas.nan; Pandas.nan] ] |}.

(** A table that already has the three context columns. *)
Definition fusion_full : Pandas.DataFrame :=
  {| Pandas.columns :=
       ["country"; "crop"; "year"; "yield"; "rainfall_mm"; "pesticides_tonnes";
        "avg_temp"];
     Pandas.rows :=
       [ [Pandas.CStr "India"; Pandas.CStr "Wheat"; Pandas.CInt 2000;
          Pandas.CFloat f100; Pandas.CFloat f1000; Pandas.CFloat f20;
          Pandas.CFloat f20] ] |}.

(** A pipeline that returns one prediction whatever the number of rows,
    and a loaded model loader around it. *)
Definition short_model : Model := fun _ => Ok [f100].
Definition short_loader : ModelLoader.t :=
  {| ModelLoader.model := Some short_model;
     ModelLoader.metadata := Some ∅;
     ModelLoader.is_loaded := true;
     ModelLoader._default_crops := ModelLoader._default_crops ModelLoader.init;
     ModelLoader._default_features := ModelLoader._default_features ModelLoader.init |}.

End Samples.

(** * Properties *)

(** ** The order on floats

    [SFcompare] orders two non-NaN values totally; the facts below are the
    ones sorting needs. *)

Module PyFloatFacts.
Import PyFloat.

Lemma compare_not_nan (a b : spec_float) :
  is_nan a = false -> is_nan b = false -> exists c, SFcompare a b = Some c.
Proof.
  destruct a, b; simpl; intros Ha Hb; try discriminate; eauto.
Qed.

Lemma compare_swap (a b : spec_float) :
  SFcompare b a = option_map CompOpp (SFcompare a b).
Proof.
  destruct a as [s1|s1| |s1 m1 e1], b as [s2|s2| |s2 m2 e2]; simpl;
    try destruct s1; try destruct s2; try reflexivity;
    rewrite (Z.compare_antisym e1 e2);
    change (Pos.compare_cont Eq m2 m1) with (Pos.compare m2 m1);
    change (Pos.compare_cont Eq m1 m2) with (Pos.compare m1 m2);
    rewrite (Pos.compare_antisym m1 m2);
    destruct (e1 ?= e2); simpl; try reflexivity;
    destruct (m1 ?= m2)%positive; reflexivity.
Qed.

Ltac float_cases :=
  repeat match goal with
    | x : spec_float |- _ => destruct x
    | s : bool |- _ => destruct s
    end;
  simpl in *; try discriminate; try reflexivity.

Ltac cmp_cases :=
  repeat match goal with
    | H : context [Pos.compare_cont Eq ?a ?b] |- _ =>
        change (Pos.compare_cont Eq a b) with (Pos.compare a b) in H
    | |- context [Pos.compare_cont Eq ?a ?b] =>
        change (Pos.compare_cont Eq a b) with (Pos.compare a b)
    end;
  repeat match goal with
    | H : context [Z.compare ?a ?b] |- _ =>
        destruct (Z.compare_spec a b); simpl in H; try discriminate
    | H : context [Pos.compare ?a ?b] |- _ =>
        destruct (Pos.compare_spec a b); simpl in H; try discriminate
    | |- context [Z.compare ?a ?b] =>
        destruct (Z.compare_spec a b); simpl
    | |- context [Pos.compare ?a ?b] =>
        destruct (Pos.compare_spec a b); simpl
    end;
  subst; try reflexivity; try lia.

Lemma leb_trans (a b c : spec_float) :
  leb a b = true -> leb b c = true -> leb a c = true.
Proof.
  unfold leb, SFleb. intros Hab Hbc.
  float_cases; cmp_cases.
Qed.

Lemma ltb_false_leb (a b : spec_float) :
  is_nan a = false -> is_nan b = false -> ltb a b = false -> leb b a = true.
Proof.
  unfold ltb, leb, SFltb, SFleb. intros Ha Hb Hab.
  float_cases; cmp_cases.
Qed.

Lemma leb_not_nan (a b : spec_float) :
  leb a b = true -> is_nan a = false /\ is_nan b = false.
Proof. unfold leb, SFleb. destruct a, b; simpl; intros; try discriminate; auto. Qed.

Lemma ltb_leb_false (a b : spec_float) :
  ltb a b = true -> leb b a = false.
Proof.
  unfold ltb, leb, SFltb, SFleb. intros Hab.
  float_cases; cmp_cases.
Qed.

Lemma leb_ltb_false (a b : spec_float) :
  leb a b = true -> ltb b a = false.
Proof.
  unfold ltb, leb, SFltb, SFleb. rewrite (compare_swap a b).
  destruct (SFcompare a b) as [[]|]; simpl; congruence.
Qed.

Lemma ltb_leb (a b : spec_float) :
  ltb a b = true -> leb a b = true.
Proof.
  unfold ltb, leb, SFltb, SFleb.
  destruct (SFcompare a b) as [[]|]; simpl; congruence.
Qed.

Lemma ltb_irrefl (a : spec_float) : ltb a a = false.
Proof.
  unfold ltb, SFltb. float_cases; cmp_cases.
Qed.

Lemma eqb_leb (a b : spec_float) :
  eqb a b = leb a b && leb b a.
Proof.
  unfold eqb, leb, SFeqb, SFleb.
  float_cases; cmp_cases.
Qed.

(** Equal keys are interchangeable in comparisons. *)
Lemma ltb_eqb_l (a b c : spec_float) :
  eqb a b = true -> ltb a c = ltb b c.
Proof.
  unfold eqb, ltb, SFeqb, SFltb. intros Hab.
  float_cases; cmp_cases.
Qed.

Lemma ltb_eqb_r (a b c : spec_float) :
  eqb a b = true -> ltb c a = ltb c b.
Proof.
  unfold eqb, ltb, SFeqb, SFltb. intros Hab.
  float_cases; cmp_cases.
Qed.


Lemma max0_nonneg (x : spec_float) : leb zero (max0 x) = true.
Proof. unfold max0, gtb. destruct x as [s|s| |s m e]; try destruct s; reflexivity. Qed.

Lemma max0_not_neg (x : spec_float) : ltb (max0 x) zero = false.
Proof. unfold max0, gtb. destruct x as [s|s| |s m e]; try destruct s; reflexivity. Qed.

End PyFloatFacts.

(** ** [list.sort] *)

Section SortFacts.
Context {A : Type}.
Variable key : A -> spec_float.

Lemma insort_perm (x : A) (l : list A) : insort key x l ≡ₚ x :: l.
Proof.
  induction l as [|y l IH]; simpl; [done|].
  destruct (PyFloat.ltb (key y) (key x)); [|done].
  rewrite IH. apply Permutation_swap.
Qed.

Lemma stable_sort_perm (l : list A) : stable_sort key l ≡ₚ l.
Proof.
  induction l as [|x l IH]; simpl; [done|].
  by rewrite insort_perm, IH.
Qed.

Lemma list_sort_perm (reverse : bool) (l : list A) :
  list_sort key reverse l ≡ₚ l.
Proof.
  unfold list_sort. destruct reverse.
  - by rewrite <- Permutation_rev, stable_sort_perm, <- Permutation_rev.
  - apply stable_sort_perm.
Qed.

Lemma list_sort_length (reverse : bool) (l : list A) :
  length (list_sort key reverse l) = length l.
Proof. apply Permutation_length, list_sort_perm. Qed.

Lemma insort_sorted (x : A) (l : list A) :
  PyFloat.is_nan (key x) = false -> no_nan key l ->
  StronglySorted (key_le key) l -> StronglySorted (key_le key) (insort key x l).
Proof.
  intros Hx. induction l as [|y l IH]; simpl; intros Hl Hs.
  - repeat constructor.
  - apply Forall_cons in Hl as [Hny Hl].
    apply StronglySorted_cons in Hs as [Hy Hs].
    destruct (PyFloat.ltb (key y) (key x)) eqn:E.
    + apply StronglySorted_cons. split; [|auto].
      rewrite insort_perm. constructor; [|done].
      by apply PyFloatFacts.ltb_leb.
    + assert (Hxy : (key_le key) x y)
        by (apply PyFloatFacts.ltb_false_leb; done).
      apply StronglySorted_cons. split.
      * constructor; [done|].
        eapply Forall_impl; [exact Hy|].
        intros z Hz. unfold key_le in *.
        eapply PyFloatFacts.leb_trans; eauto.
      * by apply StronglySorted_cons.
Qed.

Lemma stable_sort_no_nan (l : list A) : no_nan key l -> no_nan key (stable_sort key l).
Proof. unfold no_nan. by rewrite stable_sort_perm. Qed.

Lemma stable_sort_sorted (l : list A) :
  no_nan key l -> StronglySorted (key_le key) (stable_sort key l).
Proof.
  induction l as [|x l IH]; simpl; intros Hl; [constructor|].
  apply Forall_cons in Hl as [Hx Hl].
  apply insort_sorted; auto using stable_sort_no_nan.
Qed.

Lemma StronglySorted_rev (R : A -> A -> Prop) (l : list A) :
  StronglySorted R l -> StronglySorted (fun a b => R b a) (rev l).
Proof.
  induction 1 as [|x l Hs IH Hx]; simpl; [constructor|].
  apply StronglySorted_app. split_and!.
  - intros a b Ha Hb. apply list_elem_of_singleton in Hb as ->.
    rewrite Forall_forall in Hx. apply Hx.
    by apply list_elem_of_In, in_rev, list_elem_of_In.
  - done.
  - repeat constructor.
Qed.

(** With [reverse=True] and no NaN among the keys the result is in
    descending key order. *)
Lemma list_sort_reverse_sorted (l : list A) :
  no_nan key l -> StronglySorted (key_ge key) (list_sort key true l).
Proof.
  intros Hl. unfold list_sort.
  apply (StronglySorted_rev (key_le key)), stable_sort_sorted.
  unfold no_nan. by rewrite <- Permutation_rev.
Qed.

(** Stability: the elements whose key equals [v] keep their input order. *)
Lemma insort_with_key (v : spec_float) (x : A) (l : list A) :
  with_key key v (insort key x l) = with_key key v (x :: l).
Proof.
  induction l as [|y l IH]; [done|].
  unfold with_key in *. cbn [insort].
  destruct (PyFloat.ltb (key y) (key x)) eqn:E; [|done].
  cbn [List.filter]. rewrite IH. cbn [List.filter].
  destruct (PyFloat.eqb (key x) v) eqn:Ex; [|done].
  destruct (PyFloat.eqb (key y) v) eqn:Ey; [|done].
  exfalso.
  rewrite (PyFloatFacts.ltb_eqb_r _ _ (key y) Ex) in E.
  rewrite (PyFloatFacts.ltb_eqb_l _ _ v Ey) in E.
  by rewrite PyFloatFacts.ltb_irrefl in E.
Qed.

Lemma stable_sort_with_key (v : spec_float) (l : list A) :
  with_key key v (stable_sort key l) = with_key key v l.
Proof.
  induction l as [|x l IH]; [done|].
  cbn [stable_sort]. rewrite insort_with_key. unfold with_key in *.
  cbn [List.filter]. by rewrite IH.
Qed.

Lemma list_sort_with_key (reverse : bool) (v : spec_float) (l : list A) :
  with_key key v (list_sort key reverse l) = with_key key v l.
Proof.
  unfold list_sort. destruct reverse; [|apply stable_sort_with_key].
  unfold with_key. rewrite List.filter_rev.
  fold (with_key key v (stable_sort key (rev l))).
  rewrite stable_sort_with_key. unfold with_key.
  by rewrite List.filter_rev, rev_involutive.
Qed.

End SortFacts.

(** ** Building, ranking and truncating the results *)

Section Ranking.

Lemma mapM_enumerate_from {B} (mkr : string -> spec_float -> B)
    (preds : list spec_float) (crops : list string) (k : nat) :
  (length crops <= length (drop k preds))%nat ->
  mapM (fun ic => let! p := getitem preds (fst ic) in Ok (mkr (snd ic) p))
       (zip (seq k (length crops)) crops)
  = Ok (zip_with mkr crops (drop k preds)).
Proof.
  revert k. induction crops as [|c crops IH]; intros k Hlen; [done|].
  cbn [length seq zip zip_with mapM fst snd].
  destruct (drop k preds) as [|p ps] eqn:E; [simpl in Hlen; lia|].
  assert (Hk : preds !! k = Some p).
  { rewrite <- (Nat.add_0_r k), <- lookup_drop, E. done. }
  unfold getitem at 1. rewrite Hk. cbn [bind].
  assert (Hd : drop (S k) preds = ps).
  { replace (S k) with (k + 1)%nat by lia. by rewrite <- drop_drop, E. }
  rewrite IH; rewrite Hd; [done|]. simpl in Hlen. lia.
Qed.

Lemma mapM_enumerate {B} (mkr : string -> spec_float -> B)
    (preds : list spec_float) (crops : list string) :
  (length crops <= length preds)%nat ->
  mapM (fun ic => let! p := getitem preds (fst ic) in Ok (mkr (snd ic) p))
       (enumerate crops)
  = Ok (zip_with mkr crops preds).
Proof. intros H. apply (mapM_enumerate_from mkr preds crops 0). by rewrite drop_0. Qed.

Lemma assign_ranks_from (k : nat) (l : list Recommendation) :
  map (fun ir => set_rank (snd ir) (fst ir + 1)) (zip (seq k (length l)) l)
  = zip_with (fun i r => set_rank r (i + 1)) (seq k (length l)) l.
Proof.
  revert k. induction l as [|x l IH]; intros k; [done|].
  cbn. by rewrite IH.
Qed.

Lemma map_crop_yield_ranks_from (k : nat) (l : list Recommendation) :
  map crop_yield (zip_with (fun i r => set_rank r (i + 1)) (seq k (length l)) l)
  = map crop_yield l.
Proof.
  revert k. induction l as [|x l IH]; intros k; [done|].
  cbn. by rewrite IH.
Qed.

Lemma map_rank_ranks_from (k : nat) (l : list Recommendation) :
  map rank (zip_with (fun i r => set_rank r (i + 1)) (seq k (length l)) l)
  = seq (k + 1) (length l).
Proof.
  revert k. induction l as [|x l IH]; intros k; [done|].
  cbn. by rewrite IH.
Qed.

Lemma assign_ranks_crop_yield (l : list Recommendation) :
  map crop_yield (assign_ranks l) = map crop_yield l.
Proof.
  unfold assign_ranks, enumerate.
  by rewrite assign_ranks_from, map_crop_yield_ranks_from.
Qed.

Lemma assign_ranks_rank (l : list Recommendation) :
  map rank (assign_ranks l) = seq 1 (length l).
Proof.
  unfold assign_ranks, enumerate.
  by rewrite assign_ranks_from, map_rank_ranks_from.
Qed.

Lemma assign_ranks_length (l : list Recommendation) :
  length (assign_ranks l) = length l.
Proof.
  rewrite <- (length_map rank), assign_ranks_rank. apply length_seq.
Qed.

(** Sortedness by key only depends on the list of keys. *)
Lemma sorted_by_keys {A B} (ka : A -> spec_float) (kb : B -> spec_float)
    (la : list A) (lb : list B) :
  map ka la = map kb lb ->
  StronglySorted (key_ge ka) la -> StronglySorted (key_ge kb) lb.
Proof.
  revert lb. induction la as [|a la IH]; intros [|b lb] Hm Hs;
    try discriminate; [constructor|].
  injection Hm as Hab Hm.
  apply StronglySorted_cons in Hs as [Ha Hs].
  apply StronglySorted_cons. split; [|eauto].
  clear IH Hs. revert lb Hm. induction Ha as [|a' la Ha' Ha IH];
    intros [|b' lb] Hm; try discriminate; constructor.
  - injection Hm as Hab' Hm. unfold key_ge in *. by rewrite <- Hab, <- Hab'.
  - injection Hm as Hab' Hm. eauto.
Qed.

Lemma with_key_map {A B} (g : A -> B) (kb : B -> spec_float) (v : spec_float)
    (l : list A) :
  with_key kb v (map g l) = map g (with_key (fun a => kb (g a)) v l).
Proof.
  unfold with_key. induction l as [|a l IH]; [done|].
  cbn [map List.filter]. destruct (PyFloat.eqb (kb (g a)) v); cbn [map]; by rewrite IH.
Qed.

Lemma seq_take (s n k : nat) : take k (seq s n) = seq s (Nat.min k n).
Proof.
  revert s n. induction k as [|k IH]; intros s [|n]; try done.
  cbn. by rewrite IH.
Qed.

End Ranking.

Section Recommend.
Variable clamp : spec_float -> spec_float.

(** The results before sorting: one per crop, in input order. *)
Let raw (crops : list string) (preds : list spec_float) : list Recommendation :=
  zip_with (fun c p => {| rank := 0; crop := c; predicted_yield := clamp p;
                          yield_unit := "hg/ha" |}) crops preds.

Lemma raw_crop_yield crops preds :
  map crop_yield (raw crops preds) = scored clamp crops preds.
Proof.
  unfold raw, scored. revert preds.
  induction crops as [|c crops IH]; intros [|p preds]; try done.
  cbn. by rewrite IH.
Qed.

Lemma raw_length crops preds :
  (length crops <= length preds)%nat -> length (raw crops preds) = length crops.
Proof. intros H. unfold raw. rewrite length_zip_with. lia. Qed.

Lemma raw_no_nan crops preds :
  Forall (fun p => PyFloat.is_nan (clamp p) = false) preds ->
  no_nan predicted_yield (raw crops preds).
Proof.
  unfold raw, no_nan. revert preds.
  induction crops as [|c crops IH]; intros [|p preds] H; cbn;
    try constructor.
  - by apply Forall_cons in H as [H _].
  - apply IH. by apply Forall_cons in H as [_ H].
Qed.

(** What sorting, ranking and truncation guarantee, for any clamp. *)
Lemma ranked_spec crops preds :
  (length crops <= length preds)%nat ->
  no_nan predicted_yield (raw crops preds) ->
  let full := assign_ranks (list_sort predicted_yield true (raw crops preds)) in
  map crop_yield full ≡ₚ scored clamp crops preds
  /\ StronglySorted (key_ge predicted_yield) full
  /\ (forall v, with_key snd v (map crop_yield full)
                = with_key snd v (scored clamp crops preds))
  /\ map rank full = seq 1 (length crops)
  /\ (forall n, 1 <= n ->
        slice_to full n = take (Z.to_nat n) full
        /\ length (slice_to full n) = Nat.min (Z.to_nat n) (length crops)
        /\ map rank (slice_to full n)
           = seq 1 (Nat.min (Z.to_nat n) (length crops))).
Proof.
  intros Hlen Hnan full.
  assert (Hcy : map crop_yield full
                = map crop_yield (list_sort predicted_yield true (raw crops preds)))
    by apply assign_ranks_crop_yield.
  assert (Hrk : map rank full = seq 1 (length crops)).
  { unfold full. by rewrite assign_ranks_rank, list_sort_length, raw_length. }
  assert (Hfl : length full = length crops).
  { by rewrite <- (length_map rank), Hrk, length_seq. }
  split_and!.
  - rewrite Hcy, <- raw_crop_yield.
    apply Permutation_map, list_sort_perm.
  - apply (sorted_by_keys predicted_yield predicted_yield
             (list_sort predicted_yield true (raw crops preds))).
    + apply (f_equal (map snd)) in Hcy.
      rewrite !map_map in Hcy. symmetry. exact Hcy.
    + by apply list_sort_reverse_sorted.
  - intros v. rewrite Hcy, <- raw_crop_yield, !with_key_map.
    f_equal. apply (list_sort_with_key predicted_yield true v).
  - exact Hrk.
  - intros n Hn.
    assert (Hs : slice_to full n = take (Z.to_nat n) full).
    { unfold slice_to. destruct (0 <=? n) eqn:E; [done|]. lia. }
    rewrite Hs. split_and!; [done| |].
    + rewrite length_take, Hfl. done.
    + rewrite <- (firstn_map rank), Hrk. apply seq_take.
Qed.

End Recommend.

(** ** Recommendation ranking (api/model_loader.py, src/models/inference.py) *)

Lemma mapM_Forall {A B} (f : A -> result B) (P : B -> Prop) (l : list A) (ys : list B) :
  (forall x y, f x = Ok y -> P y) -> mapM f l = Ok ys -> Forall P ys.
Proof.
  intros Hf. revert ys. induction l as [|x l IH]; intros ys; cbn.
  - intros [= <-]. constructor.
  - destruct (f x) as [y|e] eqn:E; cbn; [|discriminate].
    destruct (mapM f l) as [ys'|e]; cbn; [|discriminate].
    intros [= <-]. constructor; eauto.
Qed.

(** With [top_n] given, both functions return the [top_n=None] result
    sliced by [[:top_n]]; no other use is made of [top_n]. *)
Lemma recommend_top_n (self : ModelLoader.t) (country : string)
    (rainfall_mm pesticides_tonnes avg_temp : spec_float) (n : Z) :
  ModelLoader.recommend self country rainfall_mm pesticides_tonnes avg_temp (Some n)
  = let! full := ModelLoader.recommend self country rainfall_mm pesticides_tonnes
                   avg_temp None in
    Ok (slice_to full n).
Proof.
  unfold ModelLoader.recommend.
  destruct (negb (ModelLoader.is_loaded self)); [done|].
  destruct (ModelLoader.predict_model self _) as [preds|e]; [|done].
  cbn [bind]. by destruct (mapM _ _).
Qed.

Lemma recommend_crops_top_n (model : Model) (country : string)
    (rainfall_mm pesticides_tonnes avg_temp : spec_float)
    (crops : option (list string)) (n : Z) :
  Inference.recommend_crops model country rainfall_mm pesticides_tonnes avg_temp
    crops (Some n)
  = let! full := Inference.recommend_crops model country rainfall_mm
                   pesticides_tonnes avg_temp crops None in
    Ok (slice_to full n).
Proof.
  unfold Inference.recommend_crops.
  destruct (model _) as [preds|e]; [|done].
  cbn [bind]. by destruct (mapM _ _).
Qed.

(** The value of [recommend] without [top_n], once the pipeline has
    returned its predictions. *)
Lemma recommend_None_eq (self : ModelLoader.t) (country : string)
    (rainfall_mm pesticides_tonnes avg_temp : spec_float) (preds : list spec_float) :
  ModelLoader.is_loaded self = true ->
  ModelLoader.predict_model self
    (input_frame (ModelLoader.supported_crops self) country rainfall_mm
       pesticides_tonnes avg_temp) = Ok preds ->
  (length (ModelLoader.supported_crops self) <= length preds)%nat ->
  ModelLoader.recommend self country rainfall_mm pesticides_tonnes avg_temp None
  = Ok (assign_ranks (list_sort predicted_yield true
          (zip_with (fun c p => {| rank := 0; crop := c;
                                   predicted_yield := PyFloat.max0 p;
                                   yield_unit := "hg/ha" |})
             (ModelLoader.supported_crops self) preds))).
Proof.
  intros Hl Hp Hlen. unfold ModelLoader.recommend.
  rewrite Hl. cbn [negb]. rewrite Hp. cbn [bind].
  pose proof (mapM_enumerate
    (fun c p => {| rank := 0; crop := c; predicted_yield := PyFloat.max0 p;
                   yield_unit := "hg/ha" |}) preds _ Hlen) as Hm.
  cbv beta in Hm. rewrite Hm. done.
Qed.

Lemma recommend_crops_None_eq (model : Model) (country : string)
    (rainfall_mm pesticides_tonnes avg_temp : spec_float)
    (crops : option (list string)) (preds : list spec_float) :
  model (input_frame (list_or crops Constants.SUPPORTED_CROPS) country rainfall_mm
           pesticides_tonnes avg_temp) = Ok preds ->
  (length (list_or crops Constants.SUPPORTED_CROPS) <= length preds)%nat ->
  Inference.recommend_crops model country rainfall_mm pesticides_tonnes avg_temp
    crops None
  = Ok (assign_ranks (list_sort predicted_yield true
          (zip_with (fun c p => {| rank := 0; crop := c;
                                   predicted_yield := (fun x => x) p;
                                   yield_unit := "hg/ha" |})
             (list_or crops Constants.SUPPORTED_CROPS) preds))).
Proof.
  intros Hp Hlen. unfold Inference.recommend_crops.
  rewrite Hp. cbn [bind].
  pose proof (mapM_enumerate
    (fun c p => {| rank := 0; crop := c; predicted_yield := p;
                   yield_unit := "hg/ha" |}) preds _ Hlen) as Hm.
  cbv beta in Hm. rewrite Hm. done.
Qed.


(** X7. [recommend_crops] of src/models/inference.py, which does not
    clamp, ranks as [ModelLoader.recommend] does whenever the pipeline
    returns one prediction per crop and none of them is a NaN (for which no
    order exists): the result is a permutation of the per-crop scores,
    sorted by descending yield with ties in input order, ranked 1..N, and
    [top_n >= 1] returns its first [min(top_n, N)] entries. *)
Lemma recommend_crops_sorted_ranked (model : Model) (country : string)
    (rainfall_mm pesticides_tonnes avg_temp : spec_float)
    (crops0 : option (list string)) (preds : list spec_float) :
  let crops := list_or crops0 Constants.SUPPORTED_CROPS in
  model (input_frame crops country rainfall_mm pesticides_tonnes avg_temp) = Ok preds ->
  length preds = length crops ->
  Forall (fun p => PyFloat.is_nan p = false) preds ->
  exists full,
    Inference.recommend_crops model country rainfall_mm pesticides_tonnes avg_temp
      crops0 None = Ok full
    /\ map crop_yield full ≡ₚ scored (fun p => p) crops preds
    /\ StronglySorted (key_ge predicted_yield) full
    /\ (forall v, with_key snd v (map crop_yield full)
                  = with_key snd v (scored (fun p => p) crops preds))
    /\ map rank full = seq 1 (length crops)
    /\ (forall n, 1 <= n ->
          Inference.recommend_crops model country rainfall_mm pesticides_tonnes
            avg_temp crops0 (Some n) = Ok (take (Z.to_nat n) full)
          /\ length (take (Z.to_nat n) full) = Nat.min (Z.to_nat n) (length crops)).
Proof.
  intros crops Hp Hlen Hnan.
  assert (Hle : (length crops <= length preds)%nat) by lia.
  pose proof (recommend_crops_None_eq model country rainfall_mm pesticides_tonnes
                avg_temp crops0 preds Hp Hle) as Hfull.
  eexists. split; [exact Hfull|].
  destruct (ranked_spec (fun p => p) crops preds Hle) as (H1 & H2 & H3 & H4 & H5).
  { by apply raw_no_nan. }
  split_and!; try done.
  intros n Hn. destruct (H5 n Hn) as (Hs & Hlen' & Hrk).
  rewrite recommend_crops_top_n. fold crops. rewrite Hfull. cbn [bind].
  rewrite <- Hs. done.
Qed.

Import Samples.


(** The example of the specification: yields A:100, B:300, C:200 give the
    order B, C, A, and B, C with [top_n=2]. *)
Example recommend_abc :
  ModelLoader.recommend abc_loader "India" f1000 f1000 f20 None
  = Ok [ mkRecommendation 1 "B" f300 "hg/ha"; mkRecommendation 2 "C" f200 "hg/ha";
         mkRecommendation 3 "A" f100 "hg/ha" ]
  /\ ModelLoader.recommend abc_loader "India" f1000 f1000 f20 (Some 2)
     = Ok [ mkRecommendation 1 "B" f300 "hg/ha"; mkRecommendation 2 "C" f200 "hg/ha" ].
Proof. split; vm_compute; reflexivity. Qed.

(** ** Clamping of predictions *)

(** X1. [ModelLoader.predict] never returns a NaN or a negative value:
    whatever the fitted pipeline predicts, a returned yield [y] satisfies
    [0 <= y], which no NaN does. *)
Lemma predict_clamped (self : ModelLoader.t) (crop country : string)
    (rainfall_mm pesticides_tonnes avg_temp y : spec_float) :
  ModelLoader.predict self crop country rainfall_mm pesticides_tonnes avg_temp = Ok y ->
  PyFloat.leb PyFloat.zero y = true.
Proof.
  unfold ModelLoader.predict.
  destruct (negb (ModelLoader.is_loaded self)); [discriminate|].
  destruct (ModelLoader.predict_model self _) as [preds|e]; [|discriminate].
  cbn [bind]. destruct (getitem preds 0) as [p|e]; [|discriminate].
  cbn [bind]. intros [= <-]. apply PyFloatFacts.max0_nonneg.
Qed.

Lemma slice_to_Forall {A} (P : A -> Prop) (l : list A) (n : Z) :
  Forall P l -> Forall P (slice_to l n).
Proof. intros H. unfold slice_to. destruct (0 <=? n); by apply Forall_take. Qed.

(** X2. Every entry that [ModelLoader.recommend] returns, with or without
    [top_n], has a clamped yield: [0 <= predicted_yield], never a NaN. *)
Lemma recommend_clamped (self : ModelLoader.t) (country : string)
    (rainfall_mm pesticides_tonnes avg_temp : spec_float) (top_n : option Z)
    (out : list Recommendation) :
  ModelLoader.recommend self country rainfall_mm pesticides_tonnes avg_temp top_n
    = Ok out ->
  Forall (fun r => PyFloat.leb PyFloat.zero (predicted_yield r) = true) out.
Proof.
  unfold ModelLoader.recommend.
  destruct (negb (ModelLoader.is_loaded self)); [discriminate|].
  destruct (ModelLoader.predict_model self _) as [preds|e]; [|discriminate].
  cbn [bind].
  destruct (mapM _ _) as [results|e] eqn:Hm; [|discriminate].
  cbn [bind]. intros [= <-].
  apply (mapM_Forall _
           (fun r => PyFloat.leb PyFloat.zero (predicted_yield r) = true)) in Hm.
  2:{ intros [i c] y. cbn [fst snd]. destruct (getitem preds i) as [p|e];
        [|discriminate]. cbn [bind]. intros [= <-]. apply PyFloatFacts.max0_nonneg. }
  assert (Hr : Forall (fun r => PyFloat.leb PyFloat.zero (predicted_yield r) = true)
                 (assign_ranks (list_sort predicted_yield true results))).
  { assert (Hs : Forall (fun r => PyFloat.leb PyFloat.zero (predicted_yield r) = true)
                   (list_sort predicted_yield true results))
      by (by rewrite list_sort_perm).
    apply Forall_forall. intros r Hr.
    assert (Hcy : crop_yield r ∈ map crop_yield (list_sort predicted_yield true results)).
    { rewrite <- assign_ranks_crop_yield. by apply list_elem_of_fmap_2. }
    apply list_elem_of_fmap in Hcy as (r' & Heq & Hr').
    rewrite Forall_forall in Hs. specialize (Hs r' Hr').
    injection Heq as _ ->. exact Hs. }
  destruct top_n as [n|]; [|done].
  by apply slice_to_Forall.
Qed.

(** C2. The two inference functions of src/models/inference.py return the
    raw prediction: with a pipeline that predicts -5, [predict_yield] gives
    -5, which is below zero, and [recommend_crops] reports -5 as the
    predicted yield, where [ModelLoader.predict] and
    [ModelLoader.recommend] on the same pipeline report 0. *)
Theorem predict_yield_not_clamped (crop country : string)
    (rainfall_mm pesticides_tonnes avg_temp : spec_float) :
  Inference.predict_yield neg_model crop country rainfall_mm pesticides_tonnes
    avg_temp = Ok neg5
  /\ PyFloat.ltb neg5 PyFloat.zero = true
  /\ Inference.recommend_crops neg_model country rainfall_mm pesticides_tonnes
       avg_temp (Some ["Wheat"]) None
     = Ok [ mkRecommendation 1 "Wheat" neg5 "hg/ha" ]
  /\ ModelLoader.predict neg_loader crop country rainfall_mm pesticides_tonnes
       avg_temp = Ok PyFloat.zero.
Proof. split_and!; reflexivity. Qed.

(** ** [top_n] below 1 *)

Lemma slice_to_neg {A} (l : list A) (n : Z) :
  n < 1 ->
  slice_to l n = if n =? 0 then [] else take (length l - Z.to_nat (- n)) l.
Proof.
  intros Hn. unfold slice_to. destruct (0 <=? n) eqn:E.
  - assert (n = 0) as -> by lia. reflexivity.
  - destruct (n =? 0) eqn:E0; [lia|]. f_equal. lia.
Qed.

Lemma new_RecommendationRequest_top_n (country : string)
    (rainfall_mm pesticides_tonnes avg_temp : spec_float) (n : Z) :
  n < 1 ->
  Schemas.new_RecommendationRequest country rainfall_mm pesticides_tonnes avg_temp
    (Some n) = Raise ValidationError.
Proof.
  intros Hn. unfold Schemas.new_RecommendationRequest.
  repeat match goal with |- context [if ?b then _ else _] => destruct b eqn:? end;
    try reflexivity.
  lia.
Qed.

(** [top_n = 0] gives the empty list and [top_n = -1] drops the last
    result; neither call raises. *)
Lemma recommend_no_top_n_check :
  ModelLoader.recommend abc_loader "India" f1000 f1000 f20 (Some 0) = Ok []
  /\ ModelLoader.recommend abc_loader "India" f1000 f1000 f20 (Some 0)
     <> Raise InvalidArgumentError
  /\ ModelLoader.recommend abc_loader "India" f1000 f1000 f20 (Some (-1))
     = Ok [ mkRecommendation 1 "B" f300 "hg/ha"; mkRecommendation 2 "C" f200 "hg/ha" ]
  /\ Inference.recommend_crops abc_model "India" f1000 f1000 f20
       (Some ["A"; "B"; "C"]) (Some 0) = Ok [].
Proof. split_and!; try (vm_compute; reflexivity). vm_compute. discriminate. Qed.

(** C4 (amended). Neither recommendation function checks [top_n]: whenever
    the call without [top_n] returns a list, the call with [top_n = n < 1]
    also returns normally, with that list sliced by [[:n]] (nothing for
    [n = 0], all but the last [-n] entries for [n < 0]).  A [top_n] below 1
    is refused only when the request object of the HTTP layer is built
    (field constraint [ge=1]), with a validation error. *)
Theorem recommend_top_n_below_one (self : ModelLoader.t) (model : Model)
    (crops : option (list string)) (country : string)
    (rainfall_mm pesticides_tonnes avg_temp : spec_float) (n : Z)
    (full full' : list Recommendation) :
  n < 1 ->
  ModelLoader.recommend self country rainfall_mm pesticides_tonnes avg_temp None
    = Ok full ->
  Inference.recommend_crops model country rainfall_mm pesticides_tonnes avg_temp
    crops None = Ok full' ->
  ModelLoader.recommend self country rainfall_mm pesticides_tonnes avg_temp (Some n)
    = Ok (if n =? 0 then [] else take (length full - Z.to_nat (- n)) full)
  /\ Inference.recommend_crops model country rainfall_mm pesticides_tonnes avg_temp
       crops (Some n)
     = Ok (if n =? 0 then [] else take (length full' - Z.to_nat (- n)) full')
  /\ Schemas.new_RecommendationRequest country rainfall_mm pesticides_tonnes
       avg_temp (Some n) = Raise ValidationError.
Proof.
  intros Hn Hf Hf'. split_and!.
  - rewrite recommend_top_n, Hf. cbn [bind]. by rewrite slice_to_neg.
  - rewrite recommend_crops_top_n, Hf'. cbn [bind]. by rewrite slice_to_neg.
  - by apply new_RecommendationRequest_top_n.
Qed.

Lemma recommend_top_n_below_one_witness :
  ModelLoader.recommend abc_loader "India" f1000 f1000 f20 (Some (-1))
    = Ok (if -1 =? 0 then [] else
          take (length abc_ranked - Z.to_nat (- (-1))) abc_ranked)
  /\ Inference.recommend_crops abc_model "India" f1000 f1000 f20
       (Some ["A"; "B"; "C"]) (Some (-1))
     = Ok (if -1 =? 0 then [] else
           take (length abc_ranked - Z.to_nat (- (-1))) abc_ranked)
  /\ Schemas.new_RecommendationRequest "India" f1000 f1000 f20 (Some (-1))
     = Raise ValidationError.
Proof.
  apply (recommend_top_n_below_one abc_loader abc_model (Some ["A"; "B"; "C"])
           "India" f1000 f1000 f20 (-1) abc_ranked abc_ranked);
    [lia | vm_compute; reflexivity ..].
Defined.

(** ** An empty candidate list *)

Lemma map_crop_zip_with (f : spec_float -> spec_float) (crops : list string)
    (preds : list spec_float) :
  length preds = length crops ->
  map crop (zip_with (fun c p => {| rank := 0; crop := c; predicted_yield := f p;
                                     yield_unit := "hg/ha" |}) crops preds) = crops.
Proof.
  revert preds. induction crops as [|c crops IH]; intros [|p preds] H;
    try done. cbn. rewrite IH; [done|]. simpl in H. lia.
Qed.

Lemma map_crop_crop_yield (l : list Recommendation) :
  map crop l = map fst (map crop_yield l).
Proof. by rewrite map_map. Qed.

(** C10. Called with [crops = []], [recommend_crops] scores the ten default
    crops of [SUPPORTED_CROPS]: when the pipeline returns its ten
    predictions the result has ten entries, one per default crop, and for
    every [top_n] the call equals the call with [crops = None]. *)
Theorem recommend_crops_empty_list_defaults (model : Model) (country : string)
    (rainfall_mm pesticides_tonnes avg_temp : spec_float) (preds : list spec_float) :
  model (input_frame Constants.SUPPORTED_CROPS country rainfall_mm pesticides_tonnes
           avg_temp) = Ok preds ->
  length preds = 10%nat ->
  (exists out,
     Inference.recommend_crops model country rainfall_mm pesticides_tonnes avg_temp
       (Some []) None = Ok out
     /\ length out = 10%nat
     /\ map crop out ≡ₚ Constants.SUPPORTED_CROPS)
  /\ (forall top_n,
        Inference.recommend_crops model country rainfall_mm pesticides_tonnes
          avg_temp (Some []) top_n
        = Inference.recommend_crops model country rainfall_mm pesticides_tonnes
            avg_temp None top_n).
Proof.
  intros Hp Hlen. split; [|reflexivity].
  pose proof (recommend_crops_None_eq model country rainfall_mm pesticides_tonnes
                avg_temp (Some []) preds Hp) as Hfull.
  cbn [list_or] in Hfull.
  eexists. split; [apply Hfull; rewrite Hlen; cbn; lia|].
  split.
  - rewrite assign_ranks_length, list_sort_length, length_zip_with, Hlen. reflexivity.
  - rewrite map_crop_crop_yield, assign_ranks_crop_yield, <- map_crop_crop_yield.
    rewrite (list_sort_perm predicted_yield true).
    by rewrite (map_crop_zip_with (fun x => x)).
Qed.

Lemma recommend_crops_empty_list_defaults_witness :
  (exists out,
     Inference.recommend_crops neg_model "India" f1000 f1000 f20 (Some []) None = Ok out
     /\ length out = 10%nat
     /\ map crop out ≡ₚ Constants.SUPPORTED_CROPS)
  /\ (forall top_n,
        Inference.recommend_crops neg_model "India" f1000 f1000 f20 (Some []) top_n
        = Inference.recommend_crops neg_model "India" f1000 f1000 f20 None top_n).
Proof.
  apply (recommend_crops_empty_list_defaults neg_model "India" f1000 f1000 f20
           (map (fun _ => neg5) Constants.SUPPORTED_CROPS)); reflexivity.
Defined.

(** ** [validate_crop] (src/models/inference.py) *)

Section ValidateCropFacts.
Variable repr : list string -> string.

Lemma contains_app_r (needle a b : string) :
  PyStr.contains needle b = true -> PyStr.contains needle (a ++ b)%string = true.
Proof.
  intros H. induction a as [|c a IH]; [done|].
  change (PyStr.contains needle (String c a +:+ b))
    with (String.prefix needle (String c (a +:+ b))
          || PyStr.contains needle (a +:+ b)).
  rewrite IH. apply orb_true_r.
Qed.

Lemma contains_prefix (needle b : string) :
  PyStr.contains needle (needle ++ b)%string = true.
Proof.
  assert (H : String.prefix needle (needle +:+ b) = true).
  { induction needle as [|c n IH]; [by destruct b|].
    change (String.prefix (String c n) (String c n +:+ b))
      with (if Ascii.ascii_dec c c then String.prefix n (n +:+ b) else false).
    destruct (Ascii.ascii_dec c c); [exact IH|congruence]. }
  revert H. generalize (needle +:+ b). intros s H.
  destruct s as [|c s].
  - change (PyStr.contains needle "") with (String.prefix needle "" || false).
    by rewrite H.
  - change (PyStr.contains needle (String c s))
      with (String.prefix needle (String c s) || PyStr.contains needle s).
    by rewrite H.
Qed.

(** An exact match is accepted with an empty message. *)
Lemma validate_crop_exact (crop : string) (supported : option (list string)) :
  crop ∈ list_or supported Constants.SUPPORTED_CROPS ->
  Inference.validate_crop repr crop supported = (true, "").
Proof.
  intros H. unfold Inference.validate_crop. by rewrite bool_decide_eq_true_2.
Qed.

(** Without an exact match, the first supported crop that agrees with the
    name up to case is suggested, and the name is reported as valid. *)
Lemma validate_crop_suggestion (crop s : string) (supported : option (list string)) :
  crop ∉ list_or supported Constants.SUPPORTED_CROPS ->
  List.find (fun x => String.eqb (PyStr.lower x) (PyStr.lower crop))
    (list_or supported Constants.SUPPORTED_CROPS) = Some s ->
  Inference.validate_crop repr crop supported
  = (true, ("Did you mean '" ++ s ++ "'?")%string).
Proof.
  intros H Hf. unfold Inference.validate_crop.
  rewrite bool_decide_eq_false_2 by done. by rewrite Hf.
Qed.

(** Without any match the name is rejected, with a message that contains
    "not supported" and is not a suggestion. *)
Lemma validate_crop_unknown (crop : string) (supported : option (list string)) :
  (forall s, s ∈ list_or supported Constants.SUPPORTED_CROPS ->
             PyStr.lower s <> PyStr.lower crop) ->
  exists msg,
    Inference.validate_crop repr crop supported = (false, msg)
    /\ PyStr.contains "not supported" msg = true
    /\ String.prefix "Did you mean" msg = false.
Proof.
  intros H. unfold Inference.validate_crop.
  rewrite bool_decide_eq_false_2.
  2:{ intros Hin. by apply (H crop Hin). }
  destruct (List.find _ _) as [s|] eqn:Hf.
  - apply List.find_some in Hf as [Hin Heq].
    apply String.eqb_eq in Heq. apply list_elem_of_In in Hin.
    by destruct (H s Hin).
  - eexists. split; [reflexivity|]. split; [|reflexivity].
    change ("Crop '" ++ crop ++ "' is not supported. Supported crops: " ++ repr _)%string
      with ("Crop '" ++ (crop ++ ("' is not supported. Supported crops: " ++ repr
              (list_or supported Constants.SUPPORTED_CROPS))))%string.
    apply contains_app_r, contains_app_r.
    change ("' is not supported. Supported crops: " +:+ ?r)
      with ("' is " +:+ ("not supported" +:+ (". Supported crops: " +:+ r))).
    apply contains_app_r, contains_prefix.
Qed.

End ValidateCropFacts.

(** C3. For the name "wheat" and the default crop list, which contains
    "Wheat" but not "wheat", [validate_crop] answers
    [(True, "Did you mean 'Wheat'?")]: the suggestion is there, but the
    first component, [is_supported], is [True] and not [False]. *)
Theorem validate_crop_case_mismatch (repr : list string -> string) :
  Inference.validate_crop repr "wheat" None = (true, "Did you mean 'Wheat'?")
  /\ ("wheat" ∉ Constants.SUPPORTED_CROPS)
  /\ ("Wheat" ∈ Constants.SUPPORTED_CROPS)
  /\ Inference.validate_crop repr "Wheat" None = (true, "")
  /\ fst (Inference.validate_crop repr "Unicorn" None) = false.
Proof.
  split_and!; try reflexivity.
  - apply (bool_decide_unpack _). vm_compute. exact I.
  - apply (bool_decide_unpack _). vm_compute. exact I.
Qed.

(** ** Tables: labels, assignment *)

Section PandasFacts.
Import Pandas.

Lemma bind_Ok_inv {A B} (r : result A) (k : A -> result B) (b : B) :
  bind r k = Ok b -> exists a, r = Ok a /\ k a = Ok b.
Proof. destruct r as [a|e]; cbn; [eauto|discriminate]. Qed.

Lemma bind_not_raise {A B} (r : result A) (k : A -> result B) (e : exn) :
  r <> Raise e -> (forall a, k a <> Raise e) -> bind r k <> Raise e.
Proof. destruct r as [a|e']; cbn; [auto|]. intros H _ [= ->]. done. Qed.

Lemma mapM_not_raise {A B} (f : A -> result B) (l : list A) (e : exn) :
  (forall a, f a <> Raise e) -> mapM f l <> Raise e.
Proof.
  intros H. induction l as [|x l IH]; cbn; [done|].
  apply bind_not_raise; [done|]. intros y.
  apply bind_not_raise; [done|]. done.
Qed.

Lemma has_col_true (df : DataFrame) (c : string) :
  has_col df c = true <-> c ∈ columns df.
Proof. unfold has_col. apply bool_decide_eq_true. Qed.

Lemma index_of_None (c : string) (cols : list string) :
  index_of c cols = None <-> c ∉ cols.
Proof.
  induction cols as [|x cols IH]; cbn.
  - split; [intros _; apply not_elem_of_nil|done].
  - destruct (String.eqb_spec x c) as [->|Hne].
    + split; [discriminate|]. intros H. destruct H. left.
    + rewrite not_elem_of_cons, <- IH.
      destruct (index_of c cols); cbn;
        (split; [intros ?; split; congruence | intros [? ?]; congruence]).
Qed.

Lemma locate_Ok_in (df : DataFrame) (c : string) (i : nat) :
  locate df c = Ok i -> c ∈ columns df.
Proof.
  unfold locate. destruct (index_of c (columns df)) eqn:E; [|discriminate].
  intros _. destruct (decide (c ∈ columns df)) as [|Hn]; [done|].
  apply index_of_None in Hn. congruence.
Qed.

Lemma locate_Ok_index (df : DataFrame) (c : string) (i : nat) :
  locate df c = Ok i ->
  index_of c (columns df) = Some i
  /\ (occurrences c (columns df) =? 1)%nat = true.
Proof.
  unfold locate. destruct (index_of c (columns df)); [|discriminate].
  destruct (_ =? _)%nat; [|discriminate]. by intros [= ->].
Qed.

(** [locate] only looks at the labels. *)
Lemma locate_columns (df df' : DataFrame) (c : string) :
  columns df' = columns df -> locate df' c = locate df c.
Proof. unfold locate. by intros ->. Qed.

Lemma has_col_columns (df df' : DataFrame) (c : string) :
  columns df' = columns df -> has_col df' c = has_col df c.
Proof. unfold has_col. by intros ->. Qed.

Lemma zip_with_map_same {A B C} (g : A -> B -> C) (f : A -> B) (l : list A) :
  zip_with g l (map f l) = map (fun a => g a (f a)) l.
Proof. induction l as [|a l IH]; cbn; [done|]. by rewrite IH. Qed.

Lemma insert_cell_at (f : cell -> cell) (i : nat) (r : list cell) :
  <[i := f (cell_at r i)]> r = alter f i r.
Proof.
  unfold cell_at. revert i. induction r as [|c r IH]; intros [|i]; cbn; try done.
  by rewrite <- IH.
Qed.

(** Assigning to an existing column the image of its own cells. *)
Lemma assign_map (df : DataFrame) (c : string) (i : nat) (f : cell -> cell) :
  locate df c = Ok i ->
  assign df c (map f (column df i)) = Ok (map_column f i df).
Proof.
  intros H. apply locate_Ok_index in H as [Hi Ho].
  unfold assign, map_column, column. rewrite Hi, Ho.
  rewrite map_map, zip_with_map_same. do 2 f_equal.
  apply map_ext. intros r. apply insert_cell_at.
Qed.

Lemma assign_has_col (df df' : DataFrame) (c : string) (v : list cell) :
  has_col df c = true -> assign df c v = Ok df' -> columns df' = columns df.
Proof.
  rewrite has_col_true. intros Hin. unfold assign.
  destruct (index_of c (columns df)) eqn:E.
  - destruct (_ =? _)%nat; [|discriminate]. by intros [= <-].
  - apply index_of_None in E. done.
Qed.

Lemma column_map_column (f : cell -> cell) (i : nat) (df : DataFrame) :
  f CNone = CNone ->
  column (map_column f i df) i = map f (column df i).
Proof.
  intros Hf. unfold column, map_column. cbn. rewrite !map_map.
  apply map_ext. intros r. unfold cell_at.
  rewrite list_lookup_alter_eq. destruct (r !! i) as [c|]; cbn; [done|].
  by rewrite Hf.
Qed.

Lemma map_column_compose (f g : cell -> cell) (i : nat) (df : DataFrame) :
  map_column g i (map_column f i df) = map_column (fun c => g (f c)) i df.
Proof.
  unfold map_column. cbn. f_equal. rewrite map_map.
  apply map_ext. intros r. apply list_alter_alter_eq.
Qed.

Lemma map_column_ext (f g : cell -> cell) (i : nat) (df : DataFrame) :
  (forall c, f c = g c) -> map_column f i df = map_column g i df.
Proof.
  intros H. unfold map_column. f_equal. apply map_ext. intros r.
  apply list_alter_ext; [auto|done].
Qed.

End PandasFacts.

(** ** Country names (src/data/cleaner.py) *)

Section StripFacts.
Import PyStr.

Lemma rstrip_idem (s : string) : rstrip (rstrip s) = rstrip s.
Proof.
  induction s as [|c s IH]; [done|].
  cbn [rstrip]. destruct (rstrip s) as [|c' r] eqn:E.
  - destruct (is_space c) eqn:Ec; [done|]. cbn. by rewrite Ec.
  - cbn [rstrip]. cbn [rstrip] in IH. by rewrite IH.
Qed.

Lemma lstrip_head (s : string) (c : ascii) (t : string) :
  lstrip s = String c t -> is_space c = false.
Proof.
  induction s as [|c' s IH]; [done|].
  cbn [lstrip]. destruct (is_space c') eqn:E; [done|].
  by intros [= <- _].
Qed.

Lemma rstrip_head (c : ascii) (t : string) :
  is_space c = false -> exists r, rstrip (String c t) = String c r.
Proof.
  intros Hc. cbn [rstrip]. destruct (rstrip t); [|eauto].
  rewrite Hc. eauto.
Qed.

Lemma strip_idem (s : string) : strip (strip s) = strip s.
Proof.
  unfold strip. destruct (lstrip s) as [|c t] eqn:E; [done|].
  pose proof (lstrip_head s c t E) as Hc.
  destruct (rstrip_head c t Hc) as [r Hr].
  rewrite Hr. cbn [lstrip]. rewrite Hc, <- Hr. apply rstrip_idem.
Qed.

End StripFacts.

Section CountryFacts.
Import Pandas.

(** No canonical name is itself an alias, and none has surrounding
    whitespace; so replacing twice is replacing once. *)
Lemma COUNTRY_MAPPING_canonical (k v : string) :
  Constants.COUNTRY_MAPPING !! k = Some v ->
  PyStr.strip v = v /\ Constants.COUNTRY_MAPPING !! v = None.
Proof.
  revert k v.
  change (map_Forall (fun _ v => PyStr.strip v = v
                                 /\ Constants.COUNTRY_MAPPING !! v = None)
            Constants.COUNTRY_MAPPING).
  apply (bool_decide_unpack _). vm_compute. exact I.
Qed.

Lemma normalize_country_idem (c : cell) :
  normalize_country (normalize_country c) = normalize_country c.
Proof.
  unfold normalize_country. destruct c as [s| | |]; try done.
  cbn [str_strip replace].
  destruct (Constants.COUNTRY_MAPPING !! PyStr.strip s) as [v|] eqn:E; cbn [default].
  - destruct (COUNTRY_MAPPING_canonical _ _ E) as [Hs Hn].
    cbn [str_strip replace]. unfold id. by rewrite Hs, Hn.
  - cbn [str_strip replace]. unfold id. by rewrite strip_idem, E.
Qed.

End CountryFacts.

Section StandardizeCountry.
Import Pandas.

Lemma normalize_country_None : normalize_country CNone = CNone.
Proof. reflexivity. Qed.

Lemma str_accessor_ok_normalized (col : list cell) :
  str_accessor_ok (map normalize_country col) = true.
Proof.
  unfold str_accessor_ok. induction col as [|c col IH]; [done|].
  destruct c as [s| | |]; cbn [map existsb forallb]; try done;
    change (normalize_country _) with CNone; cbn; exact IH.
Qed.

Lemma standardize_country_names_absent (df : DataFrame) (col : string) :
  has_col df col = false -> Cleaner.standardize_country_names df col = Ok df.
Proof. intros H. unfold Cleaner.standardize_country_names. by rewrite H. Qed.

Lemma standardize_country_names_present (df : DataFrame) (col : string) (i : nat) :
  locate df col = Ok i ->
  Cleaner.standardize_country_names df col
  = if str_accessor_ok (column df i)
    then Ok (map_column normalize_country i df)
    else Raise AttributeError.
Proof.
  intros Hl. unfold Cleaner.standardize_country_names.
  assert (Hc : has_col df col = true)
    by (apply has_col_true; eapply locate_Ok_in; eauto).
  rewrite Hc, Hl. cbn [bind]. unfold Cleaner.series_str_strip.
  destruct (str_accessor_ok (column df i)); [|done].
  cbn [bind]. rewrite (assign_map df col i str_strip Hl). cbn [bind].
  assert (Hl' : locate (map_column str_strip i df) col = Ok i)
    by (rewrite <- Hl; by apply locate_columns).
  rewrite Hl'. cbn [bind].
  rewrite (assign_map _ col i (replace Constants.COUNTRY_MAPPING) Hl').
  cbn [bind]. by rewrite map_column_compose.
Qed.

Lemma standardize_country_names_inv (df df1 : DataFrame) (col : string) :
  Cleaner.standardize_country_names df col = Ok df1 ->
  (has_col df col = false /\ df1 = df)
  \/ (exists i, locate df col = Ok i
                /\ str_accessor_ok (column df i) = true
                /\ df1 = map_column normalize_country i df).
Proof.
  intros H. destruct (has_col df col) eqn:Hc.
  - right. destruct (locate df col) as [i|e] eqn:Hl.
    + rewrite (standardize_country_names_present df col i Hl) in H.
      destruct (str_accessor_ok (column df i)) eqn:Hok; [|discriminate].
      injection H as <-. eauto.
    + unfold Cleaner.standardize_country_names in H.
      rewrite Hc, Hl in H. discriminate.
  - left. rewrite standardize_country_names_absent in H by done.
    by injection H as <-.
Qed.

(** C9. Country-name normalisation is idempotent: if it returns [df1] on
    a table, it returns [df1] again on [df1].  It leaves the labels alone,
    leaves a table without the country column unchanged, and otherwise
    rewrites each cell of that column: a string whose stripped form is a
    key of [COUNTRY_MAPPING] becomes the canonical name of that key, and
    any other string becomes its stripped form. *)
Theorem standardize_country_names_idempotent (df df1 : DataFrame) (col : string) :
  Cleaner.standardize_country_names df col = Ok df1 ->
  Cleaner.standardize_country_names df1 col = Ok df1
  /\ columns df1 = columns df
  /\ (has_col df col = false -> df1 = df)
  /\ (forall i, locate df col = Ok i ->
                rows df1 = map (alter normalize_country i) (rows df))
  /\ (forall s v, Constants.COUNTRY_MAPPING !! PyStr.strip s = Some v ->
                  normalize_country (CStr s) = CStr v)
  /\ (forall s, Constants.COUNTRY_MAPPING !! PyStr.strip s = None ->
                normalize_country (CStr s) = CStr (PyStr.strip s)).
Proof.
  intros H.
  assert (Hcell1 : forall s v, Constants.COUNTRY_MAPPING !! PyStr.strip s = Some v ->
                               normalize_country (CStr s) = CStr v).
  { intros s v E. unfold normalize_country. cbn [str_strip replace]. by rewrite E. }
  assert (Hcell2 : forall s, Constants.COUNTRY_MAPPING !! PyStr.strip s = None ->
                             normalize_country (CStr s) = CStr (PyStr.strip s)).
  { intros s E. unfold normalize_country. cbn [str_strip replace]. by rewrite E. }
  destruct (standardize_country_names_inv df df1 col H)
    as [[Hc ->]|(i & Hl & Hok & ->)].
  - split_and!; try done.
    intros i Hl. apply locate_Ok_in, has_col_true in Hl. congruence.
  - split_and!; try done.
    + assert (Hl' : locate (map_column normalize_country i df) col = Ok i)
        by (rewrite <- Hl; by apply locate_columns).
      rewrite (standardize_country_names_present _ col i Hl').
      rewrite (column_map_column _ _ _ normalize_country_None).
      rewrite str_accessor_ok_normalized, map_column_compose.
      f_equal. apply map_column_ext, normalize_country_idem.
    + intros Hc. apply locate_Ok_in, has_col_true in Hl. congruence.
    + intros j Hj. rewrite Hl in Hj. by injection Hj as <-.
Qed.

Lemma standardize_country_names_idempotent_witness :
  Cleaner.standardize_country_names
    (map_column normalize_country 0 Samples.soil_table) "country"
  = Ok (map_column normalize_country 0 Samples.soil_table).
Proof.
  apply (standardize_country_names_idempotent Samples.soil_table
           (map_column normalize_country 0 Samples.soil_table) "country").
  vm_compute. reflexivity.
Defined.

End StandardizeCountry.

(** ** The context cleaner and its type tag (src/data/cleaner.py) *)

Section ContextCleaner.
Import Pandas.
Variable parse_int : string -> option Z.
Variable parse_float : string -> option spec_float.

Ltac no_raise :=
  repeat first
    [ discriminate
    | apply bind_not_raise; [|intros ?]
    | apply mapM_not_raise; intros ?
    | match goal with
      | |- (if ?b then _ else _) <> _ => destruct b
      | |- match ?x with _ => _ end <> _ => destruct x
      end ].

Lemma locate_not_ConfigurationError (df : DataFrame) (c : string) :
  locate df c <> Raise ConfigurationError.
Proof. unfold locate. no_raise. Qed.

Lemma assign_not_ConfigurationError (df : DataFrame) (c : string) (v : list cell) :
  assign df c v <> Raise ConfigurationError.
Proof. unfold assign. no_raise. Qed.

Lemma select_not_ConfigurationError (df : DataFrame) (cols : list string) :
  select df cols <> Raise ConfigurationError.
Proof. unfold select. no_raise. apply locate_not_ConfigurationError. Qed.

Lemma coerce_numeric_not_ConfigurationError (df : DataFrame) (c : string) :
  Cleaner.coerce_numeric parse_float c df <> Raise ConfigurationError.
Proof.
  unfold Cleaner.coerce_numeric. no_raise;
    auto using locate_not_ConfigurationError, assign_not_ConfigurationError.
Qed.

Lemma standardize_country_names_not_ConfigurationError (df : DataFrame) (c : string) :
  Cleaner.standardize_country_names df c <> Raise ConfigurationError.
Proof.
  unfold Cleaner.standardize_country_names, Cleaner.series_str_strip. no_raise;
    auto using locate_not_ConfigurationError, assign_not_ConfigurationError.
Qed.

Lemma year_to_int_not_ConfigurationError (df : DataFrame) :
  Cleaner.year_to_int parse_int df <> Raise ConfigurationError.
Proof.
  unfold Cleaner.year_to_int, astype_int. no_raise;
    auto using locate_not_ConfigurationError, assign_not_ConfigurationError.
Qed.

Lemma drop_duplicates_not_ConfigurationError (df : DataFrame) (cols : list string) :
  drop_duplicates cols df <> Raise ConfigurationError.
Proof. unfold drop_duplicates. no_raise. apply locate_not_ConfigurationError. Qed.

(** No call of the context cleaner ends in [ConfigurationError], whatever
    the tag. *)
Lemma clean_context_data_not_ConfigurationError (df : DataFrame) (tag : string) :
  Cleaner.clean_context_data parse_int parse_float df tag
  <> Raise ConfigurationError.
Proof.
  unfold Cleaner.clean_context_data.
  apply bind_not_raise.
  - repeat match goal with
           | |- (if ?b then _ else _) <> _ => destruct b
           end;
      try discriminate;
      (apply bind_not_raise;
       [apply select_not_ConfigurationError
       |intros ?; apply coerce_numeric_not_ConfigurationError]).
  - intros ?. apply bind_not_raise;
      [apply standardize_country_names_not_ConfigurationError|].
    intros ?. apply bind_not_raise; [apply year_to_int_not_ConfigurationError|].
    intros ?. apply bind_not_raise; [apply drop_duplicates_not_ConfigurationError|].
    discriminate.
Qed.

(** C6 (amended). With a type tag other than "pesticides", "rainfall" and
    "temperature" the context cleaner raises no [ConfigurationError]: it
    selects and coerces no column and applies the steps common to all tags
    to the table as it is (country names normalised, year cast to
    integer, duplicate (country, year) rows dropped keeping the first),
    failing only where one of these steps fails. *)
Theorem clean_context_data_unknown_tag (df : DataFrame) (tag : string) :
  tag <> "pesticides" -> tag <> "rainfall" -> tag <> "temperature" ->
  Cleaner.clean_context_data parse_int parse_float df tag
  = (let! df := Cleaner.standardize_country_names df "country" in
     let! df := Cleaner.year_to_int parse_int df in
     drop_duplicates ["country"; "year"] df)
  /\ Cleaner.clean_context_data parse_int parse_float df tag
     <> Raise ConfigurationError.
Proof.
  intros H1 H2 H3. split; [|apply clean_context_data_not_ConfigurationError].
  unfold Cleaner.clean_context_data.
  apply String.eqb_neq in H1, H2, H3. rewrite H1, H2, H3. cbn [bind].
  destruct (Cleaner.standardize_country_names df "country") as [df1|e]; [|done].
  cbn [bind]. destruct (Cleaner.year_to_int parse_int df1) as [df2|e]; [|done].
  cbn [bind]. by destruct (drop_duplicates _ df2).
Qed.

End ContextCleaner.

Lemma clean_context_data_unknown_tag_witness :
  Cleaner.clean_context_data Samples.no_int Samples.no_float
    Samples.soil_table "soil"
  = (let! df := Cleaner.standardize_country_names Samples.soil_table "country" in
     let! df := Cleaner.year_to_int Samples.no_int df in
     Pandas.drop_duplicates ["country"; "year"] df)
  /\ Cleaner.clean_context_data Samples.no_int Samples.no_float
       Samples.soil_table "soil" <> Raise ConfigurationError.
Proof.
  apply (clean_context_data_unknown_tag Samples.no_int Samples.no_float
           Samples.soil_table "soil"); discriminate.
Defined.

(** The tag "soil" on a small table: the cleaner returns the table with
    its countries normalised and its repeated key dropped. *)
Lemma unknown_tag_is_cleaned :
  Cleaner.clean_context_data Samples.no_int Samples.no_float
    Samples.soil_table "soil"
  = Ok {| Pandas.columns := ["country"; "year"; "ph"];
          Pandas.rows :=
            [ [Pandas.CStr "United States"; Pandas.CInt 2000;
               Pandas.CFloat Samples.f20];
              [Pandas.CStr "India"; Pandas.CInt 2001;
               Pandas.CFloat Samples.f200] ] |}
  /\ Cleaner.clean_context_data Samples.no_int Samples.no_float
       Samples.soil_table "soil" <> Raise ConfigurationError.
Proof. split; [vm_compute; reflexivity | vm_compute; discriminate]. Qed.

(** ** The yield cleaner (src/data/cleaner.py) *)

Section DropDuplicates.
Import Pandas.
Variable idx : list nat.

Lemma drop_seen_sublist (seen : list (list cell)) (l : list (list cell)) :
  drop_seen idx seen l `sublist_of` l.
Proof.
  revert seen. induction l as [|r l IH]; intros seen; cbn; [done|].
  destruct (bool_decide _).
  - by apply sublist_cons.
  - by apply sublist_skip.
Qed.

Lemma drop_seen_fresh (seen : list (list cell)) (l : list (list cell)) (r : list cell) :
  r ∈ drop_seen idx seen l -> row_key idx r ∉ seen.
Proof.
  revert seen. induction l as [|x l IH]; intros seen; cbn.
  - intros H. by apply elem_of_nil in H.
  - destruct (bool_decide (row_key idx x ∈ seen)) eqn:E.
    + apply IH.
    + apply bool_decide_eq_false in E.
      intros [->|H]%elem_of_cons; [done|].
      apply IH in H. by apply not_elem_of_cons in H as [_ H].
Qed.

Lemma drop_seen_NoDup (seen : list (list cell)) (l : list (list cell)) :
  NoDup (map (row_key idx) (drop_seen idx seen l)).
Proof.
  revert seen. induction l as [|x l IH]; intros seen; cbn; [constructor|].
  destruct (bool_decide (row_key idx x ∈ seen)); [apply IH|].
  cbn. constructor; [|apply IH].
  intros (r & Hk & Hr)%list_elem_of_fmap.
  apply drop_seen_fresh in Hr. apply Hr. rewrite <- Hk. left.
Qed.

(** The row kept for a key is the first row of the input with that key. *)
Lemma drop_seen_first (seen : list (list cell)) (l : list (list cell))
    (k : list cell) :
  k ∉ seen ->
  List.find (same_key idx k) (drop_seen idx seen l) = List.find (same_key idx k) l.
Proof.
  revert seen. induction l as [|x l IH]; intros seen Hk; [done|].
  cbn [drop_seen List.find].
  destruct (bool_decide (row_key idx x ∈ seen)) eqn:E.
  - apply bool_decide_eq_true in E.
    assert (Hx : same_key idx k x = false).
    { unfold same_key. apply bool_decide_eq_false. by intros <-. }
    rewrite Hx. by apply IH.
  - cbn [List.find].
    destruct (same_key idx k x) eqn:E'; [done|].
    apply IH. apply not_elem_of_cons. split; [|done].
    unfold same_key in E'. apply bool_decide_eq_false in E'. congruence.
Qed.

Lemma find_filter {A} (p q : A -> bool) (l : list A) :
  List.find p (List.filter q l) = List.find (fun a => q a && p a) l.
Proof.
  induction l as [|a l IH]; [done|].
  cbn. destruct (q a); cbn; [|done]. by rewrite IH.
Qed.

End DropDuplicates.

Section YieldCleaner.
Import Pandas.
Variable parse_int : string -> option Z.
Variable parse_float : string -> option spec_float.

Lemma standardize_column_names_keeps (df : DataFrame) (c : string) :
  c ∈ columns df -> PyStr.strip c = c -> Constants.COLUMN_MAPPING !! c = None ->
  c ∈ columns (Cleaner.standardize_column_names df None).
Proof.
  intros Hin Hs Hm.
  unfold Cleaner.standardize_column_names, rename, strip_columns, Cleaner.dict_or.
  cbn [columns]. rewrite map_map.
  apply list_elem_of_fmap. exists c. split; [|done].
  by rewrite Hs, Hm.
Qed.

Lemma standardize_country_names_columns (df df1 : DataFrame) (c : string) :
  Cleaner.standardize_country_names df c = Ok df1 -> columns df1 = columns df.
Proof.
  intros H. by destruct (standardize_country_names_inv df df1 c H)
    as [[_ ->]|(i & _ & _ & ->)].
Qed.

Lemma year_to_int_columns (df df' : DataFrame) :
  Cleaner.year_to_int parse_int df = Ok df' -> columns df' = columns df.
Proof.
  unfold Cleaner.year_to_int. intros H.
  apply bind_Ok_inv in H as (i & Hl & H).
  apply bind_Ok_inv in H as (ys & _ & H).
  eapply assign_has_col; [|exact H].
  apply has_col_true. eapply locate_Ok_in; eauto.
Qed.

Lemma coerce_numeric_columns (df df' : DataFrame) (c : string) :
  Cleaner.coerce_numeric parse_float c df = Ok df' -> columns df' = columns df.
Proof.
  unfold Cleaner.coerce_numeric. intros H.
  apply bind_Ok_inv in H as (i & Hl & H).
  eapply assign_has_col; [|exact H].
  apply has_col_true. eapply locate_Ok_in; eauto.
Qed.

Lemma coerce_loop_columns (cols : list string) (r : result DataFrame)
    (df df' : DataFrame) :
  r = Ok df ->
  foldl (fun acc col =>
           let! df := acc in
           if has_col df col then Cleaner.coerce_numeric parse_float col df
           else Ok df) r cols = Ok df' ->
  columns df' = columns df.
Proof.
  revert r df. induction cols as [|c cols IH]; intros r df -> H; cbn in H.
  - by injection H as <-.
  - destruct (has_col df c).
    + destruct (Cleaner.coerce_numeric parse_float c df) as [df1|e] eqn:E.
      * rewrite (IH _ df1 eq_refl H). by eapply coerce_numeric_columns.
      * exfalso. clear -H. induction cols as [|c' cols IH]; cbn in H;
          [discriminate|auto].
    + by apply (IH _ df eq_refl).
Qed.

Lemma clean_yield_coerce_columns (df mid : DataFrame) :
  Cleaner.clean_yield_coerce parse_int parse_float df = Ok mid ->
  columns mid = columns (Cleaner.standardize_column_names df None).
Proof.
  unfold Cleaner.clean_yield_coerce. intros H.
  apply bind_Ok_inv in H as (df1 & H1 & H).
  apply bind_Ok_inv in H as (df2 & H2 & H).
  apply bind_Ok_inv in H as (df3 & H3 & H).
  apply bind_Ok_inv in H as (df4 & H4 & H).
  injection H as <-.
  rewrite (coerce_loop_columns _ _ df3 df4 eq_refl H4).
  assert (E3 : columns df3 = columns df2).
  { destruct (has_col df2 "year"); [by eapply year_to_int_columns|].
    by injection H3 as <-. }
  assert (E2 : columns df2 = columns df1).
  { destruct (has_col df1 "crop") eqn:Hc; [|by injection H2 as <-].
    apply bind_Ok_inv in H2 as (i & _ & H2).
    apply bind_Ok_inv in H2 as (cl & _ & H2).
    by eapply assign_has_col. }
  rewrite E3, E2. by eapply standardize_country_names_columns.
Qed.

Lemma filter_bool_sublist {A} (p : A -> bool) (l : list A) :
  List.filter p l `sublist_of` l.
Proof.
  induction l as [|a l IH]; cbn; [done|].
  destruct (p a); [by apply sublist_skip|by apply sublist_cons].
Qed.

(** C8. On a table that has the yield, country, crop and year columns,
    whenever the yield cleaner returns a table [out], [out] is obtained
    from the coerced table [mid] (names, countries, crops, years and
    numeric columns cleaned) by keeping rows of [mid] unchanged: no row of
    [out] has a missing yield, no two rows of [out] have the same
    (country, crop, year), and for every key the row of [out] carrying it
    is the first row of [mid] that carries it and has a yield. *)
Theorem clean_yield_data_no_missing_no_duplicates (df out : DataFrame) :
  "yield" ∈ columns df -> "country" ∈ columns df ->
  "crop" ∈ columns df -> "year" ∈ columns df ->
  Cleaner.clean_yield_data parse_int parse_float df = Ok out ->
  exists mid iy idx,
    Cleaner.clean_yield_coerce parse_int parse_float df = Ok mid
    /\ columns out = columns mid
    /\ locate out "yield" = Ok iy
    /\ mapM (locate out) ["country"; "crop"; "year"] = Ok idx
    /\ Forall (fun r => isna (cell_at r iy) = false) (rows out)
    /\ NoDup (map (row_key idx) (rows out))
    /\ rows out `sublist_of` rows mid
    /\ (forall k,
          List.find (same_key idx k) (rows out)
          = List.find (fun r => negb (isna (cell_at r iy)) && same_key idx k r)
              (rows mid)).
Proof.
  intros Hy Hco Hcr Hyr H. unfold Cleaner.clean_yield_data in H.
  apply bind_Ok_inv in H as (mid & Hmid & H).
  pose proof (clean_yield_coerce_columns df mid Hmid) as Hcols.
  assert (Hhas : forall c, c ∈ columns df -> PyStr.strip c = c ->
                           Constants.COLUMN_MAPPING !! c = None ->
                           has_col mid c = true).
  { intros c Hin Hs Hm. apply has_col_true. rewrite Hcols.
    by apply standardize_column_names_keeps. }
  rewrite (Hhas "yield" Hy eq_refl eq_refl) in H.
  apply bind_Ok_inv in H as (df1 & H1 & H).
  apply bind_Ok_inv in H1 as (iy & Hiy & H1). injection H1 as <-.
  assert (Hk : List.filter (has_col (dropna iy mid)) ["country"; "crop"; "year"]
               = ["country"; "crop"; "year"]).
  { cbn [List.filter].
    rewrite !(has_col_columns mid (dropna iy mid)) by done.
    rewrite (Hhas "country" Hco eq_refl eq_refl),
            (Hhas "crop" Hcr eq_refl eq_refl),
            (Hhas "year" Hyr eq_refl eq_refl). done. }
  rewrite Hk in H.
  apply bind_Ok_inv in H as (df2 & H2 & H). injection H as <-.
  unfold drop_duplicates in H2.
  apply bind_Ok_inv in H2 as (idx & Hidx & H2). injection H2 as <-.
  exists mid, iy, idx. cbn [columns rows dropna].
  split_and!; try done.
  - apply Forall_forall. intros r Hr.
    apply (sublist_subseteq _ _ (drop_seen_sublist idx [] _)) in Hr.
    apply list_elem_of_In, List.filter_In in Hr as [_ Hr].
    by apply negb_true_iff in Hr.
  - apply drop_seen_NoDup.
  - etrans; [apply drop_seen_sublist|]. apply filter_bool_sublist.
  - intros k. rewrite drop_seen_first by apply not_elem_of_nil.
    apply find_filter.
Qed.

End YieldCleaner.

Example clean_yield_data_example :
  Cleaner.clean_yield_data Samples.no_int Samples.no_float Samples.yield_table
  = Ok Samples.yield_table_clean.
Proof. vm_compute. reflexivity. Qed.

Lemma clean_yield_data_no_missing_no_duplicates_witness :
  exists mid iy idx,
    Cleaner.clean_yield_coerce Samples.no_int Samples.no_float Samples.yield_table
      = Ok mid
    /\ Pandas.columns Samples.yield_table_clean = Pandas.columns mid
    /\ Pandas.locate Samples.yield_table_clean "yield" = Ok iy
    /\ mapM (Pandas.locate Samples.yield_table_clean) ["country"; "crop"; "year"]
       = Ok idx
    /\ Forall (fun r => Pandas.isna (Pandas.cell_at r iy) = false)
         (Pandas.rows Samples.yield_table_clean)
    /\ NoDup (map (Pandas.row_key idx) (Pandas.rows Samples.yield_table_clean))
    /\ Pandas.rows Samples.yield_table_clean `sublist_of` Pandas.rows mid
    /\ (forall k,
          List.find (Pandas.same_key idx k) (Pandas.rows Samples.yield_table_clean)
          = List.find (fun r => negb (Pandas.isna (Pandas.cell_at r iy))
                                && Pandas.same_key idx k r)
              (Pandas.rows mid)).
Proof.
  apply (clean_yield_data_no_missing_no_duplicates Samples.no_int Samples.no_float
           Samples.yield_table Samples.yield_table_clean);
    try (apply (bool_decide_unpack _); vm_compute; exact I).
  vm_compute. reflexivity.
Defined.

(** ** Feature buckets (src/features/engineering.py) *)

Section Features.
Import Pandas Engineering.

Lemma above_false (x a b : spec_float) :
  PyFloat.leb x a = true -> PyFloat.leb a b = true -> PyFloat.ltb b x = false.
Proof.
  intros H1 H2. apply PyFloatFacts.leb_ltb_false.
  eapply PyFloatFacts.leb_trans; eauto.
Qed.

(** The first temperature bucket is closed on the right: every value up
    to and including 10 (and above -inf) is "cold". *)
Lemma temp_cut_cold (x : spec_float) :
  PyFloat.ltb neg_inf x = true -> PyFloat.leb x (PyFloat.of_Z 10) = true ->
  cut [neg_inf; PyFloat.of_Z 10; PyFloat.of_Z 20; PyFloat.of_Z 30; inf]
      ["cold"; "temperate"; "warm"; "hot"] (CFloat x) = Ok (CStr "cold").
Proof.
  intros H1 H2. unfold cut, searchsorted_left.
  cbn [as_float bind List.filter].
  rewrite H1, (PyFloatFacts.leb_ltb_false _ _ H2).
  rewrite (above_false x _ (PyFloat.of_Z 20) H2 eq_refl).
  rewrite (above_false x _ (PyFloat.of_Z 30) H2 eq_refl).
  rewrite (above_false x _ inf H2 eq_refl).
  destruct (PyFloatFacts.leb_not_nan _ _ H2) as [-> _].
  reflexivity.
Qed.

(** The first rainfall bucket likewise reaches up to and including 500. *)
Lemma rain_cut_arid (x : spec_float) :
  PyFloat.ltb neg_inf x = true -> PyFloat.leb x (PyFloat.of_Z 500) = true ->
  cut [neg_inf; PyFloat.of_Z 500; PyFloat.of_Z 1000; PyFloat.of_Z 2000; inf]
      ["arid"; "semi_arid"; "moderate"; "wet"] (CFloat x) = Ok (CStr "arid").
Proof.
  intros H1 H2. unfold cut, searchsorted_left.
  cbn [as_float bind List.filter].
  rewrite H1, (PyFloatFacts.leb_ltb_false _ _ H2).
  rewrite (above_false x _ (PyFloat.of_Z 1000) H2 eq_refl).
  rewrite (above_false x _ (PyFloat.of_Z 2000) H2 eq_refl).
  rewrite (above_false x _ inf H2 eq_refl).
  destruct (PyFloatFacts.leb_not_nan _ _ H2) as [-> _].
  reflexivity.
Qed.

End Features.

Section FeatureBoundaries.
Import Pandas Engineering.

(** On the row with avg_temp = 10 and rainfall_mm = 500 the categories
    are "cold" and "arid", not "temperate" and "semi_arid". *)
Lemma create_features_boundary_lower_bucket :
  (let! out := create_features Samples.log1p_stand_in Samples.boundary_table in
   iloc out "temp_category" 0) = Ok (CStr "cold")
  /\ (let! out := create_features Samples.log1p_stand_in Samples.boundary_table in
      iloc out "temp_category" 0) <> Ok (CStr "temperate")
  /\ (let! out := create_features Samples.log1p_stand_in Samples.boundary_table in
      iloc out "rainfall_category" 0) = Ok (CStr "arid")
  /\ (let! out := create_features Samples.log1p_stand_in Samples.boundary_table in
      iloc out "rainfall_category" 0) <> Ok (CStr "semi_arid").
Proof. split_and!; vm_compute; (reflexivity || discriminate). Qed.

(** C5 (amended). The bins of the Feature Builder are closed on the
    right, so a boundary value falls into the lower bucket: on the rows
    of [boundary_table], avg_temp = 10 gets "cold", 9.999 gets "cold" and
    10.0001 gets "temperate"; rainfall_mm = 500 gets "arid" and 501 gets
    "semi_arid"; and so for the other edges (20 is "temperate", 30 is
    "warm", 1000 is "semi_arid", 2000 is "moderate").  A row with
    pesticides_tonnes = 0 gets log_pesticides = 0.0, whatever the math
    library computes elsewhere. *)
Theorem create_features_boundaries (libm_log1p : spec_float -> spec_float) :
  (let! out := create_features libm_log1p Samples.boundary_table in
   mapM (iloc out "temp_category") [0; 1; 2]%nat)
  = Ok [CStr "cold"; CStr "cold"; CStr "temperate"]
  /\ (let! out := create_features libm_log1p Samples.boundary_table in
      mapM (iloc out "rainfall_category") [0; 1; 2]%nat)
     = Ok [CStr "arid"; CStr "arid"; CStr "semi_arid"]
  /\ (let! out := create_features libm_log1p Samples.boundary_table in
      mapM (iloc out "log_pesticides") [0; 1; 2]%nat)
     = Ok [CFloat PyFloat.zero; CFloat PyFloat.zero; CFloat PyFloat.zero]
  /\ mapM (cut [neg_inf; PyFloat.of_Z 10; PyFloat.of_Z 20; PyFloat.of_Z 30; inf]
               ["cold"; "temperate"; "warm"; "hot"])
          [CInt 10; CInt 20; CInt 30]
     = Ok [CStr "cold"; CStr "temperate"; CStr "warm"]
  /\ mapM (cut [neg_inf; PyFloat.of_Z 500; PyFloat.of_Z 1000; PyFloat.of_Z 2000; inf]
               ["arid"; "semi_arid"; "moderate"; "wet"])
          [CInt 500; CInt 1000; CInt 2000]
     = Ok [CStr "arid"; CStr "semi_arid"; CStr "moderate"]
  /\ log1p_cell libm_log1p (CInt 0) = Ok (CFloat PyFloat.zero)
  /\ log1p_cell libm_log1p (CFloat PyFloat.zero) = Ok (CFloat PyFloat.zero).
Proof. split_and!; vm_compute; reflexivity. Qed.

End FeatureBoundaries.

(** ** Fusion (src/data/fusion.py) *)

Section MergeFacts.
Import Pandas Fusion.

Lemma mapM_Ok_inv2 {A B} (f : A -> result B) (a1 a2 : A) (l : list B) :
  mapM f [a1; a2] = Ok l ->
  exists b1 b2, f a1 = Ok b1 /\ f a2 = Ok b2 /\ l = [b1; b2].
Proof.
  cbn. destruct (f a1) as [b1|]; [|discriminate].
  destruct (f a2) as [b2|]; [|discriminate].
  cbn. intros [= <-]. eauto.
Qed.

Lemma mapM_Ok_inv3 {A B} (f : A -> result B) (a1 a2 a3 : A) (l : list B) :
  mapM f [a1; a2; a3] = Ok l ->
  exists b1 b2 b3, f a1 = Ok b1 /\ f a2 = Ok b2 /\ f a3 = Ok b3 /\ l = [b1; b2; b3].
Proof.
  cbn. destruct (f a1) as [b1|]; [|discriminate].
  destruct (f a2) as [b2|]; [|discriminate].
  destruct (f a3) as [b3|]; [|discriminate].
  cbn. intros [= <-]. eauto 10.
Qed.

(** What [ctx[["country", "year", value]]] is. *)
Lemma select_context (ctx sel : DataFrame) (v : string) :
  select ctx ["country"; "year"; v] = Ok sel ->
  exists cc cy cv,
    locate ctx "country" = Ok cc /\ locate ctx "year" = Ok cy
    /\ locate ctx v = Ok cv
    /\ sel = {| columns := ["country"; "year"; v];
                rows := map (fun r => [cell_at r cc; cell_at r cy; cell_at r cv])
                            (rows ctx) |}.
Proof.
  unfold select. intros H.
  apply bind_Ok_inv in H as (idx & Hidx & H). injection H as <-.
  apply mapM_Ok_inv3 in Hidx as (cc & cy & cv & H1 & H2 & H3 & ->).
  exists cc, cy, cv. done.
Qed.

Lemma index_of_lt (c : string) (cols : list string) (i : nat) :
  index_of c cols = Some i -> (i < length cols)%nat.
Proof.
  revert i. induction cols as [|x cols IH]; intros i; cbn; [discriminate|].
  destruct (String.eqb x c).
  - intros [= <-]. lia.
  - destruct (index_of c cols) as [j|]; cbn; [|discriminate].
    intros [= <-]. specialize (IH j eq_refl). lia.
Qed.

Lemma locate_lt (df : DataFrame) (c : string) (i : nat) :
  locate df c = Ok i -> (i < length (columns df))%nat.
Proof. intros H. apply locate_Ok_index in H as [H _]. by eapply index_of_lt. Qed.

(** Position and multiplicity of a label are unchanged by a renaming that
    neither hits nor produces it, and by appending other labels. *)
Lemma index_of_rename_app (k : string) (ren : string -> string)
    (cols extra : list string) :
  ren k = k -> (forall c, ren c = k -> c = k) -> k ∉ extra ->
  k ∈ cols ->
  index_of k (map ren cols ++ extra) = index_of k cols
  /\ occurrences k (map ren cols ++ extra) = occurrences k cols.
Proof.
  intros Hk Hren Hex. unfold occurrences.
  induction cols as [|x cols IH]; intros Hin.
  - by apply elem_of_nil in Hin.
  - cbn [map app index_of List.filter].
    destruct (String.eqb_spec x k) as [->|Hne].
    + rewrite Hk, String.eqb_refl. split; [done|]. cbn [length]. f_equal.
      destruct (decide (k ∈ cols)) as [Hin'|Hnin].
      * by apply IH.
      * clear IH Hin. induction cols as [|y cols IH]; cbn.
        -- induction extra as [|z extra IHe]; [done|]. cbn.
           apply not_elem_of_cons in Hex as [Hz Hex].
           destruct (String.eqb_spec z k) as [->|_]; [done|]. by apply IHe.
        -- apply not_elem_of_cons in Hnin as [Hy Hnin].
           destruct (String.eqb_spec (ren y) k) as [E|_];
             [by apply Hren in E|].
           destruct (String.eqb_spec y k) as [E|_]; [congruence|]. by apply IH.
    + apply elem_of_cons in Hin as [->|Hin]; [done|].
      destruct (String.eqb_spec (ren x) k) as [E|_]; [by apply Hren in E|].
      destruct (IH Hin) as [-> ->]. done.
Qed.

Lemma locate_rename_app (k : string) (ren : string -> string)
    (df : DataFrame) (extra : list string) (rws : list (list cell)) (i : nat) :
  ren k = k -> (forall c, ren c = k -> c = k) -> k ∉ extra ->
  locate df k = Ok i ->
  locate {| columns := map ren (columns df) ++ extra; rows := rws |} k = Ok i.
Proof.
  intros Hk Hren Hex Hl. pose proof (locate_Ok_in _ _ _ Hl) as Hin.
  unfold locate in *. cbn [columns].
  by destruct (index_of_rename_app k ren (columns df) extra Hk Hren Hex Hin)
    as [-> ->].
Qed.

End MergeFacts.

Section MergeStep.
Import Pandas Fusion.

Ltac not_a_suffix H c :=
  repeat (destruct c as [|? c]; cbn in H; [discriminate|injection H as _ H]);
  destruct c; discriminate.

Lemma suffixed_not_country (c : string) :
  (c ++ "_x")%string <> "country" /\ (c ++ "_y")%string <> "country".
Proof. split; intros H; not_a_suffix H c. Qed.

Lemma suffixed_not_year (c : string) :
  (c ++ "_x")%string <> "year" /\ (c ++ "_y")%string <> "year".
Proof. split; intros H; not_a_suffix H c. Qed.




(** One join of [merge_datasets]: where the key columns are, what the
    labels become and what the rows are. *)
Lemma merge_context_Some (acc ctx acc' : DataFrame) (v : string) :
  v <> "country" -> v <> "year" ->
  merge_context acc (Some ctx) v = Ok acc' ->
  exists yc yy cc cy cv,
    locate acc "country" = Ok yc /\ locate acc "year" = Ok yy
    /\ locate ctx "country" = Ok cc /\ locate ctx "year" = Ok cy
    /\ locate ctx v = Ok cv
    /\ locate acc' "country" = Ok yc /\ locate acc' "year" = Ok yy
    /\ length (columns acc') = S (length (columns acc))
    /\ rows acc'
       = concat (map (join_row [yc; yy] [0; 1]%nat [2]%nat
                        (map (fun r => [cell_at r cc; cell_at r cy; cell_at r cv])
                             (rows ctx)))
                     (rows acc)).
Proof.
  intros Hv1 Hv2 H. unfold merge_context in H.
  apply bind_Ok_inv in H as (sel & Hsel & H).
  apply select_context in Hsel as (cc & cy & cv & Hcc & Hcy & Hcv & ->).
  unfold merge_left in H.
  apply bind_Ok_inv in H as (li & Hli & H).
  apply mapM_Ok_inv2 in Hli as (yc & yy & Hyc & Hyy & ->).
  assert (Hri : mapM (locate {| columns := ["country"; "year"; v];
                                rows := map (fun r => [cell_at r cc; cell_at r cy;
                                                       cell_at r cv]) (rows ctx) |})
                  ["country"; "year"] = Ok [0; 1]%nat).
  { unfold locate, occurrences. cbn.
    apply String.eqb_neq in Hv1, Hv2. by rewrite Hv1, Hv2. }
  rewrite Hri in H. cbn [bind] in H.
  assert (Hkc : "country" ∈ ["country"; "year"]) by (rewrite !elem_of_cons; tauto).
  assert (Hky : "year" ∈ ["country"; "year"]) by (rewrite !elem_of_cons; tauto).
  assert (Hrc : List.filter (fun c => negb (bool_decide (c ∈ ["country"; "year"])))
                  ["country"; "year"; v] = [v]).
  { cbn [List.filter].
    rewrite (bool_decide_eq_true_2 _ Hkc), (bool_decide_eq_true_2 _ Hky).
    rewrite (bool_decide_eq_false_2 (v ∈ ["country"; "year"])); [done|].
    rewrite !not_elem_of_cons. split_and!; [done|done|apply not_elem_of_nil]. }
  cbn [columns rows] in H. rewrite Hrc in H.
  assert (Hrj : mapM (locate {| columns := ["country"; "year"; v];
                                rows := map (fun r => [cell_at r cc; cell_at r cy;
                                                       cell_at r cv]) (rows ctx) |})
                  [v] = Ok [2]%nat).
  { assert (E1 : String.eqb "country" v = false)
      by (apply String.eqb_neq; congruence).
    assert (E2 : String.eqb "year" v = false)
      by (apply String.eqb_neq; congruence).
    unfold locate, occurrences. cbn [mapM columns index_of List.filter].
    by rewrite E1, E2, String.eqb_refl. }
  rewrite Hrj in H. cbn [bind] in H. injection H as <-.
  exists yc, yy, cc, cy, cv. split_and!; try done.
  - apply locate_rename_app; [| | |done].
    + rewrite (bool_decide_eq_true_2 _ Hkc). by rewrite andb_false_r.
    + intros c. destruct (_ && _ && _); [|done].
      intros E. by apply suffixed_not_country in E.
    + cbn. destruct (_ && _ && _).
      * intros [E|E%elem_of_nil]%elem_of_cons; [|done].
        symmetry in E. by apply suffixed_not_country in E.
      * intros [E|E%elem_of_nil]%elem_of_cons; [|done]. congruence.
  - apply locate_rename_app; [| | |done].
    + rewrite (bool_decide_eq_true_2 _ Hky). by rewrite andb_false_r.
    + intros c. destruct (_ && _ && _); [|done].
      intros E. by apply suffixed_not_year in E.
    + cbn. destruct (_ && _ && _).
      * intros [E|E%elem_of_nil]%elem_of_cons; [|done].
        symmetry in E. by apply suffixed_not_year in E.
      * intros [E|E%elem_of_nil]%elem_of_cons; [|done]. congruence.
  - cbn [columns]. rewrite length_app, length_map. cbn. lia.
Qed.

End MergeStep.

Section MergeCompose.
Import Pandas Fusion.


Lemma cell_at_app_l (l xs : list cell) (i : nat) :
  (i < length l)%nat -> cell_at (l ++ xs) i = cell_at l i.
Proof. intros H. unfold cell_at. by rewrite lookup_app_l. Qed.


Section Step.
Variable j : list cell -> list (list cell).
Hypothesis j_not_nil : forall a, j a <> [].
Hypothesis j_extends :
  forall a, Forall (fun o => exists xs, o = a ++ xs /\ length xs = 1%nat) (j a).




End Step.

End MergeCompose.

Section MergeDatasets.
Import Pandas Fusion.






End MergeDatasets.

Section MergeExamples.
Import Pandas Fusion.

(** Two context tables joined onto three yield rows: India 2001 has no
    pesticide record, Peru has no record at all. *)
Example merge_datasets_example :
  merge_datasets Samples.fusion_yield (Some Samples.fusion_pesticides)
    (Some Samples.fusion_rainfall) None = Ok Samples.fusion_out.
Proof. vm_compute. reflexivity. Qed.

(** On a well-formed yield table the filling applies to every one of its
    rows. *)
Lemma fills_missing_rows (y ctx : DataFrame) (e : list cell -> list (list cell))
    (pos : nat) :
  wf y -> fills_missing y ctx e pos ->
  exists yc yy cc cy,
    locate y "country" = Ok yc /\ locate y "year" = Ok yy
    /\ locate ctx "country" = Ok cc /\ locate ctx "year" = Ok cy
    /\ forall l, l ∈ rows y -> unmatched ctx cc cy l yc yy ->
                 Forall (fun o => isna (cell_at o pos) = true) (e l).
Proof.
  intros Hwf (yc & yy & cc & cy & H1 & H2 & H3 & H4 & H).
  exists yc, yy, cc, cy. split_and!; try done.
  intros l Hl. apply H. unfold wf in Hwf. rewrite Forall_forall in Hwf.
  by apply Hwf.
Qed.


End MergeExamples.

(** * Further properties

    Properties of the functions around those above: the loader's life
    cycle and metadata, the endpoints, the validators, and what cleaning,
    fusion and feature building keep. *)

(** ** The model loader: life cycle, metadata, prediction count
    (api/model_loader.py) *)


Lemma reachable_defaults (self : ModelLoader.t) :
  reachable self ->
  ModelLoader._default_crops self = Constants.SUPPORTED_CROPS
  /\ ModelLoader._default_features self
     = ["rainfall_mm"; "pesticides_tonnes"; "avg_temp"; "crop"; "country"].
Proof.
  induction 1 as [|self self' mf md Hr IH Hl]; [done|].
  unfold ModelLoader.load_model in Hl.
  destruct mf as [m|]; [|discriminate]. by injection Hl as <-.
Qed.



Lemma truthy_spec (m : gmap string meta_value) :
  ModelLoader.truthy (Some m) = bool_decide (m <> ∅).
Proof.
  unfold ModelLoader.truthy. apply bool_decide_ext.
  by rewrite dom_empty_iff_L.
Qed.

(** X4. Loading a model without a metadata file, or with an empty
    metadata object, leaves every property on its default: the ten default
    crops, which are the [SUPPORTED_CROPS] of src/config/constants.py, no
    country, the five default feature names and the version "unknown". *)
Theorem load_model_without_metadata (self self' : ModelLoader.t) (m : Model)
    (metadata_file : option (gmap string meta_value)) :
  reachable self ->
  default ∅ metadata_file = ∅ ->
  ModelLoader.load_model self (Some m) metadata_file = Ok self' ->
  ModelLoader.supported_crops self' = Constants.SUPPORTED_CROPS
  /\ ModelLoader.supported_crops_value self' = MList Constants.SUPPORTED_CROPS
  /\ ModelLoader.supported_countries self' = MList []
  /\ ModelLoader.feature_names self'
     = Ok (MList ["rainfall_mm"; "pesticides_tonnes"; "avg_temp"; "crop"; "country"])
  /\ ModelLoader.model_version self' = MStr "unknown".
Proof.
  intros Hr Hmd [= <-]. destruct (reachable_defaults self Hr) as [Hc Hf].
  unfold ModelLoader.supported_crops, ModelLoader.supported_crops_value,
    ModelLoader.supported_countries, ModelLoader.feature_names,
    ModelLoader.model_version.
  cbn [ModelLoader.metadata ModelLoader._default_crops ModelLoader._default_features].
  rewrite Hmd, truthy_spec, Hc, Hf. done.
Qed.

Lemma load_model_without_metadata_witness :
  ModelLoader.supported_crops neg_loader = Constants.SUPPORTED_CROPS
  /\ ModelLoader.supported_crops_value neg_loader = MList Constants.SUPPORTED_CROPS
  /\ ModelLoader.supported_countries neg_loader = MList []
  /\ ModelLoader.feature_names neg_loader
     = Ok (MList ["rainfall_mm"; "pesticides_tonnes"; "avg_temp"; "crop"; "country"])
  /\ ModelLoader.model_version neg_loader = MStr "unknown".
Proof.
  apply (load_model_without_metadata ModelLoader.init neg_loader neg_model None).
  - apply reachable_init.
  - reflexivity.
  - reflexivity.
Defined.

(** X5. After loading a model with a metadata object that is not empty,
    the properties read the metadata: [supported_crops],
    [supported_countries] and [model_version] are the values under their
    keys, with the default of each when the key is absent, and
    [feature_names] is the sum of the two feature lists, an absent list
    counting as empty.  So metadata without feature lists gives an empty
    feature list, not the default one. *)
Theorem load_model_with_metadata (self self' : ModelLoader.t) (m : Model)
    (md : gmap string meta_value) :
  reachable self ->
  md <> ∅ ->
  ModelLoader.load_model self (Some m) (Some md) = Ok self' ->
  ModelLoader.is_loaded self' = true
  /\ ModelLoader.supported_crops_value self'
     = default (MList Constants.SUPPORTED_CROPS) (md !! "supported_crops")
  /\ ModelLoader.supported_crops self'
     = meta_iter (ModelLoader.supported_crops_value self')
  /\ ModelLoader.supported_countries self'
     = default (MList []) (md !! "supported_countries")
  /\ ModelLoader.model_version self' = default (MStr "unknown") (md !! "model_name")
  /\ ModelLoader.feature_names self'
     = meta_add (default (MList []) (md !! "numeric_features"))
         (default (MList []) (md !! "categorical_features"))
  /\ (md !! "numeric_features" = None -> md !! "categorical_features" = None ->
      ModelLoader.feature_names self' = Ok (MList [])).
Proof.
  intros Hr Hmd [= <-]. destruct (reachable_defaults self Hr) as [Hc Hf].
  unfold ModelLoader.supported_crops, ModelLoader.supported_crops_value,
    ModelLoader.supported_countries, ModelLoader.feature_names,
    ModelLoader.model_version.
  cbn [ModelLoader.metadata ModelLoader._default_crops ModelLoader._default_features
       ModelLoader.is_loaded default].
  rewrite truthy_spec, Hc, bool_decide_eq_true_2 by done.
  split_and!; try done.
  all: try (by destruct (md !! "supported_crops")).
  all: try (by destruct (md !! "supported_countries")).
  by intros -> ->.
Qed.

Lemma load_model_with_metadata_witness :
  ModelLoader.is_loaded abc_loader = true
  /\ ModelLoader.supported_crops_value abc_loader
     = default (MList Constants.SUPPORTED_CROPS)
         (({[ "supported_crops" := MList ["A"; "B"; "C"] ]}
             : gmap string meta_value) !! "supported_crops")
  /\ ModelLoader.supported_crops abc_loader
     = meta_iter (ModelLoader.supported_crops_value abc_loader)
  /\ ModelLoader.supported_countries abc_loader
     = default (MList [])
         (({[ "supported_crops" := MList ["A"; "B"; "C"] ]}
             : gmap string meta_value) !! "supported_countries")
  /\ ModelLoader.model_version abc_loader
     = default (MStr "unknown")
         (({[ "supported_crops" := MList ["A"; "B"; "C"] ]}
             : gmap string meta_value) !! "model_name")
  /\ ModelLoader.feature_names abc_loader
     = meta_add
         (default (MList [])
            (({[ "supported_crops" := MList ["A"; "B"; "C"] ]}
                : gmap string meta_value) !! "numeric_features"))
         (default (MList [])
            (({[ "supported_crops" := MList ["A"; "B"; "C"] ]}
                : gmap string meta_value) !! "categorical_features"))
  /\ ((({[ "supported_crops" := MList ["A"; "B"; "C"] ]}
          : gmap string meta_value) !! "numeric_features") = None ->
      (({[ "supported_crops" := MList ["A"; "B"; "C"] ]}
          : gmap string meta_value) !! "categorical_features") = None ->
      ModelLoader.feature_names abc_loader = Ok (MList [])).
Proof.
  apply (load_model_with_metadata ModelLoader.init abc_loader abc_model
           {[ "supported_crops" := MList ["A"; "B"; "C"] ]}).
  - apply reachable_init.
  - apply (bool_decide_unpack _). vm_compute. exact I.
  - reflexivity.
Defined.

Lemma mapM_enumerate_short_from {B} (mkr : string -> spec_float -> B)
    (preds : list spec_float) (crops : list string) (k : nat) :
  (length (drop k preds) < length crops)%nat ->
  mapM (fun ic => let! p := getitem preds (fst ic) in Ok (mkr (snd ic) p))
       (zip (seq k (length crops)) crops)
  = Raise IndexError.
Proof.
  revert k. induction crops as [|c crops IH]; intros k Hlen; [simpl in Hlen; lia|].
  cbn [length seq zip mapM fst snd].
  destruct (preds !! k) as [p|] eqn:Hk.
  - unfold getitem at 1. rewrite Hk. cbn [bind].
    rewrite IH; [done|].
    rewrite length_drop in *. apply lookup_lt_Some in Hk. cbn [length] in Hlen. lia.
  - unfold getitem at 1. by rewrite Hk.
Qed.

Lemma mapM_enumerate_short {B} (mkr : string -> spec_float -> B)
    (preds : list spec_float) (crops : list string) :
  (length preds < length crops)%nat ->
  mapM (fun ic => let! p := getitem preds (fst ic) in Ok (mkr (snd ic) p))
       (enumerate crops)
  = Raise IndexError.
Proof. intros H. apply (mapM_enumerate_short_from mkr preds crops 0). by rewrite drop_0. Qed.

(** X6. When the pipeline of a loaded loader returns its array of
    predictions, [recommend] succeeds exactly when the array has at least
    one prediction per supported crop, and then every returned crop is a
    supported crop; with a shorter array it raises [IndexError], whatever
    [top_n] is, and returns no partial list. *)
Theorem recommend_prediction_count (self : ModelLoader.t) (country : string)
    (rainfall_mm pesticides_tonnes avg_temp : spec_float) (top_n : option Z)
    (preds : list spec_float) :
  ModelLoader.is_loaded self = true ->
  ModelLoader.predict_model self
    (input_frame (ModelLoader.supported_crops self) country rainfall_mm
       pesticides_tonnes avg_temp) = Ok preds ->
  if bool_decide (length (ModelLoader.supported_crops self) <= length preds)%nat
  then exists out,
         ModelLoader.recommend self country rainfall_mm pesticides_tonnes avg_temp
           top_n = Ok out
         /\ Forall (fun r => crop r ∈ ModelLoader.supported_crops self) out
  else ModelLoader.recommend self country rainfall_mm pesticides_tonnes avg_temp
         top_n = Raise IndexError.
Proof.
  intros Hl Hp. case_bool_decide as Hlen.
  - pose proof (recommend_None_eq self country rainfall_mm pesticides_tonnes
                  avg_temp preds Hl Hp Hlen) as Hfull.
    set (raw := zip_with _ _ _) in Hfull.
    assert (Hin : Forall (fun r => crop r ∈ ModelLoader.supported_crops self)
                    (assign_ranks (list_sort predicted_yield true raw))).
    { apply Forall_forall. intros r Hr.
      assert (Hcy : crop_yield r
                    ∈ map crop_yield (list_sort predicted_yield true raw)).
      { rewrite <- assign_ranks_crop_yield. by apply list_elem_of_fmap_2. }
      apply list_elem_of_fmap in Hcy as (r' & Heq & Hr').
      rewrite list_sort_perm in Hr'. injection Heq as -> _.
      unfold raw in Hr'. apply list_elem_of_lookup in Hr' as [i Hi].
      apply lookup_zip_with_Some in Hi as (c & p & -> & Hc & _).
      cbn [crop]. by eapply list_elem_of_lookup_2. }
    destruct top_n as [n|].
    + eexists. split.
      * rewrite recommend_top_n, Hfull. reflexivity.
      * by apply slice_to_Forall.
    + eexists. split; [exact Hfull|exact Hin].
  - unfold ModelLoader.recommend. rewrite Hl. cbn [negb]. rewrite Hp. cbn [bind].
    pose proof (mapM_enumerate_short
      (fun c p => {| rank := 0; crop := c; predicted_yield := PyFloat.max0 p;
                     yield_unit := "hg/ha" |}) preds
      (ModelLoader.supported_crops self)) as Hm.
    cbv beta in Hm. rewrite Hm; [done|lia].
Qed.

Lemma recommend_prediction_count_witness :
  ModelLoader.recommend short_loader "India" f1000 f1000 f20 (Some 3)
  = Raise IndexError.
Proof.
  apply (recommend_prediction_count short_loader "India" f1000 f1000 f20 (Some 3)
           [f100]); reflexivity.
Defined.

(** ** More on the order of floats *)

Module PyFloatOrder.
Import PyFloat PyFloatFacts.

Lemma leb_false_ltb (a b : spec_float) :
  is_nan a = false -> is_nan b = false -> leb a b = false -> ltb b a = true.
Proof.
  unfold ltb, leb, SFltb, SFleb. rewrite (compare_swap a b).
  intros Ha Hb. destruct (compare_not_nan a b Ha Hb) as [c ->].
  destruct c; simpl; congruence.
Qed.

Lemma leb_ltb_trans (a b c : spec_float) :
  leb a b = true -> ltb b c = true -> ltb a c = true.
Proof.
  unfold ltb, leb, SFltb, SFleb. intros Hab Hbc.
  float_cases; cmp_cases.
Qed.

Lemma ltb_inf_false (x : spec_float) : ltb (S754_infinity false) x = false.
Proof. unfold ltb, SFltb. destruct x as [s|s| |s m e]; try destruct s; reflexivity. Qed.

Lemma ltb_neg_inf (x : spec_float) :
  ltb (S754_infinity true) x
  = negb (is_nan x) && negb (bool_decide (x = S754_infinity true)).
Proof. unfold ltb, SFltb. destruct x as [s|s| |s m e]; try destruct s; reflexivity. Qed.

Lemma ltb_neg_inf_r (x : spec_float) : ltb x (S754_infinity true) = false.
Proof. unfold ltb, SFltb. destruct x as [s|s| |s m e]; try destruct s; reflexivity. Qed.

End PyFloatOrder.

(** ** Feature building (src/features/engineering.py) *)

Section Buckets.
Import Pandas Engineering.

(** Where a number falls among four right-closed intervals. *)
Lemma cut_four (a b c : spec_float) (l1 l2 l3 l4 : string) (x : spec_float) :
  PyFloat.leb a b = true -> PyFloat.leb b c = true ->
  cut [neg_inf; a; b; c; inf] [l1; l2; l3; l4] (CFloat x)
  = Ok (if PyFloat.is_nan x || bool_decide (x = neg_inf) then nan
        else if PyFloat.leb x a then CStr l1
        else if PyFloat.leb x b then CStr l2
        else if PyFloat.leb x c then CStr l3
        else CStr l4).
Proof.
  intros Hab Hbc.
  destruct (PyFloatFacts.leb_not_nan _ _ Hab) as [Ha Hb].
  destruct (PyFloatFacts.leb_not_nan _ _ Hbc) as [_ Hc].
  unfold cut, searchsorted_left. cbn [as_float bind List.filter].
  unfold neg_inf, inf.
  rewrite PyFloatOrder.ltb_neg_inf, PyFloatOrder.ltb_inf_false.
  destruct (PyFloat.is_nan x) eqn:Hx.
  { cbn [negb andb orb]. by destruct x. }
  cbn [negb andb orb]. case_bool_decide as Hni.
  { subst x. unfold neg_inf. by rewrite !PyFloatOrder.ltb_neg_inf_r. }
  cbn [negb].
  destruct (PyFloat.leb x a) eqn:H1.
  { rewrite (PyFloatFacts.leb_ltb_false _ _ H1).
    rewrite (PyFloatFacts.leb_ltb_false x b), (PyFloatFacts.leb_ltb_false x c);
      eauto using PyFloatFacts.leb_trans. }
  rewrite (PyFloatOrder.leb_false_ltb x a Hx Ha H1).
  destruct (PyFloat.leb x b) eqn:H2.
  { rewrite (PyFloatFacts.leb_ltb_false _ _ H2).
    rewrite (PyFloatFacts.leb_ltb_false x c); eauto using PyFloatFacts.leb_trans. }
  rewrite (PyFloatOrder.leb_false_ltb x b Hx Hb H2).
  destruct (PyFloat.leb x c) eqn:H3.
  { by rewrite (PyFloatFacts.leb_ltb_false _ _ H3). }
  by rewrite (PyFloatOrder.leb_false_ltb x c Hx Hc H3).
Qed.

(** X9. The two binnings of [create_features], as functions of the
    number: a NaN and minus infinity get no category; every other number
    gets exactly one, "cold" up to and including 10, "temperate" up to and
    including 20, "warm" up to and including 30 and "hot" above (plus
    infinity included); for rainfall "arid" up to and including 500,
    "semi_arid" up to 1000, "moderate" up to 2000 and "wet" above. *)
Theorem category_buckets (x : spec_float) :
  cut [neg_inf; PyFloat.of_Z 10; PyFloat.of_Z 20; PyFloat.of_Z 30; inf]
      ["cold"; "temperate"; "warm"; "hot"] (CFloat x)
  = Ok (if PyFloat.is_nan x || bool_decide (x = neg_inf) then nan
        else if PyFloat.leb x (PyFloat.of_Z 10) then CStr "cold"
        else if PyFloat.leb x (PyFloat.of_Z 20) then CStr "temperate"
        else if PyFloat.leb x (PyFloat.of_Z 30) then CStr "warm"
        else CStr "hot")
  /\ cut [neg_inf; PyFloat.of_Z 500; PyFloat.of_Z 1000; PyFloat.of_Z 2000; inf]
         ["arid"; "semi_arid"; "moderate"; "wet"] (CFloat x)
     = Ok (if PyFloat.is_nan x || bool_decide (x = neg_inf) then nan
           else if PyFloat.leb x (PyFloat.of_Z 500) then CStr "arid"
           else if PyFloat.leb x (PyFloat.of_Z 1000) then CStr "semi_arid"
           else if PyFloat.leb x (PyFloat.of_Z 2000) then CStr "moderate"
           else CStr "wet").
Proof. split; by apply cut_four. Qed.

End Buckets.
Lemma mapM_length {A B} (f : A -> result B) (l : list A) (ys : list B) :
  mapM f l = Ok ys -> length ys = length l.
Proof.
  revert ys. induction l as [|x l IH]; intros ys; cbn.
  - by intros [= <-].
  - destruct (f x) as [y|e]; cbn; [|discriminate].
    destruct (mapM f l) as [ys'|e]; cbn; [|discriminate].
    intros [= <-]. cbn. by rewrite (IH ys').
Qed.

Section Additive.
Import Pandas Engineering.
Variable libm_log1p : spec_float -> spec_float.

Lemma appended_refl (df : DataFrame) : appended df df [].
Proof.
  split; [by rewrite app_nil_r|].
  apply Forall2_same_length_lookup_2; [done|].
  intros i r o Hr Ho. exists []. rewrite app_nil_r. split; [congruence|done].
Qed.

Lemma column_length (df : DataFrame) (i : nat) :
  length (column df i) = length (rows df).
Proof. unfold column. by rewrite length_map. Qed.

Lemma assign_appended (df cur cur' : DataFrame) (extra : list string)
    (c : string) (values : list cell) :
  appended df cur extra -> c ∉ columns df -> c ∉ extra ->
  length values = length (rows cur) ->
  assign cur c values = Ok cur' ->
  appended df cur' (extra ++ [c]).
Proof.
  intros [Hc Hr] H1 H2 Hlen. unfold assign.
  assert (Hn : index_of c (columns cur) = None).
  { apply index_of_None. rewrite Hc. set_solver. }
  rewrite Hn. intros [= <-]. split; cbn [columns rows].
  - by rewrite Hc, app_assoc.
  - revert values Hlen. induction Hr as [|r o rs os (xs & -> & Hxs) Hr IH];
      intros [|v vs] Hlen; try discriminate; cbn; constructor.
    + exists (xs ++ [v]). rewrite app_assoc. split; [done|].
      rewrite !length_app. cbn. lia.
    + apply IH. by injection Hlen.
Qed.

Lemma appended_has_col (df cur : DataFrame) (extra : list string) (c : string) :
  appended df cur extra -> c ∉ extra -> has_col cur c = has_col df c.
Proof.
  intros [Hc _] H. unfold has_col. apply bool_decide_ext. rewrite Hc. set_solver.
Qed.

(** X10. [create_features] only adds columns.  On a well-formed table
    that has none of the four engineered labels, a successful call appends
    them in a fixed order, each only when its source columns are present,
    and returns as many rows as it was given, in the same order, each
    beginning with the cells of the input row unchanged. *)
Theorem create_features_additive (df out : DataFrame) :
  wf df ->
  Forall (fun c => c ∉ columns df)
    ["temp_category"; "rainfall_category"; "log_pesticides";
     "temp_rain_interaction"] ->
  create_features libm_log1p df = Ok out ->
  columns out
  = columns df
    ++ (if has_col df "avg_temp" then ["temp_category"] else [])
    ++ (if has_col df "rainfall_mm" then ["rainfall_category"] else [])
    ++ (if has_col df "pesticides_tonnes" then ["log_pesticides"] else [])
    ++ (if has_col df "avg_temp" && has_col df "rainfall_mm"
        then ["temp_rain_interaction"] else [])
  /\ Forall2 (fun r o => take (length (columns df)) o = r) (rows df) (rows out)
  /\ wf out.
Proof.
  intros Hwf Hnew Hcf.
  apply Forall_cons in Hnew as [N1 Hnew]. apply Forall_cons in Hnew as [N2 Hnew].
  apply Forall_cons in Hnew as [N3 Hnew]. apply Forall_cons in Hnew as [N4 _].
  set (e1 := if has_col df "avg_temp" then ["temp_category"] else []).
  set (e2 := if has_col df "rainfall_mm" then ["rainfall_category"] else []).
  set (e3 := if has_col df "pesticides_tonnes" then ["log_pesticides"] else []).
  set (e4 := if has_col df "avg_temp" && has_col df "rainfall_mm"
             then ["temp_rain_interaction"] else []).
  unfold create_features in Hcf.
  apply bind_Ok_inv in Hcf as (d1 & S1 & Hcf).
  apply bind_Ok_inv in Hcf as (d2 & S2 & Hcf).
  apply bind_Ok_inv in Hcf as (d3 & S3 & Hcf).
  apply bind_Ok_inv in Hcf as (d4 & S4 & Hcf).
  injection Hcf as <-.
  assert (A1 : appended df d1 e1).
  { unfold e1. destruct (has_col df "avg_temp").
    - apply bind_Ok_inv in S1 as (i & _ & S1).
      apply bind_Ok_inv in S1 as (cats & Hm & S1).
      apply (assign_appended df df d1 [] "temp_category" cats);
        [apply appended_refl|done|set_solver| |done].
      by rewrite (mapM_length _ _ _ Hm), column_length.
    - injection S1 as <-. apply appended_refl. }
  assert (A2 : appended df d2 (e1 ++ e2)).
  { rewrite (appended_has_col df d1 e1) in S2 by (done || (unfold e1; destruct (has_col df "avg_temp"); set_solver)).
    unfold e2. destruct (has_col df "rainfall_mm").
    - apply bind_Ok_inv in S2 as (i & _ & S2).
      apply bind_Ok_inv in S2 as (cats & Hm & S2).
      apply (assign_appended df d1 d2 e1 "rainfall_category" cats);
        [done|done|unfold e1; destruct (has_col df "avg_temp"); set_solver| |done].
      by rewrite (mapM_length _ _ _ Hm), column_length.
    - injection S2 as <-. by rewrite app_nil_r. }
  assert (A3 : appended df d3 ((e1 ++ e2) ++ e3)).
  { rewrite (appended_has_col df d2 (e1 ++ e2)) in S3
      by (done || (unfold e1, e2; destruct (has_col df "avg_temp"), (has_col df "rainfall_mm"); set_solver)).
    unfold e3. destruct (has_col df "pesticides_tonnes").
    - apply bind_Ok_inv in S3 as (i & _ & S3).
      apply bind_Ok_inv in S3 as (logs & Hm & S3).
      apply (assign_appended df d2 d3 (e1 ++ e2) "log_pesticides" logs);
        [done|done| | |done].
      + unfold e1, e2; destruct (has_col df "avg_temp"), (has_col df "rainfall_mm"); set_solver.
      + by rewrite (mapM_length _ _ _ Hm), column_length.
    - injection S3 as <-. by rewrite app_nil_r. }
  assert (A4 : appended df d4 (((e1 ++ e2) ++ e3) ++ e4)).
  { assert (Hfresh : forall c, c ∈ ["avg_temp"; "rainfall_mm"] ->
                               c ∉ (e1 ++ e2) ++ e3).
    { intros c Hc. unfold e1, e2, e3.
      destruct (has_col df "avg_temp"), (has_col df "rainfall_mm"),
        (has_col df "pesticides_tonnes"); set_solver. }
    rewrite !(appended_has_col df d3 ((e1 ++ e2) ++ e3)) in S4
      by (done || (apply Hfresh; set_solver)).
    unfold e4. destruct (has_col df "avg_temp" && has_col df "rainfall_mm").
    - apply bind_Ok_inv in S4 as (i & _ & S4).
      apply bind_Ok_inv in S4 as (j & _ & S4).
      apply bind_Ok_inv in S4 as (products & Hm & S4).
      apply bind_Ok_inv in S4 as (values & Hv & S4).
      apply (assign_appended df d3 d4 ((e1 ++ e2) ++ e3) "temp_rain_interaction"
               values); [done|done| | |done].
      + unfold e1, e2, e3.
        destruct (has_col df "avg_temp"), (has_col df "rainfall_mm"),
          (has_col df "pesticides_tonnes"); set_solver.
      + rewrite (mapM_length _ _ _ Hv), (mapM_length _ _ _ Hm), length_zip,
          !column_length. lia.
    - injection S4 as <-. by rewrite app_nil_r. }
  destruct A4 as [Hc Hr]. split_and!.
  - rewrite Hc. by rewrite <- !app_assoc.
  - unfold wf in Hwf.
    clear -Hwf Hr. revert Hwf. induction Hr as [|r o rs os (xs & -> & Hxs) Hr IH];
      intros Hwf; constructor.
    + apply Forall_cons in Hwf as [Hl _]. rewrite <- Hl. by rewrite take_app_length.
    + apply IH. by apply Forall_cons in Hwf as [_ Hwf].
  - unfold wf. rewrite Hc. unfold wf in Hwf.
    clear -Hwf Hr. revert Hwf. induction Hr as [|r o rs os (xs & -> & Hxs) Hr IH];
      intros Hwf; constructor.
    + apply Forall_cons in Hwf as [Hl _].
      rewrite (length_app r), (length_app (columns df)), Hxs, Hl. done.
    + apply IH. by apply Forall_cons in Hwf as [_ Hwf].
Qed.

End Additive.

Lemma create_features_additive_witness :
  exists out,
    Engineering.create_features log1p_stand_in boundary_table = Ok out
    /\ Pandas.columns out
       = ["avg_temp"; "rainfall_mm"; "pesticides_tonnes"; "temp_category";
          "rainfall_category"; "log_pesticides"; "temp_rain_interaction"]
    /\ Forall2 (fun r o => take 3 o = r) (Pandas.rows boundary_table)
         (Pandas.rows out)
    /\ Pandas.wf out.
Proof.
  eexists. split; [vm_compute; reflexivity|].
  apply (create_features_additive log1p_stand_in boundary_table).
  - apply (bool_decide_unpack _). vm_compute. exact I.
  - apply (bool_decide_unpack _). vm_compute. exact I.
  - vm_compute. reflexivity.
Defined.
Section SelectFeatures.
Import Pandas Engineering.

Lemma occurrences_NoDup (c : string) (cols : list string) :
  NoDup cols -> c ∈ cols -> occurrences c cols = 1%nat.
Proof.
  unfold occurrences. induction 1 as [|x cols Hx Hnd IH]; intros Hc.
  - by apply elem_of_nil in Hc.
  - cbn [List.filter]. destruct (String.eqb x c) eqn:E.
    + apply String.eqb_eq in E. subst x. cbn [length]. f_equal.
      clear -Hx. induction cols as [|y cols IH]; [done|].
      cbn [List.filter]. destruct (String.eqb y c) eqn:E.
      * apply String.eqb_eq in E. subst y. set_solver.
      * apply IH. set_solver.
    + apply String.eqb_neq in E. apply IH. set_solver.
Qed.

Lemma locate_NoDup (df : DataFrame) (c : string) :
  NoDup (columns df) -> c ∈ columns df -> exists i, locate df c = Ok i.
Proof.
  intros Hnd Hc. unfold locate.
  destruct (index_of c (columns df)) as [i|] eqn:E.
  - exists i. by rewrite occurrences_NoDup.
  - apply index_of_None in E. done.
Qed.

Lemma mapM_locate_NoDup (df : DataFrame) (cols : list string) :
  NoDup (columns df) -> Forall (fun c => c ∈ columns df) cols ->
  exists idx, mapM (locate df) cols = Ok idx
              /\ Forall2 (fun c i => locate df c = Ok i) cols idx.
Proof.
  intros Hnd. induction 1 as [|c cols Hc Hcs (idx & Hm & Hf)].
  - exists []. split; [done|constructor].
  - destruct (locate_NoDup df c Hnd Hc) as [i Hi].
    exists (i :: idx). cbn [mapM]. rewrite Hi, Hm. split; [done|]. by constructor.
Qed.

(** X11. On a table whose labels are pairwise different,
    [select_features] never fails for a feature that the table lacks: [X]
    has exactly the requested features that the table has (the defaults
    for an absent or empty list), numeric ones first and in the order
    asked, with the table's rows and the cells of those columns, and [y] is
    the target column, or [None] when the table has no such column. *)
Theorem select_features_available (df : DataFrame)
    (numeric_features categorical_features : option (list string))
    (target : string) :
  NoDup (columns df) ->
  exists X y,
    select_features df numeric_features categorical_features target = Ok (X, y)
    /\ columns X
       = List.filter (has_col df)
           (list_or numeric_features ["rainfall_mm"; "pesticides_tonnes"; "avg_temp"]
            ++ list_or categorical_features ["crop"; "country"])
    /\ length (rows X) = length (rows df)
    /\ (forall j c i, columns X !! j = Some c -> locate df c = Ok i ->
                      column X j = column df i)
    /\ (forall i, locate df target = Ok i -> y = Some (column df i))
    /\ (target ∉ columns df -> y = None).
Proof.
  intros Hnd. unfold select_features.
  cbn [get_feature_names numeric categorical].
  set (avail := List.filter (has_col df) _).
  assert (Hav : Forall (fun c => c ∈ columns df) avail).
  { apply Forall_forall. intros c Hc. apply list_elem_of_In, filter_In in Hc.
    destruct Hc as [_ Hc]. by apply has_col_true. }
  destruct (mapM_locate_NoDup df avail Hnd Hav) as (idx & Hm & Hf).
  unfold select. rewrite Hm. cbn [bind].
  destruct (has_col df target) eqn:Ht.
  - apply has_col_true in Ht. destruct (locate_NoDup df target Hnd Ht) as [t Hl].
    rewrite Hl. cbn [bind]. eexists _, _. split; [reflexivity|].
    cbn [columns rows]. split_and!; try done.
    + by rewrite length_map.
    + intros j c i Hj Hi. unfold column. cbn [rows]. rewrite map_map.
      apply map_ext. intros r.
      destruct (Forall2_lookup_l _ _ _ _ _ Hf Hj) as (i' & Hi' & Hli).
      assert (i' = i) as -> by congruence.
      unfold cell_at at 1. by rewrite list_lookup_fmap, Hi'.
    + intros i Hi. congruence.
  - cbn [bind]. eexists _, _. split; [reflexivity|].
    cbn [columns rows]. split_and!; try done.
    + by rewrite length_map.
    + intros j c i Hj Hi. unfold column. cbn [rows]. rewrite map_map.
      apply map_ext. intros r.
      destruct (Forall2_lookup_l _ _ _ _ _ Hf Hj) as (i' & Hi' & Hli).
      assert (i' = i) as -> by congruence.
      unfold cell_at at 1. by rewrite list_lookup_fmap, Hi'.
    + intros i Hi. apply locate_Ok_in, has_col_true in Hi. congruence.
Qed.

Lemma select_features_available_witness :
  exists X y,
    select_features fusion_full None None "yield" = Ok (X, y)
    /\ columns X
       = List.filter (has_col fusion_full)
           (list_or None ["rainfall_mm"; "pesticides_tonnes"; "avg_temp"]
            ++ list_or None ["crop"; "country"])
    /\ length (rows X) = length (rows fusion_full)
    /\ (forall j c i, columns X !! j = Some c -> locate fusion_full c = Ok i ->
                      column X j = column fusion_full i)
    /\ (forall i, locate fusion_full "yield" = Ok i ->
                  y = Some (column fusion_full i))
    /\ ("yield" ∉ columns fusion_full -> y = None).
Proof.
  apply (select_features_available fusion_full None None "yield").
  apply (bool_decide_unpack _). vm_compute. exact I.
Defined.

End SelectFeatures.

(** ** Column names and context tables (src/data/cleaner.py) *)

Section ColumnNames.
Import Pandas.

Lemma COLUMN_MAPPING_canonical (k v : string) :
  Constants.COLUMN_MAPPING !! k = Some v ->
  PyStr.strip v = v /\ default v (Constants.COLUMN_MAPPING !! v) = v.
Proof.
  revert k v.
  change (map_Forall (fun _ v => PyStr.strip v = v
                        /\ default v (Constants.COLUMN_MAPPING !! v) = v)
            Constants.COLUMN_MAPPING).
  apply (bool_decide_unpack _). vm_compute. exact I.
Qed.

(** What the standardisation makes of one label. *)
Lemma standard_label_fixed (c : string) :
  let c' := default (PyStr.strip c) (Constants.COLUMN_MAPPING !! PyStr.strip c) in
  PyStr.strip c' = c' /\ default c' (Constants.COLUMN_MAPPING !! c') = c'.
Proof.
  cbn zeta. destruct (Constants.COLUMN_MAPPING !! PyStr.strip c) as [v|] eqn:E.
  - cbn [default]. by apply (COLUMN_MAPPING_canonical (PyStr.strip c)).
  - cbn [default]. rewrite strip_idem. split; [done|]. by rewrite E.
Qed.

(** X12. With the default mapping, which an empty mapping also selects,
    [standardize_column_names] leaves the rows and the number of columns
    as they are, produces labels without surrounding whitespace, renames
    every label that, once stripped, is a key of [COLUMN_MAPPING] to the
    value of that key, and is idempotent. *)
Theorem standardize_column_names_default (df : DataFrame) :
  let out := Cleaner.standardize_column_names df None in
  Cleaner.standardize_column_names df (Some ∅) = out
  /\ rows out = rows df
  /\ length (columns out) = length (columns df)
  /\ Forall (fun c => PyStr.strip c = c) (columns out)
  /\ (forall c v, c ∈ columns df ->
                  Constants.COLUMN_MAPPING !! PyStr.strip c = Some v ->
                  v ∈ columns out)
  /\ Cleaner.standardize_column_names out None = out.
Proof.
  cbn zeta.
  unfold Cleaner.standardize_column_names, rename, strip_columns, Cleaner.dict_or.
  cbn [columns rows]. rewrite bool_decide_eq_true_2 by done.
  rewrite !map_map. split_and!; try done.
  - by rewrite length_map.
  - apply Forall_forall. intros c' (c & -> & _)%list_elem_of_fmap.
    apply (standard_label_fixed c).
  - intros c v Hc Hv. apply list_elem_of_fmap. exists c. by rewrite Hv.
  - f_equal. apply map_ext. intros c.
    destruct (standard_label_fixed c) as [H1 H2]. cbn zeta in H1, H2.
    by rewrite H1, H2.
Qed.

End ColumnNames.
Section ContextShape.
Import Pandas.
Variable parse_int : string -> option Z.
Variable parse_float : string -> option spec_float.

(** What holds of every row of a cleaned context table. *)
Let clean_row (r : list cell) : Prop :=
  length r = 3%nat
  /\ normalize_country (cell_at r 0) = cell_at r 0
  /\ (exists z, cell_at r 1 = CInt z)
  /\ is_number (cell_at r 2) = true.

Lemma astype_int_CInt (c c' : cell) :
  astype_int parse_int c = Ok c' -> exists z, c' = CInt z.
Proof.
  destruct c as [s|z|f|]; cbn; try discriminate.
  - destruct (parse_int s); [|discriminate]. intros [= <-]. eauto.
  - intros [= <-]. eauto.
  - destruct (trunc f); [|discriminate]. intros [= <-]. eauto.
Qed.

Lemma to_numeric_is_number (c : cell) :
  is_number (to_numeric parse_float c) = true.
Proof. destruct c as [s|z|f|]; cbn; try done. by destruct (parse_float s). Qed.

Lemma context_pipeline (d1 out : DataFrame) (v : string) :
  columns d1 = ["country"; "year"; v] ->
  locate d1 "country" = Ok 0%nat -> locate d1 "year" = Ok 1%nat ->
  Forall (fun r => length r = 3%nat /\ is_number (cell_at r 2) = true) (rows d1) ->
  (let! df := Cleaner.standardize_country_names d1 "country" in
   let! df := Cleaner.year_to_int parse_int df in
   let! df := drop_duplicates ["country"; "year"] df in
   Ok df) = Ok out ->
  columns out = ["country"; "year"; v]
  /\ Forall clean_row (rows out)
  /\ NoDup (map (row_key [0; 1]%nat) (rows out))
  /\ (length (rows out) <= length (rows d1))%nat.
Proof.
  intros Hcols L0 L1 Hrows H.
  apply bind_Ok_inv in H as (d2 & H2 & H).
  apply bind_Ok_inv in H as (d3 & H3 & H).
  apply bind_Ok_inv in H as (d4 & H4 & H). injection H as <-.
  rewrite (standardize_country_names_present d1 "country" 0 L0) in H2.
  destruct (str_accessor_ok (column d1 0)); [|discriminate]. injection H2 as <-.
  unfold Cleaner.year_to_int in H3.
  rewrite (locate_columns d1 (map_column normalize_country 0 d1) "year" eq_refl), L1
    in H3.
  cbn [bind] in H3.
  apply bind_Ok_inv in H3 as (years & Hy & H3).
  unfold assign in H3. cbn [columns map_column] in H3.
  destruct (locate_Ok_index d1 "year" 1 L1) as [I1 O1]. rewrite I1, O1 in H3.
  injection H3 as <-.
  unfold drop_duplicates in H4. cbn [mapM] in H4.
  change (locate _ "country") with (locate d1 "country") in H4.
  change (locate _ "year") with (locate d1 "year") in H4.
  rewrite L0, L1 in H4. cbn [bind] in H4. injection H4 as <-.
  cbn [columns rows map_column].
  assert (Hlen : length years = length (rows d1)).
  { rewrite (mapM_length _ _ _ Hy). unfold column. cbn [rows map_column].
    by rewrite !length_map. }
  assert (Hints : Forall (fun y => exists z, y = CInt z) years).
  { eapply mapM_Forall; [|exact Hy]. intros c c'. apply astype_int_CInt. }
  assert (Hall : Forall clean_row
                   (zip_with (fun r v => <[1%nat := v]> r)
                      (map (alter normalize_country 0%nat) (rows d1)) years)).
  { clear -Hrows Hlen Hints. revert years Hlen Hints.
    induction Hrows as [|r rs [Hr Hn] Hrs IH]; intros [|y ys] Hlen Hints;
      try discriminate; cbn [map zip_with]; constructor.
    - apply Forall_cons in Hints as [[z ->] _].
      destruct r as [|c0 [|c1 [|c2 [|]]]]; try discriminate.
      cbn. split_and!; try done.
      + apply normalize_country_idem.
      + by exists z.
    - apply IH; [by injection Hlen|]. by apply Forall_cons in Hints as [_ ?]. }
  split_and!.
  - done.
  - eapply Forall_forall. intros r Hr.
    apply (sublist_subseteq _ _ (drop_seen_sublist _ [] _)) in Hr.
    rewrite Forall_forall in Hall. by apply Hall.
  - apply drop_seen_NoDup.
  - etrans; [apply sublist_length, drop_seen_sublist|].
    rewrite length_zip_with, length_map. lia.
Qed.

Lemma context_select_coerce (src d1 : DataFrame) (v : string) :
  String.eqb "country" v = false -> String.eqb "year" v = false ->
  (let! df := select src ["country"; "year"; v] in
   Cleaner.coerce_numeric parse_float v df) = Ok d1 ->
  columns d1 = ["country"; "year"; v]
  /\ locate d1 "country" = Ok 0%nat /\ locate d1 "year" = Ok 1%nat
  /\ Forall (fun r => length r = 3%nat /\ is_number (cell_at r 2) = true) (rows d1)
  /\ length (rows d1) = length (rows src).
Proof.
  intros E1 E2 H.
  assert (E1' : String.eqb v "country" = false) by (by rewrite String.eqb_sym).
  assert (E2' : String.eqb v "year" = false) by (by rewrite String.eqb_sym).
  apply bind_Ok_inv in H as (sel & Hsel & H).
  apply select_context in Hsel as (cc & cy & cv & _ & _ & _ & ->).
  set (sel := {| columns := _; rows := _ |}) in H.
  assert (L2 : locate sel v = Ok 2%nat).
  { unfold locate, occurrences. cbn [sel columns index_of List.filter].
    rewrite E1, E2, String.eqb_refl. reflexivity. }
  unfold Cleaner.coerce_numeric in H. rewrite L2 in H. cbn [bind] in H.
  rewrite (assign_map sel v 2 _ L2) in H. injection H as <-.
  cbn [columns rows map_column sel]. split_and!.
  - done.
  - unfold locate, occurrences. cbn [columns map_column sel index_of List.filter].
    rewrite E1'. reflexivity.
  - unfold locate, occurrences. cbn [columns map_column sel index_of List.filter].
    rewrite E2'. reflexivity.
  - rewrite map_map. apply Forall_map, Forall_forall. intros r _.
    cbn. split; [done|]. apply to_numeric_is_number.
  - by rewrite !length_map.
Qed.

(** X13. For each of the three known context types, a table that
    [clean_context_data] returns has exactly the columns country, year and
    the value column of the type, in this order; its (country, year) keys
    are pairwise different; every year is an integer, every value a number
    (possibly NaN), every country already in normal form; and it has at
    most as many rows as the input. *)
Theorem clean_context_data_shape (df out : DataFrame) (tag value : string) :
  (tag, value) ∈ [ ("pesticides", "pesticides_tonnes"); ("rainfall", "rainfall_mm");
                   ("temperature", "avg_temp") ] ->
  Cleaner.clean_context_data parse_int parse_float df tag = Ok out ->
  columns out = ["country"; "year"; value]
  /\ Forall (fun r => length r = 3%nat
                      /\ normalize_country (cell_at r 0) = cell_at r 0
                      /\ (exists z, cell_at r 1 = CInt z)
                      /\ is_number (cell_at r 2) = true) (rows out)
  /\ NoDup (map (row_key [0; 1]%nat) (rows out))
  /\ (length (rows out) <= length (rows df))%nat.
Proof.
  intros Htag H. unfold Cleaner.clean_context_data in H.
  apply bind_Ok_inv in H as (d1 & H1 & H).
  assert (Hd1 : exists src,
             length (rows src) = length (rows df)
             /\ (let! df := select src ["country"; "year"; value] in
                 Cleaner.coerce_numeric parse_float value df) = Ok d1
             /\ String.eqb "country" value = false
             /\ String.eqb "year" value = false).
  { repeat (apply elem_of_cons in Htag as [[= -> ->]|Htag]).
    - eexists. split; [|split; [exact H1|done]]. done.
    - eexists. split; [|split; [exact H1|done]]. done.
    - eexists. split; [|split; [exact H1|done]]. done.
    - by apply elem_of_nil in Htag. }
  destruct Hd1 as (src & Hlen & Hsc & E1 & E2).
  destruct (context_select_coerce src d1 value E1 E2 Hsc)
    as (Hc & L0 & L1 & Hrows & Hlen1).
  destruct (context_pipeline d1 out value Hc L0 L1 Hrows H) as (? & ? & ? & ?).
  split_and!; try done. lia.
Qed.

End ContextShape.

(** ** Fusion without multiplied rows, validation (src/data/fusion.py) *)

Section NoFanOut.
Import Pandas Fusion.

Lemma filter_unique_key {A K : Type} `{EqDecision K} (k : A -> K) (key : K)
    (l : list A) :
  NoDup (map k l) ->
  List.filter (fun r => bool_decide (k r = key)) l
  = match List.find (fun r => bool_decide (k r = key)) l with
    | Some r => [r]
    | None => []
    end.
Proof.
  induction l as [|x l IH]; [done|]. cbn [map]. intros Hnd.
  apply NoDup_cons in Hnd as [Hx Hnd]. cbn [List.filter List.find].
  case_bool_decide as E.
  - f_equal. clear IH Hnd. induction l as [|z l IH]; [done|].
    cbn [List.filter]. rewrite bool_decide_eq_false_2.
    + apply IH. set_solver.
    + intros Hz. apply Hx. cbn [map]. rewrite Hz, <- E. left.
  - by apply IH.
Qed.

Lemma filter_map {A B} (P : B -> bool) (f : A -> B) (l : list A) :
  List.filter P (map f l) = map f (List.filter (fun a => P (f a)) l).
Proof.
  induction l as [|x l IH]; [done|]. cbn [map List.filter].
  destruct (P (f x)); cbn [map]; by rewrite IH.
Qed.

Lemma concat_map_singleton {A B} (f : A -> B) (l : list A) :
  concat (map (fun a => [f a]) l) = map f l.
Proof. induction l as [|x l IH]; [done|]. cbn. by rewrite IH. Qed.

(** One join with a table whose keys are unique appends one cell to every
    row. *)
Lemma join_row_unique (yc yy cc cy cv : nat) (ctx : DataFrame) (l : list cell) :
  NoDup (map (row_key [cc; cy]) (rows ctx)) ->
  join_row [yc; yy] [0; 1]%nat [2]%nat
    (map (fun r => [cell_at r cc; cell_at r cy; cell_at r cv]) (rows ctx)) l
  = [ l ++ [ match List.find (fun rc => bool_decide (row_key [cc; cy] rc
                                                      = row_key [yc; yy] l))
                     (rows ctx) with
             | Some rc => cell_at rc cv
             | None => nan
             end ] ].
Proof.
  intros Hnd. unfold join_row. rewrite filter_map.
  change (fun a : list cell =>
            bool_decide (row_key [0; 1]%nat [cell_at a cc; cell_at a cy; cell_at a cv]
                         = row_key [yc; yy] l))
    with (fun a : list cell =>
            bool_decide (row_key [cc; cy] a = row_key [yc; yy] l)).
  rewrite (filter_unique_key (row_key [cc; cy]) _ _ Hnd).
  by destruct (List.find _ _).
Qed.

Lemma merge_context_unique (acc acc' : DataFrame) (ctx_df : option DataFrame)
    (v : string) (yc yy : nat) :
  v <> "country" -> v <> "year" ->
  locate acc "country" = Ok yc -> locate acc "year" = Ok yy ->
  (forall ctx, ctx_df = Some ctx -> unique_keys ctx) ->
  merge_context acc ctx_df v = Ok acc' ->
  locate acc' "country" = Ok yc /\ locate acc' "year" = Ok yy
  /\ rows acc'
     = map (fun a => a ++ context_value ctx_df v (cell_at a yc) (cell_at a yy))
           (rows acc).
Proof.
  intros Hv1 Hv2 Lc Ly Hu H. destruct ctx_df as [ctx|].
  - destruct (merge_context_Some acc ctx acc' v Hv1 Hv2 H)
      as (yc' & yy' & cc & cy & cv & Lc' & Ly' & Cc & Cy & Cv & Lc2 & Ly2 & _ & Hr).
    assert (yc' = yc) as -> by congruence. assert (yy' = yy) as -> by congruence.
    split; [done|]. split; [done|]. rewrite Hr.
    etrans; [|apply concat_map_singleton]. f_equal. apply map_ext. intros a.
    rewrite (join_row_unique yc yy cc cy cv ctx a) by (by apply (Hu ctx)).
    unfold context_value. by rewrite Cc, Cy, Cv.
  - injection H as <-. split; [done|]. split; [done|].
    cbn [context_value]. rewrite <- (map_id (rows acc)) at 1.
    apply map_ext. intros a. by rewrite app_nil_r.
Qed.


End NoFanOut.
Section ValidateFacts.
Import Pandas Fusion.
Variable is_numeric_dtype : list cell -> bool.
Variable repr : list string -> string.
Variable str : nat -> string.










End ValidateFacts.

Lemma clean_context_data_shape_witness :
  exists out,
    Cleaner.clean_context_data no_int no_float fusion_rainfall "rainfall" = Ok out
    /\ Pandas.columns out = ["country"; "year"; "rainfall_mm"]
    /\ Forall (fun r => length r = 3%nat
                        /\ Pandas.normalize_country (Pandas.cell_at r 0)
                           = Pandas.cell_at r 0
                        /\ (exists z, Pandas.cell_at r 1 = Pandas.CInt z)
                        /\ Pandas.is_number (Pandas.cell_at r 2) = true)
         (Pandas.rows out)
    /\ NoDup (map (Pandas.row_key [0; 1]%nat) (Pandas.rows out))
    /\ (length (Pandas.rows out) <= length (Pandas.rows fusion_rainfall))%nat.
Proof.
  eexists. split; [vm_compute; reflexivity|].
  apply (clean_context_data_shape no_int no_float fusion_rainfall _ "rainfall"
           "rainfall_mm").
  - apply (bool_decide_unpack _). vm_compute. exact I.
  - vm_compute. reflexivity.
Defined.


(** ** Crop validation and ranking (src/models/inference.py) *)

Section ValidateCropOutcomes.
Variable repr : list string -> string.

(** X8. The outcomes of [validate_crop]: the answer [(True, empty message)]
    is given exactly for a crop that is in the list of candidates as
    written; the crop is rejected exactly when no candidate equals it up to
    case; and a rejection carries the message that names the crop and lists
    the candidates. *)
Theorem validate_crop_outcomes (crop : string) (supported : option (list string)) :
  let candidates := list_or supported Constants.SUPPORTED_CROPS in
  (Inference.validate_crop repr crop supported = (true, EmptyString)
   <-> crop ∈ candidates)
  /\ (fst (Inference.validate_crop repr crop supported) = false
      <-> Forall (fun s => PyStr.lower s <> PyStr.lower crop) candidates)
  /\ (fst (Inference.validate_crop repr crop supported) = false ->
      snd (Inference.validate_crop repr crop supported)
      = ("Crop '" ++ crop ++ "' is not supported. Supported crops: "
         ++ repr candidates)%string).
Proof.
  cbn zeta. unfold Inference.validate_crop.
  set (candidates := list_or supported Constants.SUPPORTED_CROPS).
  case_bool_decide as Hin.
  - split_and!; [done| |done]. cbn [fst]. split; [done|].
    intros H. rewrite Forall_forall in H. by destruct (H crop Hin).
  - destruct (List.find _ candidates) as [s|] eqn:Hf.
    + apply List.find_some in Hf as [Hs Heq]. apply String.eqb_eq in Heq.
      apply list_elem_of_In in Hs.
      split_and!; [|cbn [fst]|done].
      * split; [discriminate|done].
      * split; [done|]. intros H. rewrite Forall_forall in H. by destruct (H s Hs).
    + split_and!; [|cbn [fst]|done].
      * split; [discriminate|done].
      * split; [|done]. intros _. apply Forall_forall. intros s Hs Heq.
        apply list_elem_of_In in Hs.
        pose proof (List.find_none _ _ Hf s Hs) as Hn. cbn beta in Hn.
        apply String.eqb_neq in Hn. done.
Qed.

End ValidateCropOutcomes.
Lemma predict_clamped_witness :
  ModelLoader.predict neg_loader "Wheat" "India" f1000 f1000 f20 = Ok PyFloat.zero
  /\ PyFloat.leb PyFloat.zero PyFloat.zero = true.
Proof.
  split; [reflexivity|].
  apply (predict_clamped neg_loader "Wheat" "India" f1000 f1000 f20 PyFloat.zero).
  reflexivity.
Defined.

Lemma recommend_clamped_witness :
  Forall (fun r => PyFloat.leb PyFloat.zero (predicted_yield r) = true) abc_ranked.
Proof.
  apply (recommend_clamped abc_loader "India" f1000 f1000 f20 None abc_ranked).
  vm_compute. reflexivity.
Defined.

Lemma recommend_crops_sorted_ranked_witness :
  exists full,
    Inference.recommend_crops abc_model "India" f1000 f1000 f20
      (Some ["A"; "B"; "C"]) None = Ok full
    /\ map crop_yield full ≡ₚ scored (fun p => p) ["A"; "B"; "C"] [f100; f300; f200]
    /\ StronglySorted (key_ge predicted_yield) full
    /\ (forall v, with_key snd v (map crop_yield full)
                  = with_key snd v
                      (scored (fun p => p) ["A"; "B"; "C"] [f100; f300; f200]))
    /\ map rank full = seq 1 3
    /\ (forall n, 1 <= n ->
          Inference.recommend_crops abc_model "India" f1000 f1000 f20
            (Some ["A"; "B"; "C"]) (Some n) = Ok (take (Z.to_nat n) full)
          /\ length (take (Z.to_nat n) full) = Nat.min (Z.to_nat n) 3).
Proof.
  apply (recommend_crops_sorted_ranked abc_model "India" f1000 f1000 f20
           (Some ["A"; "B"; "C"]) [f100; f300; f200]).
  - vm_compute. reflexivity.
  - reflexivity.
  - apply (bool_decide_unpack _). vm_compute. exact I.
Defined.

(** ** Input validation (src/config/schema.py) *)

Module PyFloatOrder2.
Import PyFloat PyFloatFacts.

Lemma gtb_ltb (a b : spec_float) : gtb a b = ltb b a.
Proof.
  unfold gtb, ltb, SFltb. rewrite (compare_swap a b).
  by destruct (SFcompare a b) as [[]|].
Qed.

Lemma ltb_false_iff (a b : spec_float) :
  ltb a b = false <-> is_nan a = true \/ is_nan b = true \/ leb b a = true.
Proof.
  split.
  - intros H. destruct (is_nan a) eqn:Ha; [by left|].
    destruct (is_nan b) eqn:Hb; [by right; left|].
    right; right. by apply ltb_false_leb.
  - intros [H|[H|H]].
    + destruct a; try discriminate. reflexivity.
    + destruct b; try discriminate. unfold ltb, SFltb. by destruct a.
    + by apply leb_ltb_false.
Qed.

Lemma above_iff (a lo : spec_float) :
  is_nan lo = false ->
  ltb a lo = false <-> is_nan a = true \/ leb lo a = true.
Proof.
  intros Hlo. rewrite ltb_false_iff. split.
  - intros [H|[H|H]]; [by left|congruence|by right].
  - intros [H|H]; [by left|by right; right].
Qed.

Lemma below_iff (a hi : spec_float) :
  is_nan hi = false ->
  ltb hi a = false <-> is_nan a = true \/ leb a hi = true.
Proof.
  intros Hhi. rewrite ltb_false_iff. split.
  - intros [H|[H|H]]; [congruence|by left|by right].
  - intros [H|H]; [by right; left|by right; right].
Qed.

Lemma within_iff (a lo hi : spec_float) :
  is_nan lo = false -> is_nan hi = false ->
  ltb a lo = false /\ ltb hi a = false
  <-> is_nan a = true \/ leb lo a = true /\ leb a hi = true.
Proof.
  intros Hlo Hhi. rewrite (above_iff a lo Hlo), (below_iff a hi Hhi).
  destruct (is_nan a) eqn:Ha.
  - split; intros _; [by left|split; by left].
  - split.
    + intros [[H1|H1] [H2|H2]]; try discriminate. by right.
    + intros [H|[H1 H2]]; [discriminate|]. split; by right.
Qed.

End PyFloatOrder2.

Section ConfigSchemaFacts.
Import ConfigSchema.

Lemma of_Z_not_nan_consts :
  PyFloat.is_nan (PyFloat.of_Z 0) = false
  /\ PyFloat.is_nan (PyFloat.of_Z 5000) = false
  /\ PyFloat.is_nan (PyFloat.of_Z (-10)) = false
  /\ PyFloat.is_nan (PyFloat.of_Z 50) = false.
Proof. by vm_compute. Qed.

(** X16. The [validate] methods of src/config/schema.py report no error
    exactly when every number is a NaN (which no comparison catches) or
    lies in its range: rainfall in 0..5000, pesticides from 0, temperature
    in -10..50.  These ranges lie within those of the request model of the
    API: values without NaN that pass [validate] are accepted by
    [RecommendationRequest], with any [top_n] that is absent or in 1..20. *)
Theorem validate_values_accepts (rainfall_mm pesticides_tonnes avg_temp : spec_float) :
  (validate_values rainfall_mm pesticides_tonnes avg_temp = []
   <-> (PyFloat.is_nan rainfall_mm = true
        \/ PyFloat.leb (PyFloat.of_Z 0) rainfall_mm = true
           /\ PyFloat.leb rainfall_mm (PyFloat.of_Z 5000) = true)
       /\ (PyFloat.is_nan pesticides_tonnes = true
           \/ PyFloat.leb (PyFloat.of_Z 0) pesticides_tonnes = true)
       /\ (PyFloat.is_nan avg_temp = true
           \/ PyFloat.leb (PyFloat.of_Z (-10)) avg_temp = true
              /\ PyFloat.leb avg_temp (PyFloat.of_Z 50) = true))
  /\ (validate_values rainfall_mm pesticides_tonnes avg_temp = [] ->
      PyFloat.is_nan rainfall_mm = false ->
      PyFloat.is_nan pesticides_tonnes = false ->
      PyFloat.is_nan avg_temp = false ->
      forall country top_n,
        (forall n, top_n = Some n -> 1 <= n <= 20) ->
        Schemas.new_RecommendationRequest country rainfall_mm pesticides_tonnes
          avg_temp top_n
        = Ok (Schemas.mkRecommendationRequest country rainfall_mm
                pesticides_tonnes avg_temp top_n)).
Proof.
  destruct of_Z_not_nan_consts as (N0 & N5000 & Nm10 & N50).
  assert (Hiff : validate_values rainfall_mm pesticides_tonnes avg_temp = []
    <-> (PyFloat.is_nan rainfall_mm = true
         \/ PyFloat.leb (PyFloat.of_Z 0) rainfall_mm = true
            /\ PyFloat.leb rainfall_mm (PyFloat.of_Z 5000) = true)
        /\ (PyFloat.is_nan pesticides_tonnes = true
            \/ PyFloat.leb (PyFloat.of_Z 0) pesticides_tonnes = true)
        /\ (PyFloat.is_nan avg_temp = true
            \/ PyFloat.leb (PyFloat.of_Z (-10)) avg_temp = true
               /\ PyFloat.leb avg_temp (PyFloat.of_Z 50) = true)).
  { rewrite <- (PyFloatOrder2.within_iff rainfall_mm _ _ N0 N5000).
    rewrite <- (PyFloatOrder2.above_iff pesticides_tonnes _ N0).
    rewrite <- (PyFloatOrder2.within_iff avg_temp _ _ Nm10 N50).
    unfold validate_values. rewrite !PyFloatOrder2.gtb_ltb.
    destruct (PyFloat.ltb rainfall_mm (PyFloat.of_Z 0));
    destruct (PyFloat.ltb (PyFloat.of_Z 5000) rainfall_mm);
    destruct (PyFloat.ltb pesticides_tonnes (PyFloat.of_Z 0));
    destruct (PyFloat.ltb avg_temp (PyFloat.of_Z (-10)));
    destruct (PyFloat.ltb (PyFloat.of_Z 50) avg_temp);
    cbn [orb app];
    (split; [try discriminate; done|
             try done; intros ((? & ?) & ? & ? & ?); discriminate]). }
  split; [exact Hiff|].
  intros He Hr Hp Ht country top_n Hn. apply Hiff in He as (Er & Ep & Et).
  destruct Er as [Er|[Er1 Er2]]; [congruence|].
  destruct Ep as [Ep|Ep]; [congruence|].
  destruct Et as [Et|[Et1 Et2]]; [congruence|].
  unfold Schemas.new_RecommendationRequest, Schemas.ge, Schemas.le.
  rewrite Er1, Ep.
  rewrite (PyFloatFacts.leb_trans rainfall_mm (PyFloat.of_Z 5000)
             (PyFloat.of_Z 10000) Er2 eq_refl).
  rewrite (PyFloatFacts.leb_trans (PyFloat.of_Z (-50)) (PyFloat.of_Z (-10))
             avg_temp eq_refl Et1).
  rewrite (PyFloatFacts.leb_trans avg_temp (PyFloat.of_Z 50) (PyFloat.of_Z 60)
             Et2 eq_refl).
  cbn [andb negb]. destruct top_n as [n|]; [|done].
  destruct (Hn n eq_refl) as [H1 H2].
  apply Z.leb_le in H1, H2. by rewrite H1, H2.
Qed.

End ConfigSchemaFacts.

(** ** The endpoints (api/main.py) *)

Section EndpointFacts.
Import Api.
Variable round2 : spec_float -> spec_float.
Variable str_exn : exn -> string.
Variable str_value : meta_value -> string.

Lemma assign_ranks_map {B} (g : Recommendation -> B) (l : list Recommendation) :
  (forall r n, g (set_rank r n) = g r) ->
  map g (assign_ranks l) = map g l.
Proof.
  intros Hg. unfold assign_ranks, enumerate. rewrite map_map.
  assert (H : forall k,
             map (fun ir : nat * Recommendation =>
                    g (set_rank (snd ir) (fst ir + 1)))
                 (zip (seq k (length l)) l) = map g l).
  { induction l as [|x l IH]; intros k; [done|].
    cbn [length seq zip zip_with map fst snd]. by rewrite Hg, IH. }
  apply H.
Qed.

(** What a successful [ModelLoader.recommend] has computed. *)
Lemma recommend_Ok_inv (self : ModelLoader.t) (country : string)
    (rainfall_mm pesticides_tonnes avg_temp : spec_float) (top_n : option Z)
    (out : list Recommendation) :
  ModelLoader.recommend self country rainfall_mm pesticides_tonnes avg_temp top_n
    = Ok out ->
  exists full,
    ModelLoader.recommend self country rainfall_mm pesticides_tonnes avg_temp None
      = Ok full
    /\ out = match top_n with Some n => slice_to full n | None => full end
    /\ map rank full = seq 1 (length (ModelLoader.supported_crops self))
    /\ Forall (fun r => crop r ∈ ModelLoader.supported_crops self
                        /\ yield_unit r = "hg/ha"
                        /\ PyFloat.leb PyFloat.zero (predicted_yield r) = true) full.
Proof.
  intros H.
  assert (Hl : ModelLoader.is_loaded self = true).
  { unfold ModelLoader.recommend in H. by destruct (ModelLoader.is_loaded self). }
  destruct (ModelLoader.predict_model self
              (input_frame (ModelLoader.supported_crops self) country rainfall_mm
                 pesticides_tonnes avg_temp)) as [preds|e] eqn:Hp.
  2:{ unfold ModelLoader.recommend in H. rewrite Hl, Hp in H. discriminate. }
  assert (Hlen : (length (ModelLoader.supported_crops self) <= length preds)%nat).
  { destruct (decide (length (ModelLoader.supported_crops self) <= length preds)%nat)
      as [|Hn]; [done|].
    unfold ModelLoader.recommend in H. rewrite Hl in H. cbn [negb] in H.
    rewrite Hp in H. cbn [bind] in H.
    pose proof (mapM_enumerate_short
      (fun c p => {| rank := 0; crop := c; predicted_yield := PyFloat.max0 p;
                     yield_unit := "hg/ha" |}) preds
      (ModelLoader.supported_crops self)) as Hm.
    cbv beta in Hm. rewrite Hm in H by lia. discriminate. }
  pose proof (recommend_None_eq self country rainfall_mm pesticides_tonnes
                avg_temp preds Hl Hp Hlen) as Hfull.
  set (raw := zip_with _ _ _) in Hfull.
  exists (assign_ranks (list_sort predicted_yield true raw)).
  split; [exact Hfull|]. split_and!.
  - destruct top_n as [n|].
    + rewrite recommend_top_n, Hfull in H. cbn [bind] in H. by injection H as <-.
    + rewrite Hfull in H. by injection H as <-.
  - rewrite assign_ranks_rank, list_sort_length. unfold raw.
    rewrite length_zip_with. f_equal. lia.
  - apply Forall_forall. intros r Hr.
    set (g := fun r : Recommendation => (crop r, yield_unit r, predicted_yield r)).
    assert (Hcy : g r ∈ map g (list_sort predicted_yield true raw)).
    { rewrite <- (assign_ranks_map g) by done. by apply (list_elem_of_fmap_2 g). }
    apply list_elem_of_fmap in Hcy as (r' & Heq & Hr').
    rewrite list_sort_perm in Hr'. injection Heq as -> -> ->.
    unfold raw in Hr'. apply list_elem_of_lookup in Hr' as [i Hi].
    apply lookup_zip_with_Some in Hi as (c & p & -> & Hc & _).
    cbn [crop yield_unit predicted_yield]. split_and!; [|done|].
    + by eapply list_elem_of_lookup_2.
    + apply PyFloatFacts.max0_nonneg.
Qed.

(** X17. The [/predict] endpoint answers 503 exactly when there is no
    loader or the loader is not loaded, and otherwise 200, 400 or 500.  A
    200 answer means that the crop is among the supported crops, that no
    range check fired, that [ModelLoader.predict] returned a yield, which
    is not negative, and that the response carries the request's crop, the
    unit "hg/ha", the loader's model version and that yield rounded. *)
Theorem predict_endpoint (model_loader : option ModelLoader.t)
    (request : PredictionRequest) :
  let res := predict_yield round2 str_exn str_value model_loader request in
  (status res = 503 <-> not_loaded model_loader = true)
  /\ status res ∈ [200; 400; 500; 503]
  /\ (forall r, res = Success r ->
        exists ml y,
          model_loader = Some ml
          /\ meta_in (req_crop request) (ModelLoader.supported_crops_value ml) = true
          /\ PyFloat.ltb (req_rainfall_mm request) (PyFloat.of_Z 0) = false
          /\ PyFloat.ltb (req_pesticides_tonnes request) (PyFloat.of_Z 0) = false
          /\ PyFloat.ltb (req_avg_temp request) (PyFloat.of_Z (-50)) = false
          /\ PyFloat.gtb (req_avg_temp request) (PyFloat.of_Z 60) = false
          /\ ModelLoader.predict ml (req_crop request) (req_country request)
               (req_rainfall_mm request) (req_pesticides_tonnes request)
               (req_avg_temp request) = Ok y
          /\ PyFloat.leb PyFloat.zero y = true
          /\ ModelLoader.model_version ml = MStr (resp_model_version r)
          /\ r = {| resp_crop := req_crop request;
                    resp_predicted_yield := round2 y;
                    resp_yield_unit := "hg/ha";
                    resp_model_version := resp_model_version r |}).
Proof.
  cbn zeta. unfold predict_yield, not_loaded.
  destruct model_loader as [ml|].
  2:{ cbn [status]. split_and!; [done|set_solver|discriminate]. }
  destruct (ModelLoader.is_loaded ml) eqn:Hl; cbn [negb].
  2:{ cbn [status]. split_and!; [done|set_solver|discriminate]. }
  destruct (meta_in _ _) eqn:Hin; cbn [negb].
  2:{ cbn [status]. split_and!; [done|set_solver|discriminate]. }
  destruct (PyFloat.ltb (req_rainfall_mm request) _) eqn:R.
  { cbn [status]. split_and!; [done|set_solver|discriminate]. }
  destruct (PyFloat.ltb (req_pesticides_tonnes request) _) eqn:P.
  { cbn [status]. split_and!; [done|set_solver|discriminate]. }
  destruct (PyFloat.ltb (req_avg_temp request) _) eqn:T1; cbn [orb].
  { cbn [status]. split_and!; [done|set_solver|discriminate]. }
  destruct (PyFloat.gtb (req_avg_temp request) _) eqn:T2.
  { cbn [status]. split_and!; [done|set_solver|discriminate]. }
  destruct (ModelLoader.predict ml _ _ _ _ _) as [y|e] eqn:Hp; cbn [bind].
  2:{ cbn [status]. split_and!; [done|set_solver|discriminate]. }
  destruct (ModelLoader.model_version ml) as [v|l] eqn:Hv; cbn [str_field bind].
  2:{ cbn [status]. split_and!; [done|set_solver|discriminate]. }
  cbn [status]. split_and!; [done|set_solver|].
  intros r [= <-]. exists ml, y. cbn [resp_model_version].
  split_and!; try done.
  unfold ModelLoader.predict in Hp. rewrite Hl in Hp. cbn [negb] in Hp.
  destruct (ModelLoader.predict_model ml _) as [preds|e]; [|discriminate].
  cbn [bind] in Hp. destruct (getitem preds 0) as [p|e]; [|discriminate].
  cbn [bind] in Hp. injection Hp as <-. apply PyFloatFacts.max0_nonneg.
Qed.

(** X18. The [/recommend] endpoint answers 503 exactly when there is no
    loader or the loader is not loaded, and otherwise 200, 400 or 500.  A
    200 answer carries the ranking of [ModelLoader.recommend], cut by
    [top_n] when given, with each yield rounded: supported crops only,
    each yield the rounding of a number that is not negative, ranks
    1..min(top_n, N) for a [top_n] of at least 1, and the request's four
    values as context. *)
Theorem recommend_endpoint (model_loader : option ModelLoader.t)
    (request : Schemas.RecommendationRequest) :
  let res := recommend_crops round2 str_exn model_loader request in
  (status res = 503 <-> not_loaded model_loader = true)
  /\ status res ∈ [200; 400; 500; 503]
  /\ (forall r, res = Success r ->
        exists ml full,
          model_loader = Some ml
          /\ ModelLoader.recommend ml (Schemas.country request)
               (Schemas.rainfall_mm request) (Schemas.pesticides_tonnes request)
               (Schemas.avg_temp request) None = Ok full
          /\ map rank full = seq 1 (length (ModelLoader.supported_crops ml))
          /\ Forall (fun e => crop e ∈ ModelLoader.supported_crops ml
                              /\ yield_unit e = "hg/ha"
                              /\ PyFloat.leb PyFloat.zero (predicted_yield e) = true)
               full
          /\ recommendations r
             = map (fun e => {| rank := rank e; crop := crop e;
                                predicted_yield := round2 (predicted_yield e);
                                yield_unit := yield_unit e |})
                   (match Schemas.top_n request with
                    | Some n => slice_to full n
                    | None => full
                    end)
          /\ (forall n, Schemas.top_n request = Some n -> 1 <= n ->
                map rank (recommendations r)
                = seq 1 (Nat.min (Z.to_nat n)
                           (length (ModelLoader.supported_crops ml))))
          /\ context r = (Schemas.country request, Schemas.rainfall_mm request,
                          Schemas.pesticides_tonnes request, Schemas.avg_temp request)
          /\ ModelLoader.model_version ml = MStr (model_version r)).
Proof.
  cbn zeta. unfold recommend_crops, not_loaded.
  destruct model_loader as [ml|].
  2:{ cbn [status]. split_and!; [done|set_solver|discriminate]. }
  destruct (ModelLoader.is_loaded ml) eqn:Hl; cbn [negb].
  2:{ cbn [status]. split_and!; [done|set_solver|discriminate]. }
  destruct (PyFloat.ltb (Schemas.rainfall_mm request) _) eqn:R.
  { cbn [status]. split_and!; [done|set_solver|discriminate]. }
  destruct (PyFloat.ltb (Schemas.pesticides_tonnes request) _) eqn:P.
  { cbn [status]. split_and!; [done|set_solver|discriminate]. }
  destruct (PyFloat.ltb (Schemas.avg_temp request) _) eqn:T1; cbn [orb].
  { cbn [status]. split_and!; [done|set_solver|discriminate]. }
  destruct (PyFloat.gtb (Schemas.avg_temp request) _) eqn:T2.
  { cbn [status]. split_and!; [done|set_solver|discriminate]. }
  destruct (ModelLoader.recommend ml _ _ _ _ _) as [recs|e] eqn:Hr; cbn [bind].
  2:{ cbn [status]. split_and!; [done|set_solver|discriminate]. }
  destruct (ModelLoader.model_version ml) as [v|l] eqn:Hv; cbn [str_field bind].
  2:{ cbn [status]. split_and!; [done|set_solver|discriminate]. }
  cbn [status]. split_and!; [done|set_solver|].
  intros r [= <-]. cbn [recommendations context model_version].
  destruct (recommend_Ok_inv ml _ _ _ _ _ recs Hr) as (full & Hfull & -> & Hrk & Hall).
  exists ml, full. split_and!; try done.
  intros n Hn Hn1. rewrite Hn, map_map. cbn [rank].
  unfold slice_to. destruct (0 <=? n) eqn:E; [|lia].
  rewrite <- (firstn_map rank), Hrk. apply seq_take.
Qed.

End EndpointFacts.

(** ** Cleaning, then fusion (src/data/cleaner.py, src/data/fusion.py) *)

Section Pipeline.
Import Pandas Fusion.
Variable parse_int : string -> option Z.
Variable parse_float : string -> option spec_float.

(** What [clean_yield_data] guarantees of the table it returns, read off
    that table's own columns. *)
Lemma clean_yield_data_clean (df out : DataFrame) :
  Cleaner.clean_yield_data parse_int parse_float df = Ok out ->
  (forall iy, locate out "yield" = Ok iy ->
              Forall (fun r => isna (cell_at r iy) = false) (rows out))
  /\ (forall idx, mapM (locate out) ["country"; "crop"; "year"] = Ok idx ->
                  NoDup (map (row_key idx) (rows out))).
Proof.
  intros H. unfold Cleaner.clean_yield_data in H.
  apply bind_Ok_inv in H as (mid & _ & H).
  apply bind_Ok_inv in H as (d1 & H1 & H).
  apply bind_Ok_inv in H as (d2 & H2 & H). injection H as <-.
  assert (Hc1 : columns d1 = columns mid).
  { destruct (has_col mid "yield"); [|by injection H1 as <-].
    apply bind_Ok_inv in H1 as (i & _ & H1). by injection H1 as <-. }
  assert (Hc2 : columns d2 = columns d1).
  { destruct (List.filter _ _); [by injection H2 as <-|].
    unfold drop_duplicates in H2. apply bind_Ok_inv in H2 as (idx & _ & H2).
    by injection H2 as <-. }
  assert (Hsub : rows d2 `sublist_of` rows d1).
  { destruct (List.filter _ _); [by injection H2 as <-|].
    unfold drop_duplicates in H2. apply bind_Ok_inv in H2 as (idx & _ & H2).
    injection H2 as <-. apply drop_seen_sublist. }
  split.
  - intros iy Hiy.
    assert (Hm : locate mid "yield" = Ok iy).
    { rewrite <- Hiy. symmetry. apply locate_columns. congruence. }
    assert (Hh : has_col mid "yield" = true)
      by (apply has_col_true; eapply locate_Ok_in; eauto).
    rewrite Hh, Hm in H1. cbn [bind] in H1. injection H1 as <-.
    apply Forall_forall. intros r Hr.
    apply (sublist_subseteq _ _ Hsub) in Hr. cbn [rows dropna] in Hr.
    apply list_elem_of_In, List.filter_In in Hr as [_ Hr].
    by apply negb_true_iff in Hr.
  - intros idx Hidx.
    assert (Hidx1 : mapM (locate d1) ["country"; "crop"; "year"] = Ok idx).
    { rewrite <- Hidx. cbn [mapM].
      by rewrite !(locate_columns d1 d2) by done. }
    pose proof Hidx1 as Hinv.
    apply mapM_Ok_inv3 in Hinv as (a & b & c & Ha & Hb & Hc & _).
    apply locate_Ok_in, has_col_true in Ha, Hb, Hc.
    cbn [List.filter] in H2. rewrite Ha, Hb, Hc in H2.
    unfold drop_duplicates in H2. rewrite Hidx1 in H2. cbn [bind] in H2.
    injection H2 as <-. apply drop_seen_NoDup.
Qed.

(** Every table that [clean_context_data] returns has unique keys. *)
Lemma clean_context_data_unique_keys (df out : DataFrame) (tag : string) :
  Cleaner.clean_context_data parse_int parse_float df tag = Ok out ->
  unique_keys out.
Proof.
  intros H. unfold Cleaner.clean_context_data in H.
  apply bind_Ok_inv in H as (d1 & _ & H).
  apply bind_Ok_inv in H as (d2 & _ & H).
  apply bind_Ok_inv in H as (d3 & _ & H).
  apply bind_Ok_inv in H as (d4 & H4 & H). injection H as <-.
  unfold drop_duplicates in H4.
  apply bind_Ok_inv in H4 as (idx & Hidx & H4). injection H4 as <-.
  apply mapM_Ok_inv2 in Hidx as (cc & cy & Hcc & Hcy & ->).
  intros cc' cy' Hcc' Hcy'. cbn [rows].
  change (locate _ "country") with (locate d3 "country") in Hcc'.
  change (locate _ "year") with (locate d3 "year") in Hcy'.
  assert (cc' = cc) as -> by congruence. assert (cy' = cy) as -> by congruence.
  apply drop_seen_NoDup.
Qed.

(** The labels of a table after one join step. *)
Lemma merge_context_columns (acc ctx acc' : DataFrame) (v : string) :
  v <> "country" -> v <> "year" ->
  merge_context acc (Some ctx) v = Ok acc' ->
  let overlap c :=
    bool_decide (c ∈ columns acc) && bool_decide (c ∈ ["country"; "year"; v])
    && negb (bool_decide (c ∈ ["country"; "year"])) in
  columns acc'
  = map (fun c => if overlap c then (c ++ "_x")%string else c) (columns acc)
    ++ [if overlap v then (v ++ "_y")%string else v].
Proof.
  intros Hv1 Hv2 H. unfold merge_context in H.
  apply bind_Ok_inv in H as (sel & Hsel & H).
  apply select_context in Hsel as (cc & cy & cv & Hcc & Hcy & Hcv & ->).
  unfold merge_left in H.
  apply bind_Ok_inv in H as (li & Hli & H).
  apply bind_Ok_inv in H as (ri & Hri & H).
  apply bind_Ok_inv in H as (rj & Hrj & H). injection H as <-.
  cbn [columns]. f_equal.
  cbn [List.filter].
  assert (E : bool_decide (v ∈ ["country"; "year"]) = false).
  { apply bool_decide_eq_false_2. rewrite !not_elem_of_cons.
    split_and!; [done|done|apply not_elem_of_nil]. }
  rewrite E. cbn [negb map]. by rewrite E.
Qed.

(** A join step leaves a column of the accumulated table where it was,
    unless the step adds a column with that label. *)
Lemma merge_context_keeps_label (acc acc' : DataFrame)
    (ctx_df : option DataFrame) (v k : string) (i : nat) :
  v <> "country" -> v <> "year" -> k <> v ->
  (forall c, (c ++ "_x")%string <> k /\ (c ++ "_y")%string <> k) ->
  merge_context acc ctx_df v = Ok acc' ->
  locate acc k = Ok i -> locate acc' k = Ok i.
Proof.
  intros Hv1 Hv2 Hk Hsuf H Hl. destruct ctx_df as [ctx|].
  2:{ by injection H as <-. }
  pose proof (merge_context_columns acc ctx acc' v Hv1 Hv2 H) as Hc.
  cbn zeta in Hc.
  rewrite (locate_columns
             {| columns := map _ (columns acc) ++ [_]; rows := rows acc' |}
             acc' k Hc).
  apply locate_rename_app; [| | |done].
  - destruct (bool_decide (k ∈ ["country"; "year"])) eqn:E.
    + by rewrite andb_false_r.
    + rewrite (bool_decide_eq_false_2 (k ∈ ["country"; "year"; v])).
      * by rewrite andb_false_r.
      * apply bool_decide_eq_false in E.
        rewrite !not_elem_of_cons in E. destruct E as (E1 & E2 & _).
        rewrite !not_elem_of_cons. split_and!; [done|done|done|apply not_elem_of_nil].
  - intros c. destruct (_ && _ && _); [|done].
    intros E. by destruct (Hsuf c).
  - destruct (_ && _ && _).
    + intros [E|E%elem_of_nil]%elem_of_cons; [|done].
      symmetry in E. by destruct (Hsuf v).
    + intros [E|E%elem_of_nil]%elem_of_cons; [|done]. congruence.
Qed.

Ltac not_suffixed H c :=
  repeat (destruct c as [|? c]; cbn in H; [discriminate|injection H as _ H]);
  destruct c; discriminate.

Lemma suffixed_not_crop (c : string) :
  (c ++ "_x")%string <> "crop" /\ (c ++ "_y")%string <> "crop".
Proof. split; intros H; not_suffixed H c. Qed.

Lemma suffixed_not_yield (c : string) :
  (c ++ "_x")%string <> "yield" /\ (c ++ "_y")%string <> "yield".
Proof. split; intros H; not_suffixed H c. Qed.

Lemma row_key_app_within (idx : list nat) (l xs : list cell) :
  Forall (fun i => (i < length l)%nat) idx ->
  row_key idx (l ++ xs) = row_key idx l.
Proof.
  intros H. unfold row_key. apply Forall_fmap_ext_1.
  eapply Forall_impl; [exact H|]. intros i Hi. by apply cell_at_app_l.
Qed.

(** Appending cells to rows that are long enough changes no key. *)
Lemma extended_rows_keys (J : list nat) (e : list cell -> list cell)
    (rws : list (list cell)) :
  Forall (fun l => Forall (fun i => (i < length l)%nat) J) rws ->
  Forall (fun l => Forall (fun i => (i < length l)%nat) J)
    (map (fun a => a ++ e a) rws)
  /\ forall idx, idx ⊆ J ->
       map (row_key idx) (map (fun a => a ++ e a) rws) = map (row_key idx) rws.
Proof.
  intros H. split.
  - apply Forall_map. eapply Forall_impl; [exact H|]. cbn beta. intros l Hl.
    eapply Forall_impl; [exact Hl|]. cbn beta. intros i Hi.
    rewrite length_app. lia.
  - intros idx Hidx. rewrite map_map. apply Forall_fmap_ext_1.
    eapply Forall_impl; [exact H|]. cbn beta. intros l Hl.
    apply row_key_app_within. apply Forall_forall. intros i Hi.
    rewrite Forall_forall in Hl. apply Hl, Hidx, Hi.
Qed.

(** X19. Cleaning and fusion compose: when the yield table comes from
    [clean_yield_data], is well formed and lacks some context column, and
    every supplied context table comes from [clean_context_data] for its
    type, the fused table keeps the key and yield columns where they were,
    has exactly one row per cleaned yield row, and still has pairwise
    different (country, crop, year) keys and no missing yield: the
    duplicate and missing-target checks of [validate_consolidated_data]
    cannot fail on it. *)
Theorem cleaned_fusion_keeps_keys (raw y out : DataFrame)
    (p r t : option DataFrame) (idx : list nat) (iy : nat) :
  Cleaner.clean_yield_data parse_int parse_float raw = Ok y ->
  wf y ->
  forallb (has_col y) ["rainfall_mm"; "pesticides_tonnes"; "avg_temp"] = false ->
  mapM (locate y) ["country"; "crop"; "year"] = Ok idx ->
  locate y "yield" = Ok iy ->
  (forall ctx, p = Some ctx ->
     exists src, Cleaner.clean_context_data parse_int parse_float src "pesticides"
                 = Ok ctx) ->
  (forall ctx, r = Some ctx ->
     exists src, Cleaner.clean_context_data parse_int parse_float src "rainfall"
                 = Ok ctx) ->
  (forall ctx, t = Some ctx ->
     exists src, Cleaner.clean_context_data parse_int parse_float src "temperature"
                 = Ok ctx) ->
  merge_datasets y p r t = Ok out ->
  mapM (locate out) ["country"; "crop"; "year"] = Ok idx
  /\ locate out "yield" = Ok iy
  /\ length (rows out) = length (rows y)
  /\ NoDup (map (row_key idx) (rows out))
  /\ Forall (fun row => isna (cell_at row iy) = false) (rows out).
Proof.
  intros Hclean Hwf Hctx Hidx Hiy Hp Hr Ht H.
  destruct (clean_yield_data_clean raw y Hclean) as [Hna Hnd].
  specialize (Hna iy Hiy). specialize (Hnd idx Hidx).
  apply mapM_Ok_inv3 in Hidx as (ic & icr & iyr & Lc & Lcr & Ly & ->).
  unfold merge_datasets in H. rewrite Hctx in H.
  apply bind_Ok_inv in H as (a1 & H1 & H).
  apply bind_Ok_inv in H as (a2 & H2 & H).
  apply bind_Ok_inv in H as (a3 & H3 & H). injection H as <-.
  assert (U1 : forall ctx, p = Some ctx -> unique_keys ctx).
  { intros ctx E. destruct (Hp ctx E) as [src Hs].
    by eapply clean_context_data_unique_keys. }
  assert (U2 : forall ctx, r = Some ctx -> unique_keys ctx).
  { intros ctx E. destruct (Hr ctx E) as [src Hs].
    by eapply clean_context_data_unique_keys. }
  assert (U3 : forall ctx, t = Some ctx -> unique_keys ctx).
  { intros ctx E. destruct (Ht ctx E) as [src Hs].
    by eapply clean_context_data_unique_keys. }
  destruct (merge_context_unique y a1 p "pesticides_tonnes" ic iyr)
    as (Lc1 & Ly1 & R1); try done.
  destruct (merge_context_unique a1 a2 r "rainfall_mm" ic iyr)
    as (Lc2 & Ly2 & R2); try done.
  destruct (merge_context_unique a2 a3 t "avg_temp" ic iyr)
    as (Lc3 & Ly3 & R3); try done.
  assert (Lcr3 : locate a3 "crop" = Ok icr).
  { eapply (merge_context_keeps_label a2 a3 t "avg_temp");
      [done|done|done|apply suffixed_not_crop|done|].
    eapply (merge_context_keeps_label a1 a2 r "rainfall_mm");
      [done|done|done|apply suffixed_not_crop|done|].
    eapply (merge_context_keeps_label y a1 p "pesticides_tonnes");
      [done|done|done|apply suffixed_not_crop|done|done]. }
  assert (Liy3 : locate a3 "yield" = Ok iy).
  { eapply (merge_context_keeps_label a2 a3 t "avg_temp");
      [done|done|done|apply suffixed_not_yield|done|].
    eapply (merge_context_keeps_label a1 a2 r "rainfall_mm");
      [done|done|done|apply suffixed_not_yield|done|].
    eapply (merge_context_keeps_label y a1 p "pesticides_tonnes");
      [done|done|done|apply suffixed_not_yield|done|done]. }
  set (J := [ic; icr; iyr; iy]).
  assert (B0 : Forall (fun l => Forall (fun i => (i < length l)%nat) J) (rows y)).
  { eapply Forall_impl; [exact Hwf|]. cbn beta. intros l Hl. rewrite Hl.
    unfold J. repeat constructor; by eapply locate_lt. }
  destruct (extended_rows_keys J
              (fun a => context_value p "pesticides_tonnes" (cell_at a ic)
                          (cell_at a iyr)) (rows y) B0) as [B1 K1].
  rewrite <- R1 in B1, K1.
  destruct (extended_rows_keys J
              (fun a => context_value r "rainfall_mm" (cell_at a ic)
                          (cell_at a iyr)) (rows a1) B1) as [B2 K2].
  rewrite <- R2 in B2, K2.
  destruct (extended_rows_keys J
              (fun a => context_value t "avg_temp" (cell_at a ic)
                          (cell_at a iyr)) (rows a2) B2) as [B3 K3].
  rewrite <- R3 in B3, K3.
  assert (Hkeys : forall idx, idx ⊆ J ->
                    map (row_key idx) (rows a3) = map (row_key idx) (rows y)).
  { intros idx Hsub. by rewrite K3, K2, K1. }
  split_and!.
  - cbn [mapM]. by rewrite Lc3, Lcr3, Ly3.
  - done.
  - rewrite <- (length_map (row_key [iy])), (Hkeys [iy]), length_map; [done|].
    unfold J. set_solver.
  - rewrite (Hkeys [ic; icr; iyr]); [done|]. unfold J. set_solver.
  - assert (Hy : map (row_key [iy]) (rows a3) = map (row_key [iy]) (rows y)).
    { apply Hkeys. unfold J. set_solver. }
    apply Forall_forall. intros row Hrow.
    assert (Hk : row_key [iy] row ∈ map (row_key [iy]) (rows y)).
    { rewrite <- Hy. by apply list_elem_of_fmap_2. }
    apply list_elem_of_fmap in Hk as (l & Heq & Hl).
    rewrite Forall_forall in Hna. specialize (Hna l Hl).
    unfold row_key in Heq. cbn [map] in Heq. injection Heq as ->. done.
Qed.

End Pipeline.
Lemma cleaned_fusion_keeps_keys_witness :
  mapM (Pandas.locate fusion_out) ["country"; "crop"; "year"] = Ok [0; 1; 2]%nat
  /\ Pandas.locate fusion_out "yield" = Ok 3%nat
  /\ length (Pandas.rows fusion_out) = length (Pandas.rows fusion_yield)
  /\ NoDup (map (Pandas.row_key [0; 1; 2]%nat) (Pandas.rows fusion_out))
  /\ Forall (fun row => Pandas.isna (Pandas.cell_at row 3) = false)
       (Pandas.rows fusion_out).
Proof.
  apply (cleaned_fusion_keeps_keys no_int no_float fusion_yield fusion_yield
           fusion_out (Some fusion_pesticides) (Some fusion_rainfall) None
           [0; 1; 2]%nat 3%nat).
  - vm_compute. reflexivity.
  - apply (bool_decide_unpack _). vm_compute. exact I.
  - reflexivity.
  - reflexivity.
  - reflexivity.
  - intros ctx [= <-]. exists fusion_pesticides. vm_compute. reflexivity.
  - intros ctx [= <-]. exists fusion_rainfall. vm_compute. reflexivity.
  - intros ctx [=].
  - vm_compute. reflexivity.
Defined.

(** ** Cleaning twice (src/data/cleaner.py) *)

Section Idempotence.
Import Pandas.
Variable parse_int : string -> option Z.
Variable parse_float : string -> option spec_float.

(** A property of the cell at a position that updates at other positions
    leave alone. *)
Let stable (P : nat -> list cell -> Prop) : Prop :=
  forall i j g r, i <> j -> P j r -> P j (alter g i r).

(** The column [c], when present, can be located and [P] holds of it on
    every row. *)
Let col_ok (T : DataFrame) (c : string) (P : nat -> list cell -> Prop) : Prop :=
  (has_col T c = true -> exists j, locate T c = Ok j)
  /\ (forall j, locate T c = Ok j -> Forall (P j) (rows T)).

Let fixed_by (f : cell -> cell) : nat -> list cell -> Prop :=
  fun j r => alter f j r = r.

Let is_int : nat -> list cell -> Prop :=
  fun j r => exists z, r !! j = Some (CInt z).

Lemma fixed_by_stable (f : cell -> cell) : stable (fixed_by f).
Proof.
  intros i j g r Hij H. unfold fixed_by in *.
  rewrite (list_alter_alter_ne f g r j i) by done. by rewrite H.
Qed.

Lemma is_int_stable : stable is_int.
Proof.
  intros i j g r Hij [z H]. exists z. by rewrite list_lookup_alter_ne.
Qed.

Lemma locate_Ok_lookup (T : DataFrame) (c : string) (i : nat) :
  locate T c = Ok i -> columns T !! i = Some c.
Proof.
  intros H. apply locate_Ok_index in H as [H _]. revert i H.
  induction (columns T) as [|x cols IH]; intros i; [discriminate|].
  cbn [index_of]. destruct (String.eqb_spec x c) as [->|Hne].
  - by intros [= <-].
  - destruct (index_of c cols) as [k|]; [|discriminate].
    intros [= <-]. cbn. by apply IH.
Qed.

Lemma locate_ne (T : DataFrame) (c c' : string) (i j : nat) :
  locate T c = Ok i -> locate T c' = Ok j -> c <> c' -> i <> j.
Proof.
  intros Hi Hj Hne ->. apply locate_Ok_lookup in Hi, Hj. congruence.
Qed.

(** A step that updates the cells at one position of every row. *)
Let updated_at (i : nat) (rws rws' : list (list cell)) : Prop :=
  Forall2 (fun r r' => exists g, r' = alter g i r) rws rws'.

Lemma col_ok_update (T T' : DataFrame) (c c' : string) (i : nat)
    (P : nat -> list cell -> Prop) :
  stable P -> columns T' = columns T -> locate T c = Ok i -> c <> c' ->
  updated_at i (rows T) (rows T') ->
  col_ok T c' P -> col_ok T' c' P.
Proof.
  intros Hst Hc Hi Hne Hup [H1 H2]. split.
  - rewrite (has_col_columns T T' c' Hc), (locate_columns T T' c' Hc). exact H1.
  - intros j Hj. rewrite (locate_columns T T' c' Hc) in Hj.
    specialize (H2 j Hj). assert (Hij : i <> j) by (by eapply locate_ne).
    clear -Hst Hup H2 Hij. induction Hup as [|r r' rs rs' [g ->] _ IH].
    + constructor.
    + apply Forall_cons in H2 as [Hr Hrs]. constructor; [by apply Hst|by apply IH].
Qed.

Lemma col_ok_absent (T : DataFrame) (c : string) (P : nat -> list cell -> Prop) :
  has_col T c = false -> col_ok T c P.
Proof.
  intros H. split; [congruence|]. intros j Hj.
  apply locate_Ok_in, has_col_true in Hj. congruence.
Qed.

Lemma col_ok_sublist (T T' : DataFrame) (c : string)
    (P : nat -> list cell -> Prop) :
  columns T' = columns T -> rows T' `sublist_of` rows T ->
  col_ok T c P -> col_ok T' c P.
Proof.
  intros Hc Hs [H1 H2]. split.
  - rewrite (has_col_columns T T' c Hc), (locate_columns T T' c Hc). exact H1.
  - intros j Hj. rewrite (locate_columns T T' c Hc) in Hj.
    specialize (H2 j Hj). rewrite Forall_forall in H2.
    apply Forall_forall. intros r Hr. apply H2.
    by apply (sublist_subseteq _ _ Hs).
Qed.

Lemma updated_at_map_column (f : cell -> cell) (i : nat) (T : DataFrame) :
  updated_at i (rows T) (rows (map_column f i T)).
Proof.
  cbn [rows map_column]. induction (rows T) as [|r rs IH]; constructor; eauto.
Qed.

Lemma col_ok_map_column (T : DataFrame) (c : string) (i : nat) (f : cell -> cell) :
  (forall x, f (f x) = f x) -> locate T c = Ok i ->
  col_ok (map_column f i T) c (fixed_by f).
Proof.
  intros Hf Hi. split.
  - intros _. exists i. by rewrite (locate_columns T (map_column f i T) c eq_refl).
  - intros j Hj. rewrite (locate_columns T (map_column f i T) c eq_refl), Hi in Hj.
    injection Hj as <-. cbn [rows map_column]. apply Forall_map, Forall_forall.
    intros r _. unfold fixed_by. rewrite list_alter_alter_eq.
    apply list_alter_ext; [|done]. intros x _. apply Hf.
Qed.

(** What one cleaning step does for the column [c]. *)
Let step_ok (T T' : DataFrame) (c : string) (P : nat -> list cell -> Prop) : Prop :=
  columns T' = columns T
  /\ col_ok T' c P
  /\ (T' = T \/ exists i, locate T c = Ok i /\ updated_at i (rows T) (rows T')).

Lemma step_ok_keeps (T T' : DataFrame) (c c' : string)
    (P Q : nat -> list cell -> Prop) :
  step_ok T T' c P -> stable Q -> c <> c' -> col_ok T c' Q -> col_ok T' c' Q.
Proof.
  intros (Hc & _ & [->|(i & Hi & Hup)]) Hst Hne H; [done|].
  by eapply col_ok_update.
Qed.

Lemma str_strip_idem (c : cell) : str_strip (str_strip c) = str_strip c.
Proof. destruct c; cbn; try done. by rewrite strip_idem. Qed.

Lemma to_numeric_idem (c : cell) :
  to_numeric parse_float (to_numeric parse_float c) = to_numeric parse_float c.
Proof. destruct c as [s|z|f|]; cbn; try done. by destruct (parse_float s). Qed.

Lemma country_step (T T' : DataFrame) :
  Cleaner.standardize_country_names T "country" = Ok T' ->
  step_ok T T' "country" (fixed_by normalize_country).
Proof.
  intros H. destruct (standardize_country_names_inv T T' "country" H)
    as [[Habs ->]|(i & Hi & _ & ->)].
  - split_and!; [done|by apply col_ok_absent|by left].
  - split_and!; [done| |right; exists i; split; [done|]].
    + apply col_ok_map_column; [apply normalize_country_idem|done].
    + apply updated_at_map_column.
Qed.

Lemma crop_step (T T' : DataFrame) :
  (if has_col T "crop" then
     let! i := locate T "crop" in
     let! cleaned := Cleaner.clean_text_column (column T i) in
     assign T "crop" cleaned
   else Ok T) = Ok T' ->
  step_ok T T' "crop" (fixed_by str_strip).
Proof.
  intros H. destruct (has_col T "crop") eqn:Hc.
  - apply bind_Ok_inv in H as (i & Hi & H).
    apply bind_Ok_inv in H as (cleaned & Hcl & H).
    unfold Cleaner.clean_text_column, Cleaner.series_str_strip in Hcl.
    destruct (str_accessor_ok (column T i)); [|discriminate].
    injection Hcl as <-. rewrite (assign_map T "crop" i str_strip Hi) in H.
    injection H as <-.
    split_and!; [done| |right; exists i; split; [done|]].
    + apply col_ok_map_column; [apply str_strip_idem|done].
    + apply updated_at_map_column.
  - injection H as <-. split_and!; [done|by apply col_ok_absent|by left].
Qed.

Lemma numeric_step (T T' : DataFrame) (c : string) :
  (if has_col T c then Cleaner.coerce_numeric parse_float c T else Ok T) = Ok T' ->
  step_ok T T' c (fixed_by (to_numeric parse_float)).
Proof.
  intros H. destruct (has_col T c) eqn:Hc.
  - unfold Cleaner.coerce_numeric in H.
    apply bind_Ok_inv in H as (i & Hi & H).
    rewrite (assign_map T c i _ Hi) in H. injection H as <-.
    split_and!; [done| |right; exists i; split; [done|]].
    + apply col_ok_map_column; [apply to_numeric_idem|done].
    + apply updated_at_map_column.
  - injection H as <-. split_and!; [done|by apply col_ok_absent|by left].
Qed.

Lemma astype_int_in_range (c c' : cell) :
  astype_int parse_int c = Ok c' -> c <> CNone /\ exists z, c' = CInt z.
Proof.
  destruct c as [s|z|f|]; cbn; try discriminate.
  - destruct (parse_int s); [|discriminate]. intros [= <-]. eauto.
  - intros [= <-]. eauto.
  - destruct (trunc f); [|discriminate]. intros [= <-]. eauto.
Qed.

Lemma year_step (T T' : DataFrame) :
  (if has_col T "year" then Cleaner.year_to_int parse_int T else Ok T) = Ok T' ->
  step_ok T T' "year" is_int.
Proof.
  intros H. destruct (has_col T "year") eqn:Hc.
  2:{ injection H as <-. split_and!; [done|by apply col_ok_absent|by left]. }
  pose proof (year_to_int_columns parse_int T T' H) as Hcols.
  unfold Cleaner.year_to_int in H.
  apply bind_Ok_inv in H as (i & Hi & H).
  apply bind_Ok_inv in H as (years & Hy & H).
  unfold assign in H. destruct (locate_Ok_index T "year" i Hi) as [I1 O1].
  rewrite I1, O1 in H. injection H as <-.
  assert (Hrows : Forall2 (fun r r' => (exists g, r' = alter g i r) /\ is_int i r')
                    (rows T) (zip_with (fun r v => <[i := v]> r) (rows T) years)).
  { unfold column in Hy. clear -Hy. revert years Hy.
    induction (rows T) as [|r rs IH]; intros years Hy.
    - cbn in Hy. injection Hy as <-. constructor.
    - cbn [map mapM] in Hy.
      apply bind_Ok_inv in Hy as (y & Hy1 & Hy).
      apply bind_Ok_inv in Hy as (ys & Hy2 & Hy). injection Hy as <-.
      cbn [zip_with]. constructor; [|by apply IH].
      apply astype_int_in_range in Hy1 as [Hne [z ->]]. split.
      + exists (fun _ => CInt z). apply list_insert_alter.
      + exists z. unfold cell_at in Hne.
        destruct (r !! i) as [x|] eqn:E; [|done].
        apply list_lookup_insert_eq. by eapply lookup_lt_Some. }
  split_and!; [done| |right; exists i; split; [done|]].
  - split.
    + intros _. exists i. by rewrite <- Hi.
    + intros j Hj.
      change (locate _ "year") with (locate T "year") in Hj.
      assert (j = i) as -> by congruence. cbn [rows].
      clear -Hrows. induction Hrows as [|r r' rs rs' [_ Hr] _ IH]; by constructor.
  - cbn [rows]. clear -Hrows.
    induction Hrows as [|r r' rs rs' [Hr _] _ IH]; by constructor.
Qed.

(** ** A second pass changes nothing *)

Lemma map_column_fixed (f : cell -> cell) (i : nat) (T : DataFrame) :
  Forall (fixed_by f i) (rows T) -> map_column f i T = T.
Proof.
  intros H. destruct T as [cols rws]. unfold map_column. cbn [columns rows] in *.
  f_equal. rewrite <- (map_id rws) at 2. by apply Forall_fmap_ext_1.
Qed.

Lemma fixed_by_cell (f : cell -> cell) (i : nat) (r : list cell) :
  f CNone = CNone -> fixed_by f i r -> f (cell_at r i) = cell_at r i.
Proof.
  intros Hn H. unfold fixed_by in H. unfold cell_at.
  destruct (r !! i) as [x|] eqn:E; [|done]. cbn.
  apply (f_equal (fun l => l !! i)) in H.
  rewrite list_lookup_alter_eq, E in H. cbn in H. congruence.
Qed.

Lemma str_accessor_ok_strings (col : list cell) :
  Forall (fun c => str_strip c = c) col -> str_accessor_ok col = true.
Proof.
  intros H. unfold str_accessor_ok. apply orb_true_iff.
  induction H as [|c col Hc _ IH]; [by right|].
  destruct c as [s|z|f|]; try discriminate.
  - by left.
  - destruct IH as [IH|IH]; [left|right]; cbn; [by rewrite IH|done].
Qed.

Lemma normalize_fixed_strip (c : cell) : normalize_country c = c -> str_strip c = c.
Proof.
  destruct c as [s|z|f|]; try discriminate; [|done].
  unfold normalize_country, replace, str_strip. intros [= H]. f_equal.
  destruct (Constants.COUNTRY_MAPPING !! PyStr.strip s) as [v|] eqn:E.
  - destruct (COUNTRY_MAPPING_canonical _ _ E) as [Hv _].
    change (v = s) in H. subst v. exact Hv.
  - exact H.
Qed.

Lemma country_again (T : DataFrame) :
  col_ok T "country" (fixed_by normalize_country) ->
  Cleaner.standardize_country_names T "country" = Ok T.
Proof.
  intros [H1 H2]. destruct (has_col T "country") eqn:Hc.
  2:{ by apply standardize_country_names_absent. }
  destruct (H1 eq_refl) as [i Hi]. specialize (H2 i Hi).
  rewrite (standardize_country_names_present T "country" i Hi).
  rewrite str_accessor_ok_strings.
  - by rewrite map_column_fixed.
  - unfold column. apply Forall_map. eapply Forall_impl; [exact H2|].
    cbn beta. intros r Hr. apply normalize_fixed_strip.
    by apply fixed_by_cell.
Qed.

Lemma crop_again (T : DataFrame) :
  col_ok T "crop" (fixed_by str_strip) ->
  (if has_col T "crop" then
     let! i := locate T "crop" in
     let! cleaned := Cleaner.clean_text_column (column T i) in
     assign T "crop" cleaned
   else Ok T) = Ok T.
Proof.
  intros [H1 H2]. destruct (has_col T "crop") eqn:Hc; [|done].
  destruct (H1 eq_refl) as [i Hi]. specialize (H2 i Hi).
  rewrite Hi. cbn [bind].
  unfold Cleaner.clean_text_column, Cleaner.series_str_strip.
  rewrite str_accessor_ok_strings.
  - cbn [bind]. rewrite (assign_map T "crop" i str_strip Hi).
    by rewrite map_column_fixed.
  - unfold column. apply Forall_map. eapply Forall_impl; [exact H2|].
    cbn beta. intros r Hr. by apply fixed_by_cell.
Qed.

Lemma numeric_again (T : DataFrame) (c : string) :
  col_ok T c (fixed_by (to_numeric parse_float)) ->
  (if has_col T c then Cleaner.coerce_numeric parse_float c T else Ok T) = Ok T.
Proof.
  intros [H1 H2]. destruct (has_col T c) eqn:Hc; [|done].
  destruct (H1 eq_refl) as [i Hi]. specialize (H2 i Hi).
  unfold Cleaner.coerce_numeric. rewrite Hi. cbn [bind].
  rewrite (assign_map T c i _ Hi). by rewrite map_column_fixed.
Qed.

Lemma year_again (T : DataFrame) :
  col_ok T "year" is_int ->
  (if has_col T "year" then Cleaner.year_to_int parse_int T else Ok T) = Ok T.
Proof.
  intros [H1 H2]. destruct (has_col T "year") eqn:Hc; [|done].
  destruct (H1 eq_refl) as [i Hi]. specialize (H2 i Hi).
  unfold Cleaner.year_to_int. rewrite Hi. cbn [bind].
  assert (Hy : mapM (astype_int parse_int) (column T i) = Ok (column T i)).
  { unfold column. induction H2 as [|r rs [z Hz] _ IH]; [done|].
    cbn [map mapM]. unfold cell_at at 1. rewrite Hz. cbn [default astype_int bind].
    rewrite IH. cbn [bind]. unfold cell_at. by rewrite Hz. }
  rewrite Hy. cbn [bind]. unfold assign.
  destruct (locate_Ok_index T "year" i Hi) as [-> ->].
  destruct T as [cols rws]. cbn [columns rows column] in *. do 2 f_equal.
  unfold column. cbn [rows]. rewrite zip_with_map_same. rewrite <- (map_id rws) at 2.
  apply Forall_fmap_ext_1. eapply Forall_impl; [exact H2|]. cbn beta.
  intros r [z Hz]. apply list_insert_id. unfold cell_at. by rewrite Hz.
Qed.

Lemma drop_seen_id (idx : list nat) (seen : list (list cell))
    (l : list (list cell)) :
  NoDup (map (row_key idx) l) ->
  Forall (fun r => row_key idx r ∉ seen) l ->
  drop_seen idx seen l = l.
Proof.
  revert seen. induction l as [|r l IH]; intros seen Hnd Hs; [done|].
  cbn [map] in Hnd. apply NoDup_cons in Hnd as [Hr Hnd].
  apply Forall_cons in Hs as [Hrs Hs]. cbn [drop_seen].
  rewrite bool_decide_eq_false_2 by done. f_equal. apply IH; [done|].
  apply Forall_forall. intros x Hx. apply not_elem_of_cons. split.
  - intros E. apply Hr. rewrite <- E. by apply list_elem_of_fmap_2.
  - rewrite Forall_forall in Hs. by apply Hs.
Qed.

(** The seven columns that cleaning treats, as cleaning leaves them. *)
Let cleaned_columns (T : DataFrame) : Prop :=
  col_ok T "country" (fixed_by normalize_country)
  /\ col_ok T "crop" (fixed_by str_strip)
  /\ col_ok T "year" is_int
  /\ col_ok T "yield" (fixed_by (to_numeric parse_float))
  /\ col_ok T "rainfall_mm" (fixed_by (to_numeric parse_float))
  /\ col_ok T "pesticides_tonnes" (fixed_by (to_numeric parse_float))
  /\ col_ok T "avg_temp" (fixed_by (to_numeric parse_float)).

Ltac keep Hstep Hprev :=
  apply (step_ok_keeps _ _ _ _ _ _ Hstep);
  [first [apply fixed_by_stable | apply is_int_stable] | discriminate | exact Hprev].

Lemma clean_yield_coerce_cleaned (df mid : DataFrame) :
  Cleaner.clean_yield_coerce parse_int parse_float df = Ok mid ->
  cleaned_columns mid.
Proof.
  intros H. unfold Cleaner.clean_yield_coerce in H.
  apply bind_Ok_inv in H as (s1 & H1 & H).
  apply bind_Ok_inv in H as (s2 & H2 & H).
  apply bind_Ok_inv in H as (s3 & H3 & H).
  apply bind_Ok_inv in H as (s7 & H7 & H). injection H as <-.
  cbn [foldl] in H7.
  apply bind_Ok_inv in H7 as (s6 & H6 & H7).
  apply bind_Ok_inv in H6 as (s5 & H5 & H6).
  apply bind_Ok_inv in H5 as (s4 & H4 & H5).
  apply bind_Ok_inv in H4 as (s3' & E & H4). injection E as <-.
  apply country_step in H1. apply crop_step in H2. apply year_step in H3.
  apply numeric_step in H4, H5, H6, H7.
  pose proof (proj1 (proj2 H1)) as C1.
  pose proof (proj1 (proj2 H2)) as C2.
  pose proof (proj1 (proj2 H3)) as C3.
  pose proof (proj1 (proj2 H4)) as C4.
  pose proof (proj1 (proj2 H5)) as C5.
  pose proof (proj1 (proj2 H6)) as C6.
  pose proof (proj1 (proj2 H7)) as C7.
  assert (C1_2 : col_ok s2 "country" (fixed_by normalize_country)) by keep H2 C1.
  assert (C1_3 : col_ok s3 "country" (fixed_by normalize_country)) by keep H3 C1_2.
  assert (C1_4 : col_ok s4 "country" (fixed_by normalize_country)) by keep H4 C1_3.
  assert (C1_5 : col_ok s5 "country" (fixed_by normalize_country)) by keep H5 C1_4.
  assert (C1_6 : col_ok s6 "country" (fixed_by normalize_country)) by keep H6 C1_5.
  assert (C1_7 : col_ok s7 "country" (fixed_by normalize_country)) by keep H7 C1_6.
  assert (C2_3 : col_ok s3 "crop" (fixed_by str_strip)) by keep H3 C2.
  assert (C2_4 : col_ok s4 "crop" (fixed_by str_strip)) by keep H4 C2_3.
  assert (C2_5 : col_ok s5 "crop" (fixed_by str_strip)) by keep H5 C2_4.
  assert (C2_6 : col_ok s6 "crop" (fixed_by str_strip)) by keep H6 C2_5.
  assert (C2_7 : col_ok s7 "crop" (fixed_by str_strip)) by keep H7 C2_6.
  assert (C3_4 : col_ok s4 "year" is_int) by keep H4 C3.
  assert (C3_5 : col_ok s5 "year" is_int) by keep H5 C3_4.
  assert (C3_6 : col_ok s6 "year" is_int) by keep H6 C3_5.
  assert (C3_7 : col_ok s7 "year" is_int) by keep H7 C3_6.
  assert (C4_5 : col_ok s5 "yield" (fixed_by (to_numeric parse_float)))
    by keep H5 C4.
  assert (C4_6 : col_ok s6 "yield" (fixed_by (to_numeric parse_float)))
    by keep H6 C4_5.
  assert (C4_7 : col_ok s7 "yield" (fixed_by (to_numeric parse_float)))
    by keep H7 C4_6.
  assert (C5_6 : col_ok s6 "rainfall_mm" (fixed_by (to_numeric parse_float)))
    by keep H6 C5.
  assert (C5_7 : col_ok s7 "rainfall_mm" (fixed_by (to_numeric parse_float)))
    by keep H7 C5_6.
  assert (C6_7 : col_ok s7 "pesticides_tonnes" (fixed_by (to_numeric parse_float)))
    by keep H7 C6.
  unfold cleaned_columns. done.
Qed.

Lemma standardize_column_names_again (df T : DataFrame) :
  columns T = columns (Cleaner.standardize_column_names df None) ->
  Cleaner.standardize_column_names T None = T.
Proof.
  intros Hc. destruct T as [cols rws]. cbn [columns] in Hc. subst cols.
  unfold Cleaner.standardize_column_names, rename, strip_columns, Cleaner.dict_or.
  cbn [columns rows]. f_equal. rewrite !map_map. apply map_ext. intros c.
  destruct (standard_label_fixed c) as [E1 E2]. cbn zeta in E1, E2.
  by rewrite E1, E2.
Qed.

Lemma filter_id {A} (p : A -> bool) (l : list A) :
  Forall (fun a => p a = true) l -> List.filter p l = l.
Proof.
  induction 1 as [|a l Ha _ IH]; [done|]. cbn [List.filter]. by rewrite Ha, IH.
Qed.

(** X20. [clean_yield_data] is idempotent: a table that it returns is
    returned unchanged, labels and cells, when it is cleaned again, with
    the same readers of numerals. *)
Theorem clean_yield_data_idempotent (df out : DataFrame) :
  Cleaner.clean_yield_data parse_int parse_float df = Ok out ->
  Cleaner.clean_yield_data parse_int parse_float out = Ok out.
Proof.
  intros H. unfold Cleaner.clean_yield_data in H.
  apply bind_Ok_inv in H as (mid & Hmid & H).
  apply bind_Ok_inv in H as (d1 & H1 & H).
  apply bind_Ok_inv in H as (d2 & H2 & H). injection H as <-.
  pose proof (clean_yield_coerce_columns parse_int parse_float df mid Hmid) as Hcm.
  pose proof (clean_yield_coerce_cleaned df mid Hmid) as Hcl.
  (* the first pass *)
  assert (Hc1 : columns d1 = columns mid).
  { destruct (has_col mid "yield"); [|by injection H1 as <-].
    apply bind_Ok_inv in H1 as (i & _ & H1). by injection H1 as <-. }
  assert (Hs1 : rows d1 `sublist_of` rows mid).
  { destruct (has_col mid "yield"); [|by injection H1 as <-].
    apply bind_Ok_inv in H1 as (i & _ & H1). injection H1 as <-.
    apply filter_bool_sublist. }
  assert (Hna : forall i, locate d1 "yield" = Ok i ->
                          Forall (fun r => negb (isna (cell_at r i)) = true) (rows d1)).
  { intros i Hi. rewrite (locate_columns mid d1 "yield" Hc1) in Hi.
    assert (Hh : has_col mid "yield" = true)
      by (apply has_col_true; eapply locate_Ok_in; eauto).
    rewrite Hh, Hi in H1. cbn [bind] in H1. injection H1 as <-.
    cbn [rows dropna]. apply Forall_forall. intros r Hr.
    by apply list_elem_of_In, List.filter_In in Hr as [_ Hr]. }
  set (keys := List.filter (has_col d1) ["country"; "crop"; "year"]) in H2.
  assert (Hc2 : columns d2 = columns d1).
  { destruct keys; [by injection H2 as <-|].
    unfold drop_duplicates in H2. apply bind_Ok_inv in H2 as (idx & _ & H2).
    by injection H2 as <-. }
  assert (Hs2 : rows d2 `sublist_of` rows d1).
  { destruct keys; [by injection H2 as <-|].
    unfold drop_duplicates in H2. apply bind_Ok_inv in H2 as (idx & _ & H2).
    injection H2 as <-. apply drop_seen_sublist. }
  assert (Hcols : columns d2 = columns mid) by congruence.
  assert (Hsub : rows d2 `sublist_of` rows mid) by (by etrans).
  destruct Hcl as (K1 & K2 & K3 & K4 & K5 & K6 & K7).
  apply (col_ok_sublist mid d2 _ _ Hcols Hsub) in K1, K2, K3, K4, K5, K6, K7.
  (* the second pass *)
  unfold Cleaner.clean_yield_data.
  assert (Hcoerce : Cleaner.clean_yield_coerce parse_int parse_float d2 = Ok d2).
  { unfold Cleaner.clean_yield_coerce.
    rewrite (standardize_column_names_again df d2) by congruence.
    rewrite (country_again d2 K1). cbn [bind].
    rewrite (crop_again d2 K2). cbn [bind].
    rewrite (year_again d2 K3). cbn [bind foldl].
    rewrite (numeric_again d2 "yield" K4). cbn [bind].
    rewrite (numeric_again d2 "rainfall_mm" K5). cbn [bind].
    rewrite (numeric_again d2 "pesticides_tonnes" K6). cbn [bind].
    rewrite (numeric_again d2 "avg_temp" K7). done. }
  rewrite Hcoerce. cbn [bind].
  assert (Hdrop : (if has_col d2 "yield"
                   then let! i := locate d2 "yield" in Ok (dropna i d2)
                   else Ok d2) = Ok d2).
  { destruct (has_col d2 "yield") eqn:Hy; [|done].
    destruct (proj1 K4 Hy) as [i Hi]. rewrite Hi. cbn [bind]. f_equal.
    destruct d2 as [cols rws]. unfold dropna. cbn [columns rows] in *. f_equal.
    apply filter_id.
    assert (Hi1 : locate d1 "yield" = Ok i).
    { rewrite <- Hi. symmetry. by apply locate_columns. }
    specialize (Hna i Hi1). rewrite Forall_forall in Hna.
    apply Forall_forall. intros r Hr. apply Hna.
    by apply (sublist_subseteq _ _ Hs2). }
  rewrite Hdrop. cbn [bind].
  assert (Hkeys : List.filter (has_col d2) ["country"; "crop"; "year"] = keys).
  { unfold keys. cbn [List.filter]. by rewrite !(has_col_columns d1 d2) by done. }
  rewrite Hkeys. destruct keys as [|k ks] eqn:Ek; [done|].
  unfold drop_duplicates in H2 |- *.
  apply bind_Ok_inv in H2 as (idx & Hidx & H2). injection H2 as <-.
  cbn [columns rows] in *.
  assert (Hidx2 : mapM (locate {| columns := columns d1;
                                  rows := drop_seen idx [] (rows d1) |}) (k :: ks)
                  = Ok idx).
  { rewrite <- Hidx. clear. induction (k :: ks) as [|c l IH]; [done|].
    cbn [mapM]. rewrite IH.
    by change (locate {| columns := columns d1; rows := drop_seen idx [] (rows d1) |} c)
      with (locate d1 c). }
  rewrite Hidx2. cbn [bind columns rows]. do 2 f_equal.
  apply drop_seen_id; [apply drop_seen_NoDup|].
  apply Forall_forall. intros r _. apply not_elem_of_nil.
Qed.

End Idempotence.

Lemma clean_yield_data_idempotent_witness :
  Cleaner.clean_yield_data no_int no_float yield_table = Ok yield_table_clean
  /\ Cleaner.clean_yield_data no_int no_float yield_table_clean
     = Ok yield_table_clean.
Proof.
  split; [vm_compute; reflexivity|].
  apply (clean_yield_data_idempotent no_int no_float yield_table yield_table_clean).
  vm_compute. reflexivity.
Defined.
